(** * NukaCola: the LED cluster pattern engine (LedCluster.h, NonVol.h)
      and the sketch around it (InputHelper.h, OutputHelper.h, Common.h,
      sketch_nuka_cola.ino)

    A shallow embedding of the [LedCluster] class of the Arduino Nano sketch:
    the persisted [Settings] record behind [NonVol<Settings>], the cycle clock
    ([getCurrentLightInfo]), the pattern methods, the global brightness
    scaling, the duty-cycle table and the settings mutators.

    Target conventions (AVR, Arduino core):
    - [int] is 16 bits and [long] is 32 bits, two's complement; arithmetic
      results are wrapped with [int16] / [int32];
    - [%] and [/] on integers truncate toward zero ([Z.rem], [Z.quot]);
    - [float] (and [double]) is IEEE-754 binary32.  The arithmetic the class
      needs is collected in the interface [FloatArith].  Two instances are
      given: [binary32], bit-exact on [spec_float], and [exactQ], the same
      operations without rounding error on [Q];
    - [round], [abs], [min], [max] are the Arduino.h macros;
    - [millis()] is an input of the operations that read it, [random()] is a
      stream carried by the board state, [analogWrite] and [EEPROM.put]
      append to logs carried by the board state.  [Serial] output and
      [delay] are not modelled;
    - the sketch reads [millis()], [digitalRead] and the bytes of [Serial]
      from streams carried by its environment, and [digitalWrite] appends
      to a log there; the callbacks of an [InputHelper] are the events its
      [poll] returns. *)

From Stdlib Require Import ZArith QArith Qround Bool List Lia Lqa Ascii.
From Stdlib Require Import Floats.SpecFloat.
Import ListNotations.

Local Open Scope Z_scope.

(** ** Machine integers *)

Definition int16 (z : Z) : Z := (z + 32768) mod 65536 - 32768.
Definition int32 (z : Z) : Z := (z + 2147483648) mod 4294967296 - 2147483648.

Definition LONG_MAX : Z := 2147483647.

(** Arduino.h: [#define min(a,b) ((a)<(b)?(a):(b))] and
    [#define max(a,b) ((a)>(b)?(a):(b))]. *)
Definition minZ (a b : Z) : Z := if a <? b then a else b.
Definition maxZ (a b : Z) : Z := if a >? b then a else b.

(** Arduino.h: [#define abs(x) ((x)>0?(x):-(x))], on an [int]. *)
Definition absZ (x : Z) : Z := if x >? 0 then x else int16 (- x).

(** ** Floating point interface *)

Class FloatArith (F : Type) : Type := {
  f_of_int : Z -> F;          (* conversion of an integer to float *)
  f_lit : Z -> Z -> F;        (* the literal num/den *)
  f_add : F -> F -> F;
  f_sub : F -> F -> F;
  f_mul : F -> F -> F;
  f_div : F -> F -> F;
  f_neg : F -> F;
  f_ltb : F -> F -> bool;
  f_leb : F -> F -> bool;
  f_trunc : F -> Z;           (* conversion to an integer: toward zero *)
  f_cos : F -> F;             (* libm, not part of the sketch *)
  f_sin : F -> F
}.

(** *** binary32 on [spec_float] *)

Module B32.
Definition prec : Z := 24.
Definition emax : Z := 128.

Definition of_int (z : Z) : spec_float := binary_normalize prec emax z 0 false.

Definition add := SFadd prec emax.
Definition sub := SFsub prec emax.
Definition mul := SFmul prec emax.
Definition div := SFdiv prec emax.
Definition lit (num den : Z) : spec_float := div (of_int num) (of_int den).

(** Truncation toward zero of a finite value [m * 2^e]; the conversion of
    an infinity or a NaN is undefined in C and yields 0 here. *)
Definition trunc (x : spec_float) : Z :=
  match x with
  | S754_finite s m e =>
      let v := match e with
               | Zneg p => Z.shiftr (Zpos m) (Zpos p)
               | _ => Z.shiftl (Zpos m) e
               end in
      if s then - v else v
  | _ => 0
  end.
End B32.

Definition binary32 (cosf sinf : spec_float -> spec_float) : FloatArith spec_float := {|
  f_of_int := B32.of_int;
  f_lit := B32.lit;
  f_add := B32.add;
  f_sub := B32.sub;
  f_mul := B32.mul;
  f_div := B32.div;
  f_neg := SFopp;
  f_ltb := SFltb;
  f_leb := SFleb;
  f_trunc := B32.trunc;
  f_cos := cosf;
  f_sin := sinf
|}.

(** *** Exact rationals *)

Module ExactQ.
Definition ltb (a b : Q) : bool := negb (Qle_bool b a).
Definition trunc (x : Q) : Z := Z.quot (Qnum x) (Zpos (Qden x)).
Definition lit (num den : Z) : Q := Qdiv (inject_Z num) (inject_Z den).
End ExactQ.

Definition exactQ (cosf sinf : Q -> Q) : FloatArith Q := {|
  f_of_int := inject_Z;
  f_lit := ExactQ.lit;
  f_add := Qplus;
  f_sub := Qminus;
  f_mul := Qmult;
  f_div := Qdiv;
  f_neg := Qopp;
  f_ltb := ExactQ.ltb;
  f_leb := Qle_bool;
  f_trunc := ExactQ.trunc;
  f_cos := cosf;
  f_sin := sinf
|}.

Section FloatMacros.
Context {F : Type} {FA : FloatArith F}.

(** Arduino.h: [#define round(x) ((x)>=0?(long)((x)+0.5):(long)((x)-0.5))]. *)
Definition round (x : F) : Z :=
  if f_leb (f_of_int 0) x
  then int32 (f_trunc (f_add x (f_lit 1 2)))
  else int32 (f_trunc (f_sub x (f_lit 1 2))).

(** [abs] and [min] on floats, the same macros. *)
Definition absF (x : F) : F := if f_ltb (f_of_int 0) x then x else f_neg x.
Definition minF (a b : F) : F := if f_ltb a b then a else b.
End FloatMacros.

(** ** Constants and data model (LedCluster.h) *)

(** [#define VERSION (1)] *)
Definition VERSION : Z := 1.

(** The 101 entries of the look-up table, brightness percent to 8-bit duty
    cycle. *)
Definition BRIGHTNESS_TO_DUTY_CYCLE : list Z :=
  [   0;   1;   2;   3;   4;   5;   6;   7;   8;   9;
     10;  12;  13;  14;  15;  16;  17;  18;  20;  21;
     22;  23;  24;  26;  27;  28;  30;  31;  32;  33;
     35;  36;  38;  39;  40;  42;  43;  45;  46;  48;
     49;  51;  53;  54;  56;  57;  59;  61;  63;  64;
     66;  68;  70;  72;  74;  76;  78;  80;  82;  84;
     86;  88;  90;  93;  95;  97; 100; 102; 105; 107;
    110; 113; 116; 118; 121; 124; 128; 131; 134; 137;
    141; 145; 148; 152; 156; 160; 165; 169; 174; 179;
    184; 189; 195; 201; 207; 214; 221; 229; 237; 245; 255 ].

(** [enum Patterns]; [PATTERN_COUNT] is its last enumerator. *)
Inductive Patterns : Set :=
  | JustOn | ChaseClockwise | ChaseAntiClockwise | ChaseBoth
  | WaveClockwise | WaveAntiClockwise | Throb | Throb2
  | Heartbeat | Raindrop | Flames | Static
  | PATTERN_COUNT.

Definition Patterns_to_Z (p : Patterns) : Z :=
  match p with
  | JustOn => 0 | ChaseClockwise => 1 | ChaseAntiClockwise => 2 | ChaseBoth => 3
  | WaveClockwise => 4 | WaveAntiClockwise => 5 | Throb => 6 | Throb2 => 7
  | Heartbeat => 8 | Raindrop => 9 | Flames => 10 | Static => 11
  | PATTERN_COUNT => 12
  end.

(** The enumerator a stored pattern value denotes, if any. *)
Definition Patterns_of_Z (z : Z) : option Patterns :=
  match z with
  | 0 => Some JustOn | 1 => Some ChaseClockwise | 2 => Some ChaseAntiClockwise
  | 3 => Some ChaseBoth | 4 => Some WaveClockwise | 5 => Some WaveAntiClockwise
  | 6 => Some Throb | 7 => Some Throb2 | 8 => Some Heartbeat
  | 9 => Some Raindrop | 10 => Some Flames | 11 => Some Static
  | 12 => Some PATTERN_COUNT
  | _ => None
  end.

(** [PATTERN_STRINGS] has [PATTERN_COUNT] entries: the valid indices. *)
Definition PATTERN_STRINGS_size : Z := Patterns_to_Z PATTERN_COUNT.

(** [struct Settings]: the record kept in EEPROM.  [pattern] is the raw
    stored integer of the enum, [invalid] a byte. *)
Record Settings : Set := mkSettings {
  version : Z;
  pattern : Z;
  brightnessMultiplier : Z;
  revsPerMinute : Z;
  invalid : Z
}.

Definition set_pattern (v : Z) (s : Settings) : Settings :=
  mkSettings (version s) v (brightnessMultiplier s) (revsPerMinute s) (invalid s).
Definition set_brightnessMultiplier (v : Z) (s : Settings) : Settings :=
  mkSettings (version s) (pattern s) v (revsPerMinute s) (invalid s).
Definition set_revsPerMinute (v : Z) (s : Settings) : Settings :=
  mkSettings (version s) (pattern s) (brightnessMultiplier s) v (invalid s).

(** [enum BrightnessConstants] *)
Definition MIN_BRIGHTNESS : Z := 1.
Definition MAX_BRIGHTNESS : Z := 20.
Definition BRIGHTNESS_DIVIDER : Z := MAX_BRIGHTNESS.
Definition DEFAULT_BRIGHTNESS : Z := 18.
Definition MIN_BRIGHTNESS_PCT : Z := Z.quot (100 * MIN_BRIGHTNESS) MAX_BRIGHTNESS.
Definition MAX_BRIGHTNESS_PCT : Z := 100.

(** [enum SpeedConstants] *)
Definition MIN_SPEED : Z := 6.
Definition MAX_SPEED : Z := 60.
Definition SPEED_STEP : Z := 3.
Definition DEFAULT_SPEED : Z := 18.
Definition MIN_SPEED_PCT : Z := Z.quot (100 * MIN_SPEED) MAX_SPEED.
Definition MAX_SPEED_PCT : Z := 100.

(** [enum RaindropConstants] *)
Definition RAINDROP_ANGLE : Z := 12.
Definition RAMPUP_ANGLE : Z := 3.
Definition RAMPDOWN_ANGLE : Z := RAINDROP_ANGLE - RAMPUP_ANGLE.

(** The board: what the class reaches through the Arduino core. *)
Record Board : Type := mkBoard {
  eeprom : Settings;              (* the Settings stored at address 0 *)
  eeprom_puts : list Settings;    (* every EEPROM.put, oldest first *)
  pwm_log : list (Z * Z);         (* every analogWrite (pin, value), oldest first *)
  rand_src : nat -> Z;            (* the values random() returns, in order *)
  rand_pos : nat                  (* how many have been drawn *)
}.

(** [NonVol<Settings>::operator T()]: [EEPROM.get]. *)
Definition NonVol_get (b : Board) : Settings := eeprom b.

(** [NonVol<Settings>::operator=]: [EEPROM.put]. *)
Definition NonVol_put (s : Settings) (b : Board) : Board :=
  mkBoard s (eeprom_puts b ++ [s]) (pwm_log b) (rand_src b) (rand_pos b).

Definition analogWrite (pin value : Z) (b : Board) : Board :=
  mkBoard (eeprom b) (eeprom_puts b) (pwm_log b ++ [(pin, value)])
          (rand_src b) (rand_pos b).

(** avr-libc [random()]: the next value of the stream. *)
Definition random_raw (b : Board) : Z * Board :=
  (rand_src b (rand_pos b),
   mkBoard (eeprom b) (eeprom_puts b) (pwm_log b) (rand_src b) (S (rand_pos b))).

(** WMath.cpp: [long random(long howbig)]. *)
Definition random1 (howbig : Z) (b : Board) : Z * Board :=
  if howbig =? 0 then (0, b)
  else let '(r, b') := random_raw b in (Z.rem r howbig, b').

(** WMath.cpp: [long random(long howsmall, long howbig)]. *)
Definition random2 (howsmall howbig : Z) (b : Board) : Z * Board :=
  if howsmall >=? howbig then (howsmall, b)
  else
    let diff := int32 (howbig - howsmall) in
    let '(r, b') := random1 diff b in
    (int32 (r + howsmall), b').

(** The level a pin is left at: its last [analogWrite], if any. *)
Fixpoint pin_level (pin : Z) (log : list (Z * Z)) : option Z :=
  match log with
  | [] => None
  | (p, v) :: rest =>
      match pin_level pin rest with
      | Some v' => Some v'
      | None => if p =? pin then Some v else None
      end
  end.

Section Cluster.
Context {F : Type} {FA : FloatArith F}.

(** [struct LightLocationInfo] *)
Record LightLocationInfo : Type := mkInfo {
  lead_angle : F;      (* [angle] *)
  revolution : Z
}.

(** [struct LedInfo] *)
Record LedInfo : Type := mkLed {
  index : Z;
  angle : F;
  brightness : Z;
  pin : Z;
  extra : Z
}.

Definition set_brightness (v : Z) (l : LedInfo) : LedInfo :=
  mkLed (index l) (angle l) v (pin l) (extra l).
Definition set_extra (v : Z) (l : LedInfo) : LedInfo :=
  mkLed (index l) (angle l) (brightness l) (pin l) v.

(** The members of [class LedCluster], the function-static
    [lastRevolution] of [poll], and the board.  [count] is the length of
    [leds] (the array is allocated with [count] entries and never resized). *)
Record LedCluster : Type := mkCluster {
  leds : list LedInfo;
  startTimeMs : Z;
  revTimePeriodMs : Z;
  settings : Settings;
  running : bool;
  lastRevolution : Z;
  board : Board
}.

Definition count (c : LedCluster) : Z := Z.of_nat (length (leds c)).

Definition with_leds (v : list LedInfo) (c : LedCluster) : LedCluster :=
  mkCluster v (startTimeMs c) (revTimePeriodMs c) (settings c) (running c)
            (lastRevolution c) (board c).
Definition with_startTimeMs (v : Z) (c : LedCluster) : LedCluster :=
  mkCluster (leds c) v (revTimePeriodMs c) (settings c) (running c)
            (lastRevolution c) (board c).
Definition with_revTimePeriodMs (v : Z) (c : LedCluster) : LedCluster :=
  mkCluster (leds c) (startTimeMs c) v (settings c) (running c)
            (lastRevolution c) (board c).
Definition with_settings (v : Settings) (c : LedCluster) : LedCluster :=
  mkCluster (leds c) (startTimeMs c) (revTimePeriodMs c) v (running c)
            (lastRevolution c) (board c).
Definition with_running (v : bool) (c : LedCluster) : LedCluster :=
  mkCluster (leds c) (startTimeMs c) (revTimePeriodMs c) (settings c) v
            (lastRevolution c) (board c).
Definition with_lastRevolution (v : Z) (c : LedCluster) : LedCluster :=
  mkCluster (leds c) (startTimeMs c) (revTimePeriodMs c) (settings c) (running c)
            v (board c).
Definition with_board (v : Board) (c : LedCluster) : LedCluster :=
  mkCluster (leds c) (startTimeMs c) (revTimePeriodMs c) (settings c) (running c)
            (lastRevolution c) v.

(** [settings = settingsNV;] *)
Definition load_settings (c : LedCluster) : LedCluster :=
  with_settings (NonVol_get (board c)) c.

(** [settingsNV = settings;] *)
Definition store_settings (c : LedCluster) : LedCluster :=
  with_board (NonVol_put (settings c) (board c)) c.

(** [static int forceRange(value, min_val, max_val)] *)
Definition forceRange (value min_val max_val : Z) : Z :=
  minZ (maxZ value min_val) max_val.

(** [static byte brightnessToDutyCycle(int brightness)]: the index used
    and the table entry read (0 stands for a read outside the table). *)
Definition dutyCycleIndex (brightness : Z) : Z := forceRange brightness 0 100.
Definition brightnessToDutyCycle (brightness : Z) : Z :=
  nth (Z.to_nat (dutyCycleIndex brightness)) BRIGHTNESS_TO_DUTY_CYCLE 0.

(** [void getCurrentLightInfo(LightLocationInfo *info)], [now] being the
    value [millis()] returns.  For a zero period the C code divides by
    zero; here [Z.rem x 0 = x] and [Z.quot x 0 = 0]. *)
Definition elapsedMs (now : Z) (c : LedCluster) : Z :=
  int32 (now - startTimeMs c).

Definition getCurrentLightInfo (now : Z) (c : LedCluster) : LightLocationInfo :=
  let elapsed := elapsedMs now c in
  mkInfo
    (f_div (f_mul (f_of_int 360) (f_of_int (Z.rem elapsed (revTimePeriodMs c))))
           (f_of_int (revTimePeriodMs c)))
    (Z.quot elapsed (revTimePeriodMs c)).

(** [int globaliseBrightness(int brightness)]: the scaling itself, for a
    given multiplier, and the method, which first re-reads the settings. *)
Definition scaleBrightness (multiplier brightness : Z) : Z :=
  if negb (multiplier =? MAX_BRIGHTNESS)
  then int16 (round (f_div (f_of_int (int16 (multiplier * brightness)))
                           (f_of_int MAX_BRIGHTNESS)))
  else brightness.

Definition globaliseBrightness (brightness : Z) (c : LedCluster) : Z * LedCluster :=
  let c := load_settings c in
  (scaleBrightness (brightnessMultiplier (settings c)) brightness, c).
End Cluster.

Arguments LightLocationInfo F : clear implicits.
Arguments LedInfo F : clear implicits.
Arguments LedCluster F : clear implicits.


(** ** The pattern methods *)

Section Patterns.
Context {F : Type} {FA : FloatArith F}.

(** A pattern method updates one LED of the cluster; it may also touch the
    cluster ([settings], the board). *)
Definition PatternMethod : Type :=
  LedInfo F -> LightLocationInfo F -> LedCluster F -> LedInfo F * LedCluster F.

(** [led->brightness = globaliseBrightness(raw);] *)
Definition light (raw : Z) (led : LedInfo F) (c : LedCluster F)
  : LedInfo F * LedCluster F :=
  let '(b, c') := globaliseBrightness (int16 raw) c in
  (set_brightness b led, c').

(** [void populateRaindrops()] *)
Fixpoint populate (ls : list (LedInfo F)) (b : Board) : list (LedInfo F) * Board :=
  match ls with
  | [] => ([], b)
  | led :: rest =>
      let '(r, b1) := random1 (360 - RAINDROP_ANGLE) b in
      let '(rest', b2) := populate rest b1 in
      (set_extra (int16 r) led :: rest', b2)
  end.

Definition populateRaindrops (c : LedCluster F) : LedCluster F :=
  let '(ls, b) := populate (leds c) (board c) in
  with_board b (with_leds ls c).

(** The value each method hands to [globaliseBrightness]. *)

Definition justOnRaw : Z := 100.

(** [(int)((info->angle + 360.0f) + led->angle) % 360] and its clockwise
    counterpart. *)
Definition chaseAngleAcw (led : LedInfo F) (info : LightLocationInfo F) : Z :=
  Z.rem (int16 (f_trunc (f_add (f_add (lead_angle info) (f_of_int 360)) (angle led)))) 360.
Definition chaseAngleCw (led : LedInfo F) (info : LightLocationInfo F) : Z :=
  Z.rem (int16 (f_trunc (f_sub (f_add (lead_angle info) (f_of_int 360)) (angle led)))) 360.

(** [round((100.0f * (360 - angle)) / 360.0f)] *)
Definition chaseBrightness (a : Z) : Z :=
  round (f_div (f_mul (f_of_int 100) (f_of_int (int16 (360 - a)))) (f_of_int 360)).

Definition chaseAcwRaw (led : LedInfo F) (info : LightLocationInfo F) : Z :=
  chaseBrightness (chaseAngleAcw led info).
Definition chaseCwRaw (led : LedInfo F) (info : LightLocationInfo F) : Z :=
  chaseBrightness (chaseAngleCw led info).
Definition chaseBothRaw (led : LedInfo F) (info : LightLocationInfo F) : Z :=
  chaseBrightness (minZ (chaseAngleCw led info) (chaseAngleAcw led info)).

(** [const int position = info->angle - led->extra;] *)
Definition raindropPosition (led : LedInfo F) (info : LightLocationInfo F) : Z :=
  int16 (f_trunc (f_sub (lead_angle info) (f_of_int (extra led)))).

(** The two ramps of the raindrop; outside them the method stores 0 without
    calling [globaliseBrightness]. *)
Definition raindropRaw (position : Z) : option Z :=
  if (position >=? 0) && (position <? RAMPUP_ANGLE) then
    Some (round (f_div (f_mul (f_of_int 100) (f_of_int position)) (f_of_int RAMPUP_ANGLE)))
  else if (position >=? RAMPUP_ANGLE) && (position <? RAINDROP_ANGLE) then
    Some (int32 (100 - round (f_div (f_mul (f_of_int 100)
                                           (f_of_int (int16 (position - RAMPUP_ANGLE))))
                                    (f_of_int RAMPDOWN_ANGLE))))
  else None.

(** [led->extra = forceRange(led->extra + random(-4, 4), 0, 100);] *)
Definition candleStep (led : LedInfo F) (b : Board) : LedInfo F * Board :=
  let '(r, b') := random2 (-4) 4 b in
  (set_extra (forceRange (int16 (int32 (extra led + r))) 0 100) led, b').

Definition candleRaw (led : LedInfo F) : Z := extra led.

(** [forceRange(led->extra + noise, 0, 100)] *)
Definition staticRaw (led : LedInfo F) (noise : Z) : Z :=
  forceRange (int16 (extra led + noise)) 0 100.

(** [int angle = (int)(info->angle - led->angle);] *)
Definition waveAngle (led : LedInfo F) (info : LightLocationInfo F) : Z :=
  int16 (f_trunc (f_sub (lead_angle info) (angle led))).

(** [round((100.0f * (180 - angle)) / 180.0f)] *)
Definition waveBrightness (a : Z) : Z :=
  round (f_div (f_mul (f_of_int 100) (f_of_int (int16 (180 - a)))) (f_of_int 180)).

Definition waveCwRaw (led : LedInfo F) (info : LightLocationInfo F) : Z :=
  let a := waveAngle led info in
  let a := absZ (int16 (Z.rem (int16 (a + 180)) 360 - 180)) in
  waveBrightness a.

Definition waveAcwRaw (led : LedInfo F) (info : LightLocationInfo F) : Z :=
  let a := waveAngle led info in
  let a := absZ (int16 (Z.rem (int16 (int16 (360 - a) + 180)) 360 - 180)) in
  waveBrightness a.

(** [const float RADS_PER_DEGREE = 0.0174533f;] *)
Definition RADS_PER_DEGREE : F := f_lit 174533 10000000.

(** [const int value = 2 * round(abs(180.0f - info->angle));] *)
Definition throbValue (info : LightLocationInfo F) : Z :=
  int16 (int32 (2 * round (absF (f_sub (f_of_int 180) (lead_angle info))))).

(** [(1.0f + cos(value * RADS_PER_DEGREE)) * 50.0f], converted to [int] by
    the call. *)
Definition throbRaw (info : LightLocationInfo F) : Z :=
  f_trunc (f_mul (f_add (f_of_int 1)
                        (f_cos (f_mul (f_of_int (throbValue info)) RADS_PER_DEGREE)))
                 (f_of_int 50)).
Definition throb2Raw (info : LightLocationInfo F) : Z :=
  f_trunc (f_mul (f_add (f_of_int 1)
                        (f_sin (f_mul (f_of_int (throbValue info)) RADS_PER_DEGREE)))
                 (f_of_int 50)).

(** [heartbeatMode]: [delta], [percent] and [value]. *)
Definition heartbeatDelta (info : LightLocationInfo F) : Z :=
  int16 (round (minF (absF (f_sub (f_of_int 225) (lead_angle info)))
                     (absF (f_sub (f_of_int 135) (lead_angle info))))).
Definition heartbeatPercent (delta : Z) : Z :=
  int16 (round (f_div (f_of_int (int16 (100 * delta))) (f_of_int 135))).
Definition heartbeatValue (percent : Z) : Z :=
  int16 (round (f_sub (f_mul (f_of_int (int16 (100 - percent))) (f_of_int 2))
                      (f_of_int 100))).
Definition heartbeatRaw (info : LightLocationInfo F) : Z :=
  heartbeatValue (heartbeatPercent (heartbeatDelta info)).

(** The methods themselves. *)

Definition justOn : PatternMethod :=
  fun led info c => light justOnRaw led c.

Definition chaseModeAcw : PatternMethod :=
  fun led info c => light (chaseAcwRaw led info) led c.

Definition chaseModeCw : PatternMethod :=
  fun led info c => light (chaseCwRaw led info) led c.

Definition chaseModeBoth : PatternMethod :=
  fun led info c => light (chaseBothRaw led info) led c.

Definition raindropMode : PatternMethod :=
  fun led info c =>
    match raindropRaw (raindropPosition led info) with
    | Some raw => light raw led c
    | None => (set_brightness 0 led, c)
    end.

Definition candleMode : PatternMethod :=
  fun led info c =>
    let '(led1, b) := candleStep led (board c) in
    light (candleRaw led1) led1 (with_board b c).

Definition staticMode : PatternMethod :=
  fun led info c =>
    let '(led1, c1) := candleMode led info c in
    let '(noise, b) := random2 (-10) 40 (board c1) in
    light (staticRaw led1 (int16 noise)) led1 (with_board b c1).

Definition waveModeCw : PatternMethod :=
  fun led info c => light (waveCwRaw led info) led c.

Definition waveModeAcw : PatternMethod :=
  fun led info c => light (waveAcwRaw led info) led c.

Definition throbMode : PatternMethod :=
  fun led info c => light (throbRaw info) led c.

Definition throbMode2 : PatternMethod :=
  fun led info c => light (throb2Raw info) led c.

Definition heartbeatMode : PatternMethod :=
  fun led info c => light (heartbeatRaw info) led c.

End Patterns.

(** ** Rendering, life cycle and the settings mutators *)

Section Engine.
Context {F : Type} {FA : FloatArith F}.

(** [void updateLedBrightnesses()] *)
Definition updateLedBrightnesses (c : LedCluster F) : LedCluster F :=
  with_board
    (fold_left
       (fun b led => analogWrite (pin led) (brightnessToDutyCycle (brightness led)) b)
       (leds c) (board c))
    c.

(** [for (int i = 0; i < count; ++i) (this->*method)(&leds[i], &info);] *)
Fixpoint run_leds (method : PatternMethod) (info : LightLocationInfo F)
         (ls : list (LedInfo F)) (c : LedCluster F)
  : list (LedInfo F) * LedCluster F :=
  match ls with
  | [] => ([], c)
  | led :: rest =>
      let '(led', c1) := method led info c in
      let '(rest', c2) := run_leds method info rest c1 in
      (led' :: rest', c2)
  end.

Definition for_each_led (method : PatternMethod) (info : LightLocationInfo F)
           (c : LedCluster F) : LedCluster F :=
  let '(ls, c') := run_leds method info (leds c) c in
  with_leds ls c'.

(** The [switch (settings.pattern)] of [poll]: the method chosen, and the
    cluster after the raindrop re-roll when that case asks for one. *)
Definition select_method (info : LightLocationInfo F) (c : LedCluster F)
  : option PatternMethod * LedCluster F :=
  match Patterns_of_Z (pattern (settings c)) with
  | Some ChaseClockwise => (Some chaseModeCw, c)
  | Some ChaseAntiClockwise => (Some chaseModeAcw, c)
  | Some ChaseBoth => (Some chaseModeBoth, c)
  | Some WaveClockwise => (Some waveModeCw, c)
  | Some WaveAntiClockwise => (Some waveModeAcw, c)
  | Some Throb => (Some throbMode, c)
  | Some Throb2 => (Some throbMode2, c)
  | Some Heartbeat => (Some heartbeatMode, c)
  | Some Raindrop =>
      (Some raindropMode,
       if negb (lastRevolution c =? revolution info) then populateRaindrops c else c)
  | Some Flames => (Some candleMode, c)
  | Some Static => (Some staticMode, c)
  | Some JustOn => (Some justOn, c)
  | _ => (None, c)
  end.

(** [void poll()], [now] being what [millis()] returns during the call. *)
Definition poll (now : Z) (c : LedCluster F) : LedCluster F :=
  if running c then
    let info := getCurrentLightInfo now c in
    let '(method, c1) := select_method info c in
    let c2 := match method with
              | Some m => updateLedBrightnesses (for_each_led m info c1)
              | None => c1
              end in
    with_lastRevolution (revolution info) c2
  else c.

(** [revTimePeriodMs = ((1000.0f * 60.0f) / settings.revsPerMinute);] *)
Definition periodOf (rpm : Z) : Z :=
  int32 (f_trunc (f_div (f_mul (f_of_int 1000) (f_of_int 60)) (f_of_int rpm))).

(** [bool setBrightness(const int value)] *)
Definition setBrightness (value : Z) (c : LedCluster F) : bool * LedCluster F :=
  let c := load_settings c in
  let newValue := forceRange value MIN_BRIGHTNESS MAX_BRIGHTNESS in
  let change := negb (newValue =? brightnessMultiplier (settings c)) in
  (change,
   if change
   then store_settings (with_settings (set_brightnessMultiplier newValue (settings c)) c)
   else c).

(** [bool setBrightnessPercent(const int percent)] *)
Definition setBrightnessPercent (percent : Z) (c : LedCluster F) : bool * LedCluster F :=
  setBrightness (Z.quot (int16 (percent * MAX_BRIGHTNESS)) 100) c.

(** [bool updateBrightness(const int delta)] *)
Definition updateBrightness (delta : Z) (c : LedCluster F) : bool * LedCluster F :=
  let c := load_settings c in
  setBrightness (int16 (brightnessMultiplier (settings c) + delta)) c.

(** [bool setPattern(const int pattern)] *)
Definition setPattern (p : Z) (c : LedCluster F) : bool * LedCluster F :=
  let c := load_settings c in
  let newValue := forceRange p 0 (Patterns_to_Z PATTERN_COUNT) in
  let change := negb (pattern (settings c) =? newValue) in
  (change,
   if change
   then store_settings (with_settings (set_pattern newValue (settings c)) c)
   else c).

(** [bool updatePattern(const int delta)] *)
Definition updatePattern (delta : Z) (c : LedCluster F) : bool * LedCluster F :=
  let c := load_settings c in
  let p := Z.rem (int16 (int16 (pattern (settings c) + Patterns_to_Z PATTERN_COUNT) + delta))
                 (Patterns_to_Z PATTERN_COUNT) in
  setPattern p c.

(** [bool setSpeed(const int speed)] *)
Definition setSpeed (speed : Z) (c : LedCluster F) : bool * LedCluster F :=
  let c := load_settings c in
  let newValue := forceRange speed MIN_SPEED MAX_SPEED in
  let change := negb (newValue =? revsPerMinute (settings c)) in
  (change,
   if change
   then
     let c := store_settings (with_settings (set_revsPerMinute newValue (settings c)) c) in
     with_revTimePeriodMs (periodOf (revsPerMinute (settings c))) c
   else c).

(** [bool updateSpeed(const int delta)] *)
Definition updateSpeed (delta : Z) (c : LedCluster F) : bool * LedCluster F :=
  let c := load_settings c in
  setSpeed (int16 (revsPerMinute (settings c) + int16 (delta * SPEED_STEP))) c.

(** [bool setSpeedPercent(const int percent)] *)
Definition setSpeedPercent (percent : Z) (c : LedCluster F) : bool * LedCluster F :=
  setSpeed (Z.quot (int16 (MAX_SPEED * percent)) 100) c.

(** [void startUp()]: [now] is the [millis()] stored as the start time,
    [now'] the one read by the [poll] that follows. *)
Definition startUp (now now' : Z) (c : LedCluster F) : LedCluster F :=
  if negb (running c)
  then poll now' (with_running true (with_startTimeMs (int32 now) c))
  else c.

(** [void shutdown()] *)
Definition shutdown (c : LedCluster F) : LedCluster F :=
  let c := with_running false c in
  with_board (fold_left (fun b led => analogWrite (pin led) 0 b) (leds c) (board c)) c.

(** The defaults the constructor falls back to. *)
Definition default_settings : Settings :=
  mkSettings VERSION (Patterns_to_Z ChaseClockwise) DEFAULT_BRIGHTNESS DEFAULT_SPEED 0.

(** [LedCluster(const byte * const pins, const int count)], on a board [b]
    at time [now].  A pin missing from [pins] reads as 0. *)
Definition new_leds (pins : list Z) (n : Z) : list (LedInfo F) :=
  let step := f_div (f_of_int 360) (f_of_int n) in
  map (fun i => mkLed (Z.of_nat i) (f_mul step (f_of_int (Z.of_nat i))) 0 (nth i pins 0) 0)
      (seq 0 (Z.to_nat n)).

Definition new_LedCluster (pins : list Z) (n : Z) (now : Z) (b : Board) : LedCluster F :=
  let c := mkCluster (new_leds pins n) (int32 now) 0 (NonVol_get b) true 0 b in
  let c := populateRaindrops c in
  let c := load_settings c in
  let c :=
    if negb (invalid (settings c) =? 0) || negb (version (settings c) =? VERSION)
    then store_settings (with_settings default_settings c)
    else c in
  with_revTimePeriodMs (periodOf (revsPerMinute (settings c))) c.

(** The public mutators, as one type, for statements about all of them. *)
Inductive Mutator : Set :=
  | SetPattern (p : Z) | UpdatePattern (delta : Z)
  | SetBrightness (v : Z) | SetBrightnessPercent (percent : Z) | UpdateBrightness (delta : Z)
  | SetSpeed (v : Z) | SetSpeedPercent (percent : Z) | UpdateSpeed (delta : Z).

Definition run_mutator (m : Mutator) : LedCluster F -> bool * LedCluster F :=
  match m with
  | SetPattern p => setPattern p
  | UpdatePattern d => updatePattern d
  | SetBrightness v => setBrightness v
  | SetBrightnessPercent p => setBrightnessPercent p
  | UpdateBrightness d => updateBrightness d
  | SetSpeed v => setSpeed v
  | SetSpeedPercent p => setSpeedPercent p
  | UpdateSpeed d => updateSpeed d
  end.

(** Calls made on a cluster after construction. *)
Inductive Call : Set :=
  | CPoll (now : Z)
  | CMutate (m : Mutator)
  | CStartUp (now now' : Z)
  | CShutdown.

Definition run_call (k : Call) (c : LedCluster F) : LedCluster F :=
  match k with
  | CPoll now => poll now c
  | CMutate m => snd (run_mutator m c)
  | CStartUp now now' => startUp now now' c
  | CShutdown => shutdown c
  end.

Definition run_calls (ks : list Call) (c : LedCluster F) : LedCluster F :=
  fold_left (fun c k => run_call k c) ks c.

(** The calls that neither start nor stop the engine. *)
Definition keeps_state (k : Call) : bool :=
  match k with CPoll _ | CMutate _ => true | _ => false end.

End Engine.

(** ** What the specification says, for comparison with the code *)

(** The field a mutator works on. *)
Inductive Field : Set := FPattern | FBrightness | FSpeed.

Definition field_of (m : Mutator) : Field :=
  match m with
  | SetPattern _ | UpdatePattern _ => FPattern
  | SetBrightness _ | SetBrightnessPercent _ | UpdateBrightness _ => FBrightness
  | SetSpeed _ | SetSpeedPercent _ | UpdateSpeed _ => FSpeed
  end.

Definition get_field (f : Field) (s : Settings) : Z :=
  match f with
  | FPattern => pattern s
  | FBrightness => brightnessMultiplier s
  | FSpeed => revsPerMinute s
  end.

Definition set_field (f : Field) (v : Z) (s : Settings) : Settings :=
  match f with
  | FPattern => set_pattern v s
  | FBrightness => set_brightnessMultiplier v s
  | FSpeed => set_revsPerMinute v s
  end.

(** The clamped or wrapped value a mutator asks for, from the persisted
    settings [s]. *)
Definition requested (m : Mutator) (s : Settings) : Z :=
  match m with
  | SetPattern p => p
  | UpdatePattern d =>
      Z.rem (int16 (int16 (pattern s + Patterns_to_Z PATTERN_COUNT) + d))
            (Patterns_to_Z PATTERN_COUNT)
  | SetBrightness v => v
  | SetBrightnessPercent p => Z.quot (int16 (p * MAX_BRIGHTNESS)) 100
  | UpdateBrightness d => int16 (brightnessMultiplier s + d)
  | SetSpeed v => v
  | SetSpeedPercent p => Z.quot (int16 (MAX_SPEED * p)) 100
  | UpdateSpeed d => int16 (revsPerMinute s + int16 (d * SPEED_STEP))
  end.

Definition new_value (m : Mutator) (s : Settings) : Z :=
  match field_of m with
  | FPattern => forceRange (requested m s) 0 (Patterns_to_Z PATTERN_COUNT)
  | FBrightness => forceRange (requested m s) MIN_BRIGHTNESS MAX_BRIGHTNESS
  | FSpeed => forceRange (requested m s) MIN_SPEED MAX_SPEED
  end.

(** Spec 4.4, the shape shared by the mutators: re-read the persisted
    settings, compare the new value with the current one, persist and report
    a change only if they differ. *)
Definition write_through_spec (f : Field) (newv : Settings -> Z) (b : Board)
  : bool * Board :=
  let s := NonVol_get b in
  let v := newv s in
  if v =? get_field f s then (false, b)
  else (true, NonVol_put (set_field f v s) b).

(** Spec 4.4, read literally: the percentage mapped linearly onto
    [MIN_SPEED, MAX_SPEED], then clamped. *)
Definition linear_speed_spec (percent : Z) : Z :=
  forceRange (MIN_SPEED + Z.quot ((MAX_SPEED - MIN_SPEED) * percent) 100)
             MIN_SPEED MAX_SPEED.

(** Integers [lo, lo + n), for exhaustive checks. *)
Definition Zrange (lo : Z) (n : nat) : list Z :=
  map (fun i => lo + Z.of_nat i) (seq 0 n).

Section Raw.
Context {F : Type} {FA : FloatArith F}.

(** The value a pattern hands to [globaliseBrightness] for one LED, on a
    board [b] (the random draws of Flames and Static come from it); [None]
    where nothing is handed over. *)
Definition rawBrightness (p : Patterns) (led : LedInfo F) (info : LightLocationInfo F)
           (b : Board) : option Z :=
  match p with
  | JustOn => Some justOnRaw
  | ChaseClockwise => Some (chaseCwRaw led info)
  | ChaseAntiClockwise => Some (chaseAcwRaw led info)
  | ChaseBoth => Some (chaseBothRaw led info)
  | WaveClockwise => Some (waveCwRaw led info)
  | WaveAntiClockwise => Some (waveAcwRaw led info)
  | Throb => Some (throbRaw info)
  | Throb2 => Some (throb2Raw info)
  | Heartbeat => Some (heartbeatRaw info)
  | Raindrop => raindropRaw (raindropPosition led info)
  | Flames => Some (candleRaw (fst (candleStep led b)))
  | Static =>
      let '(led1, b1) := candleStep led b in
      Some (staticRaw led1 (int16 (fst (random2 (-10) 40 b1))))
  | PATTERN_COUNT => None
  end.

(** A method that only hands [raw led info] to [globaliseBrightness]. *)
Definition light_method (raw : LedInfo F -> LightLocationInfo F -> Z) : PatternMethod :=
  fun led info c => light (raw led info) led c.

(** The patterns whose methods have that form, with their raw value. *)
Definition statelessRaw (p : Patterns)
  : option (LedInfo F -> LightLocationInfo F -> Z) :=
  match p with
  | JustOn => Some (fun _ _ => justOnRaw)
  | ChaseClockwise => Some chaseCwRaw
  | ChaseAntiClockwise => Some chaseAcwRaw
  | ChaseBoth => Some chaseBothRaw
  | WaveClockwise => Some waveCwRaw
  | WaveAntiClockwise => Some waveAcwRaw
  | Throb => Some (fun _ info => throbRaw info)
  | Throb2 => Some (fun _ info => throb2Raw info)
  | Heartbeat => Some (fun _ info => heartbeatRaw info)
  | _ => None
  end.

(** Boards that differ at most in the random draws consumed. *)
Definition same_io (b b' : Board) : Prop :=
  eeprom b = eeprom b' /\ eeprom_puts b = eeprom_puts b' /\ pwm_log b = pwm_log b'.

Definition io_preserving (m : @PatternMethod F) : Prop :=
  forall led info c, same_io (board c) (board (snd (m led info c))).

End Raw.

(** ** Observations and exhaustive checks used in the statements *)

Section Checks.
Context {F : Type} {FA : FloatArith F}.

(** The speed in the store after [setSpeedPercent]. *)
Definition speedApplied (percent : Z) (c : LedCluster F) : Z :=
  revsPerMinute (eeprom (board (snd (setSpeedPercent percent c)))).

Definition in_percent (r : Z) : bool := (0 <=? r) && (r <=? 100).

(** One multiplier step does not lower the scaled value of [raw]. *)
Definition scale_monotone_at (raw : Z) : bool :=
  forallb (fun m => scaleBrightness m raw <=? scaleBrightness (m + 1) raw)
          (Zrange 1 19).

Definition chase_in_percent (a : Z) : bool := in_percent (chaseBrightness a).
Definition wave_in_percent (a : Z) : bool := in_percent (waveBrightness a).
Definition raindrop_in_percent (p : Z) : bool :=
  match raindropRaw p with Some r => in_percent r | None => false end.
Definition heartbeat_in_range (d : Z) : bool :=
  let v := heartbeatValue (heartbeatPercent d) in (-100 <=? v) && (v <=? 100).

End Checks.

Definition duty_entry_ok (i : Z) : bool :=
  match nth_error BRIGHTNESS_TO_DUTY_CYCLE (Z.to_nat i) with
  | Some d => (d =? nth (Z.to_nat i) BRIGHTNESS_TO_DUTY_CYCLE 0) && (0 <=? d) && (d <=? 255)
  | None => false
  end.

(** The settings of the chase scenario: valid, ChaseClockwise, multiplier at
    [MAX_BRIGHTNESS] (scaling is the identity), default speed. *)
Definition chase_settings : Settings :=
  mkSettings VERSION (Patterns_to_Z ChaseClockwise) MAX_BRIGHTNESS DEFAULT_SPEED 0.

(** ** Concrete inputs for the examples *)

(** Stand-ins for libm on a board without it: the examples on binary32 use
    patterns that never call [cos] or [sin]. *)
Definition no_libm (x : spec_float) : spec_float := S754_nan.

(** Rational stand-ins for [cos] and [sin]: Taylor polynomials cut to
    [-1, 1]. *)
Definition clampQ (t : Q) : Q :=
  if Qle_bool t (-1) then (-1)%Q else if Qle_bool 1 t then 1%Q else t.
Definition cosQ (x : Q) : Q := clampQ (1 - x * x / 2 + x * x * x * x / 24)%Q.
Definition sinQ (x : Q) : Q := clampQ (x - x * x * x / 6)%Q.

(** The pins of the sketch ([ledPins]) and a board holding settings [s]. *)
Definition demo_pins : list Z := [3; 5; 6; 9; 10; 11].
Definition demo_board (s : Settings) : Board :=
  mkBoard s [] [] (fun n => 16807 * Z.of_nat (S n)) 0.

(** Unwritten EEPROM: every byte 0xFF. *)
Definition blank_settings : Settings := mkSettings (-1) (-1) (-1) (-1) 255.

Definition demo_cluster_b32 (s : Settings) : LedCluster spec_float :=
  new_LedCluster (FA := binary32 no_libm no_libm) demo_pins 6 1000 (demo_board s).
Definition demo_cluster_Q (s : Settings) : LedCluster Q :=
  new_LedCluster (FA := exactQ cosQ sinQ) demo_pins 6 1000 (demo_board s).

(** ** Invariants of the settings, and further exhaustive checks *)

(** Settings a settings mutator can leave in the store. *)
Definition settings_in_range (s : Settings) : Prop :=
  version s = VERSION /\ invalid s = 0 /\
  0 <= pattern s <= Patterns_to_Z PATTERN_COUNT /\
  MIN_BRIGHTNESS <= brightnessMultiplier s <= MAX_BRIGHTNESS /\
  MIN_SPEED <= revsPerMinute s <= MAX_SPEED.

Section Invariants.
Context {F : Type} {FA : FloatArith F}.

(** The members of the cluster agree with the store. *)
Definition consistent (c : LedCluster F) : Prop :=
  settings_in_range (eeprom (board c)) /\
  settings c = eeprom (board c) /\
  revTimePeriodMs c = periodOf (revsPerMinute (eeprom (board c))).

(** What a pattern method, a render pass or a tick leaves alone. *)
Definition framed (c c' : LedCluster F) : Prop :=
  same_io (board c) (board c') /\
  revTimePeriodMs c' = revTimePeriodMs c /\
  running c' = running c /\
  startTimeMs c' = startTimeMs c /\
  (settings c' = settings c \/ settings c' = eeprom (board c)).

End Invariants.

(** Neighbouring entries of the duty-cycle table increase. *)
Definition duty_step_ok (i : Z) : bool :=
  nth (Z.to_nat i) BRIGHTNESS_TO_DUTY_CYCLE 0 <? nth (Z.to_nat (i + 1)) BRIGHTNESS_TO_DUTY_CYCLE 0.

(** The two folds of the wave patterns, on the integer angle. *)
Definition wave_folds_agree (a : Z) : bool :=
  absZ (int16 (Z.rem (int16 (a + 180)) 360 - 180))
  =? absZ (int16 (Z.rem (int16 (int16 (360 - a) + 180)) 360 - 180)).

Section MoreChecks.
Context {F : Type} {FA : FloatArith F}.

(** The scaled value of [raw] lies between 0 and [raw], for every
    multiplier. *)
Definition scale_bounded_at (raw : Z) : bool :=
  forallb (fun m =>
             let v := scaleBrightness m raw in
             if 0 <=? raw then (0 <=? v) && (v <=? raw) else (raw <=? v) && (v <=? 0))
          (Zrange 1 20).

(** Full brightness becomes five times the multiplier. *)
Definition scale_full_at (m : Z) : bool := scaleBrightness m 100 =? 5 * m.

(** The chase brightness does not grow with the angle. *)
Definition chase_step_ok (a : Z) : bool := chaseBrightness (a + 1) <=? chaseBrightness a.

(** The period computed in floating point is the integer quotient. *)
Definition period_ok (rpm : Z) : bool := periodOf rpm =? 60000 / rpm.

(** The raindrop rises up to position 3, falls after it and ends at 11. *)
Definition raindrop_shape_at (p : Z) : bool :=
  match raindropRaw p, raindropRaw (p + 1) with
  | Some r, Some r' => if p <? 3 then r <? r' else r' <? r
  | Some r, None => p =? 11
  | None, _ => false
  end.

End MoreChecks.

(** ** InputHelper.h *)

(** Arduino.h *)
Definition HIGH : Z := 1.

Definition LOW : Z := 0.

(** The two callbacks of an [InputHelper], as the events they are called
    with. *)
Inductive InputEvent : Set :=
  | Toggle (pin newState lastChange : Z)
  | Timeout (pin durationMs : Z).

(** [class InputHelper]; the callbacks are kept as flags ([false] for
    [nullptr]).  The pin is [input_pin], [pin] being the field of
    [LedInfo]. *)
Record InputHelper : Set := mkInput {
  input_pin : Z;
  toggle_callback : bool;
  lastState : Z;
  lastChangeMs : Z;
  timeout_callback : bool;
  timeout_duration_ms : Z;
  trigger_timeout : bool
}.

(** [InputHelper(pin, toggle_callback, timeout_callback, timeout_duration_ms)],
    [state] and [now] being what [digitalRead(pin)] and [millis()] return. *)
Definition new_InputHelper (pin : Z) (toggle_cb timeout_cb : bool) (timeout : Z)
           (state now : Z) : InputHelper :=
  mkInput pin toggle_cb state (int32 now) timeout_cb timeout true.

(** [void signalToggleCallback(pin, state, duration)] and
    [void signalTimeoutCallback(pin, duration)]: the callback is called if it
    is not [nullptr]. *)
Definition signalToggleCallback (h : InputHelper) (state duration : Z) : option InputEvent :=
  if toggle_callback h then Some (Toggle (input_pin h) state duration) else None.

Definition signalTimeoutCallback (h : InputHelper) (duration : Z) : option InputEvent :=
  if timeout_callback h then Some (Timeout (input_pin h) duration) else None.

(** [void poll()]: [now] is what [millis()] returns, [a] and [b] the two
    reads of the pin.  The result is the callback made, if any, and the
    object after the call. *)
Definition InputHelper_poll (now a b : Z) (h : InputHelper) : option InputEvent * InputHelper :=
  let currentTimeMs := int32 now in
  if a =? b then
    let duration := int32 (currentTimeMs - lastChangeMs h) in
    if negb (a =? lastState h) then
      (signalToggleCallback h a duration,
       mkInput (input_pin h) (toggle_callback h) a currentTimeMs
               (timeout_callback h) (timeout_duration_ms h)
               (if negb (a =? 0) then true else trigger_timeout h))
    else if trigger_timeout h && negb (lastState h =? 0)
            && (duration >=? timeout_duration_ms h) then
      (signalTimeoutCallback h duration,
       mkInput (input_pin h) (toggle_callback h) (lastState h) (lastChangeMs h)
               (timeout_callback h) (timeout_duration_ms h) false)
    else (None, h)
  else (None, h).

(** A run of polls, each with its clock value and its two reads; the
    callbacks made, in order. *)
Fixpoint InputHelper_polls (reads : list (Z * Z * Z)) (h : InputHelper)
  : list InputEvent * InputHelper :=
  match reads with
  | [] => ([], h)
  | (now, a, b) :: rest =>
      let '(e, h1) := InputHelper_poll now a b h in
      let '(es, h2) := InputHelper_polls rest h1 in
      (match e with Some ev => ev :: es | None => es end, h2)
  end.

(** A trace of callbacks in which every [Timeout] but possibly the first
    comes after a [Toggle] to a non-zero state that follows the previous
    [Timeout]; [armed] says whether a [Timeout] may come first. *)
Fixpoint timeouts_spaced (armed : bool) (es : list InputEvent) : bool :=
  match es with
  | [] => true
  | Toggle _ st _ :: rest => timeouts_spaced (if st =? 0 then armed else true) rest
  | Timeout _ _ :: rest => armed && timeouts_spaced false rest
  end.

(** The state a trace of callbacks reports: a [Toggle] always differs from
    the state before it. *)
Fixpoint toggles_alternate (state : Z) (es : list InputEvent) : bool :=
  match es with
  | [] => true
  | Toggle _ st _ :: rest => negb (st =? state) && toggles_alternate st rest
  | Timeout _ _ :: rest => negb (state =? 0) && toggles_alternate state rest
  end.

(** ** Common.h, OutputHelper.h and sketch_nuka_cola.ino *)

(** [enum Pins] *)
Definition DisplayLED1 : Z := 3.

Definition DisplayLED2 : Z := 5.

Definition DisplayLED3 : Z := 6.

Definition DisplayLED4 : Z := 9.

Definition DisplayLED5 : Z := 10.

Definition DisplayLED6 : Z := 11.

Definition ModeLED : Z := 2.

Definition SpeedLED : Z := 4.

Definition BrightnessLED : Z := 7.

Definition SettingSelectionBtn : Z := 8.

Definition SettingDownBtn : Z := 12.

Definition SettingUpBtn : Z := 13.

(** [enum SettingModes] *)
Inductive SettingModes : Set := Sleep | Running | Pattern | Brightness | Speed.

Definition SettingModes_eqb (m1 m2 : SettingModes) : bool :=
  match m1, m2 with
  | Sleep, Sleep | Running, Running | Pattern, Pattern
  | Brightness, Brightness | Speed, Speed => true
  | _, _ => false
  end.

(** What the sketch reads from outside, in the order it is read: the values
    of [millis()], of [digitalRead] and the bytes [Serial] has on each pass
    of [loop]; and the [digitalWrite]s made, oldest first. *)
Record Env : Type := mkEnv {
  millis_src : nat -> Z;
  millis_pos : nat;
  digital_src : nat -> Z;
  digital_pos : nat;
  serial_src : nat -> list ascii;
  serial_pos : nat;
  digital_log : list (Z * Z)
}.

(** The characters the serial interface knows. *)
Definition PATTERN_MODE_CHAR : ascii := "P".

Definition SPEED_MODE_CHAR : ascii := "S".

Definition BRIGHTNESS_MODE_CHAR : ascii := "B".

Definition RUNNING_MODE_CHAR : ascii := "R".

Definition SLEEP_MODE_CHAR : ascii := "X".

Definition API_REQUEST_STR : list ascii := ["a"; "p"; "i"; "?"]%char.

(** ctype.h, on the character codes. *)
Definition isDigit (c : ascii) : bool :=
  let n := Z.of_N (N_of_ascii c) in (48 <=? n) && (n <=? 57).

Definition toupper (c : ascii) : ascii :=
  let n := Z.of_N (N_of_ascii c) in
  if (97 <=? n) && (n <=? 122) then ascii_of_N (Z.to_N (n - 32)) else c.

(** [strncmp(s1, s2, n) == 0] on strings that end at the end of the list. *)
Fixpoint strncmp_is_0 (s1 s2 : list ascii) (n : nat) : bool :=
  match n with
  | O => true
  | S n' =>
      match s1, s2 with
      | [], [] => true
      | c1 :: r1, c2 :: r2 => Ascii.eqb c1 c2 && strncmp_is_0 r1 r2 n'
      | _, _ => false
      end
  end.

(** [String::toInt()], which is [atol] of the buffer, on a string that
    starts with its digits: the decimal value, in a [long]. *)
Fixpoint toInt_from (acc : Z) (value : list ascii) : Z :=
  match value with
  | c :: rest =>
      if isDigit c
      then toInt_from (int32 (acc * 10 + (Z.of_N (N_of_ascii c) - 48))) rest
      else acc
  | [] => acc
  end.

Definition toInt (value : list ascii) : Z := toInt_from 0 value.

(** The loop of [getIncomingValue]: [value] as it is when the loop ends. *)
Fixpoint incoming_digits (command value : list ascii) : list ascii :=
  match command with
  | [] => value
  | c :: rest =>
      if negb (isDigit c) then ["0"%char] else incoming_digits rest (value ++ [c])
  end.

(** [static int getIncomingValue(const char * const command, const size_t chars)],
    [chars] being the length of [command]. *)
Definition getIncomingValue (command : list ascii) : Z :=
  let rest := match command with
              | c :: r => if Ascii.eqb c "="%char then r else command
              | [] => command
              end in
  int16 (toInt (incoming_digits rest [])).

(** The bytes [pollSerial] hands over as the command: a final new line is
    dropped, and the C string ends at the first zero byte. *)
Fixpoint c_string (bytes : list ascii) : list ascii :=
  match bytes with
  | [] => []
  | c :: rest => if Ascii.eqb c zero then [] else c :: c_string rest
  end.

Definition serial_command (bytes : list ascii) : list ascii :=
  c_string (if Ascii.eqb (last bytes zero) "010"%char then removelast bytes else bytes).

Section Sketch.

Context {F : Type} {FA : FloatArith F}.

(** The globals of the sketch, and the board outside the cluster's. *)
Record Sketch : Type := mkSketch {
  cluster : option (LedCluster F);
  upBtn : InputHelper;
  downBtn : InputHelper;
  settingSelectionBtn : InputHelper;
  mode : SettingModes;
  lastModeChange : Z;
  env : Env
}.

Definition with_cluster (v : option (LedCluster F)) (s : Sketch) : Sketch :=
  mkSketch v (upBtn s) (downBtn s) (settingSelectionBtn s) (mode s) (lastModeChange s) (env s).

Definition with_upBtn (v : InputHelper) (s : Sketch) : Sketch :=
  mkSketch (cluster s) v (downBtn s) (settingSelectionBtn s) (mode s) (lastModeChange s) (env s).

Definition with_downBtn (v : InputHelper) (s : Sketch) : Sketch :=
  mkSketch (cluster s) (upBtn s) v (settingSelectionBtn s) (mode s) (lastModeChange s) (env s).

Definition with_settingSelectionBtn (v : InputHelper) (s : Sketch) : Sketch :=
  mkSketch (cluster s) (upBtn s) (downBtn s) v (mode s) (lastModeChange s) (env s).

Definition with_mode (v : SettingModes) (s : Sketch) : Sketch :=
  mkSketch (cluster s) (upBtn s) (downBtn s) (settingSelectionBtn s) v (lastModeChange s) (env s).

Definition with_lastModeChange (v : Z) (s : Sketch) : Sketch :=
  mkSketch (cluster s) (upBtn s) (downBtn s) (settingSelectionBtn s) (mode s) v (env s).

Definition with_env (v : Env) (s : Sketch) : Sketch :=
  mkSketch (cluster s) (upBtn s) (downBtn s) (settingSelectionBtn s) (mode s) (lastModeChange s) v.

(** [millis()], [digitalRead(pin)] and [digitalWrite(pin, value)]. *)
Definition env_millis (e : Env) : Z * Env :=
  (millis_src e (millis_pos e),
   mkEnv (millis_src e) (S (millis_pos e)) (digital_src e) (digital_pos e)
         (serial_src e) (serial_pos e) (digital_log e)).

Definition env_digitalRead (e : Env) : Z * Env :=
  (digital_src e (digital_pos e),
   mkEnv (millis_src e) (millis_pos e) (digital_src e) (S (digital_pos e))
         (serial_src e) (serial_pos e) (digital_log e)).

Definition env_digitalWrite (pin value : Z) (e : Env) : Env :=
  mkEnv (millis_src e) (millis_pos e) (digital_src e) (digital_pos e)
        (serial_src e) (serial_pos e) (digital_log e ++ [(pin, value)]).

Definition env_serial (e : Env) : list ascii * Env :=
  (serial_src e (serial_pos e),
   mkEnv (millis_src e) (millis_pos e) (digital_src e) (digital_pos e)
         (serial_src e) (S (serial_pos e)) (digital_log e)).

Definition millis (s : Sketch) : Z * Sketch :=
  let '(t, e) := env_millis (env s) in (t, with_env e s).

Definition digitalRead (s : Sketch) : Z * Sketch :=
  let '(v, e) := env_digitalRead (env s) in (v, with_env e s).

(** [OutputHelper &operator=(const int value)] *)
Definition OutputHelper_assign (pin value : Z) (s : Sketch) : Sketch :=
  with_env (env_digitalWrite pin (if negb (value =? 0) then HIGH else LOW) (env s)) s.

(** [cluster->poll()], [cluster->startUp()]: the calls with the clock reads
    they make. *)
Definition cluster_poll (c : LedCluster F) (s : Sketch) : Sketch :=
  if running c then
    let '(now, s) := millis s in with_cluster (Some (poll now c)) s
  else s.

Definition cluster_startUp (c : LedCluster F) (s : Sketch) : Sketch :=
  if negb (running c) then
    let '(now, s) := millis s in
    let '(now', s) := millis s in
    with_cluster (Some (startUp now now' c)) s
  else s.

(** One of the three cases of [toggleClusterValue]: the change is made, and
    the indicator blinks if the value changed. *)
Definition toggle_case (update : Z -> LedCluster F -> bool * LedCluster F) (led : Z)
           (value : Z) (c : LedCluster F) (s : Sketch) : Sketch :=
  let '(t, s) := millis s in
  let s := with_lastModeChange (int32 t) s in
  let '(changed, c') := update value c in
  let s := with_cluster (Some c') s in
  if changed
  then OutputHelper_assign led HIGH (OutputHelper_assign led LOW s)
  else s.

(** [static void toggleClusterValue(const int value)] *)
Definition toggleClusterValue (value : Z) (s : Sketch) : Sketch :=
  match cluster s with
  | Some c =>
      match mode s with
      | Pattern => toggle_case updatePattern ModeLED value c s
      | Brightness => toggle_case updateBrightness BrightnessLED value c s
      | Speed => toggle_case updateSpeed SpeedLED value c s
      | Running | Sleep => s
      end
  | None => s
  end.

(** [static void upBtnToggled(const int, const int state, const long)] *)
Definition upBtnToggled (state : Z) (s : Sketch) : Sketch :=
  match cluster s with
  | Some _ => if negb (state =? 0) then toggleClusterValue 1 s else s
  | None => s
  end.

(** [static void downBtnToggled(const int, const int state, const long)] *)
Definition downBtnToggled (state : Z) (s : Sketch) : Sketch :=
  match cluster s with
  | Some _ => if negb (state =? 0) then toggleClusterValue (-1) s else s
  | None => s
  end.

(** [static void powerTimeout(const int, const long)] *)
Definition powerTimeout (s : Sketch) : Sketch :=
  match cluster s with
  | Some c =>
      match mode s with
      | Sleep => cluster_startUp c (with_mode Running s)
      | Running => with_cluster (Some (shutdown c)) (with_mode Sleep s)
      | _ => s
      end
  | None => s
  end.

(** [static void setMode(const int newMode)] *)
Definition setMode (newMode : SettingModes) (s : Sketch) : Sketch :=
  let s := with_mode newMode s in
  let s := OutputHelper_assign ModeLED (if SettingModes_eqb Pattern (mode s) then 1 else 0) s in
  let s := OutputHelper_assign BrightnessLED
                               (if SettingModes_eqb Brightness (mode s) then 1 else 0) s in
  let s := OutputHelper_assign SpeedLED (if SettingModes_eqb Speed (mode s) then 1 else 0) s in
  let '(t, s) := millis s in
  with_lastModeChange (int32 t) s.

(** [static void settingBtnToggled(const int, const int state, const long)] *)
Definition settingBtnToggled (state : Z) (s : Sketch) : Sketch :=
  match cluster s with
  | Some _ =>
      if negb (state =? 0) then
        match mode s with
        | Pattern => setMode Brightness s
        | Brightness => setMode Speed s
        | Speed => setMode Pattern s
        | Running => setMode Pattern s
        | Sleep => s
        end
      else s
  | None => s
  end.

(** The body of [handleSerialCommand] for one of the letters P, S and B. *)
Definition serial_setting (set : Z -> LedCluster F -> bool * LedCluster F)
           (letterMode : SettingModes) (command : list ascii) (inc : bool)
           (c : LedCluster F) (s : Sketch) : Sketch :=
  let currentMode := mode s in
  if (1 <? Z.of_nat (length command)) then
    with_cluster (Some (snd (set (getIncomingValue (tl command)) c))) s
  else
    let s := setMode letterMode s in
    let s := toggleClusterValue (if inc then 1 else -1) s in
    setMode currentMode s.

(** [static void handleSerialCommand(const char * const command, const size_t chars)],
    [chars] being the length of [command].  What is printed to [Serial] is
    left out. *)
Definition handleSerialCommand (command : list ascii) (s : Sketch) : Sketch :=
  match cluster s, command with
  | Some c, c0 :: _ =>
      if strncmp_is_0 command API_REQUEST_STR (length command) then s
      else
        let cmd := toupper c0 in
        let inc := Ascii.eqb cmd c0 in
        if Ascii.eqb cmd PATTERN_MODE_CHAR then
          serial_setting setPattern Pattern command inc c s
        else if Ascii.eqb cmd SPEED_MODE_CHAR then
          serial_setting setSpeedPercent Speed command inc c s
        else if Ascii.eqb cmd BRIGHTNESS_MODE_CHAR then
          serial_setting setBrightnessPercent Brightness command inc c s
        else if Ascii.eqb cmd RUNNING_MODE_CHAR then
          let s := setMode Running s in
          match cluster s with Some c => cluster_startUp c s | None => s end
        else if Ascii.eqb cmd SLEEP_MODE_CHAR then
          let s := setMode Sleep s in
          match cluster s with
          | Some c => with_cluster (Some (shutdown c)) s
          | None => s
          end
        else s
  | _, _ => s
  end.

(** [static void pollSerial()] *)
Definition pollSerial (s : Sketch) : Sketch :=
  let '(bytes, e) := env_serial (env s) in
  let s := with_env e s in
  match bytes with
  | [] => s
  | _ :: _ => handleSerialCommand (serial_command bytes) s
  end.

(** The callbacks the three buttons were given. *)
Definition dispatch (toggled : Z -> Sketch -> Sketch) (timeout : Sketch -> Sketch)
           (e : option InputEvent) (s : Sketch) : Sketch :=
  match e with
  | Some (Toggle _ state _) => toggled state s
  | Some (Timeout _ _) => timeout s
  | None => s
  end.

(** [btn.poll()] for a button of the sketch: the reads, then the callback.
    The source calls the callback before it stores [lastState]; the
    callbacks of the sketch do not look at the buttons, so the order does
    not show. *)
Definition poll_button (get : Sketch -> InputHelper) (set : InputHelper -> Sketch -> Sketch)
           (toggled : Z -> Sketch -> Sketch) (timeout : Sketch -> Sketch)
           (s : Sketch) : Sketch :=
  let '(now, s) := millis s in
  let '(a, s) := digitalRead s in
  let '(b, s) := digitalRead s in
  let '(e, h) := InputHelper_poll now a b (get s) in
  dispatch toggled timeout e (set h s).

(** The globals as their initialisers leave them, before [setup]: the three
    buttons, each reading its pin and the clock, then the three indicators,
    each written [LOW]. *)
Definition static_init (e : Env) : Sketch :=
  let '(st1, e) := env_digitalRead e in
  let '(t1, e) := env_millis e in
  let '(st2, e) := env_digitalRead e in
  let '(t2, e) := env_millis e in
  let '(st3, e) := env_digitalRead e in
  let '(t3, e) := env_millis e in
  let e := env_digitalWrite ModeLED LOW e in
  let e := env_digitalWrite SpeedLED LOW e in
  let e := env_digitalWrite BrightnessLED LOW e in
  mkSketch None
           (new_InputHelper SettingUpBtn true false 10000 st1 t1)
           (new_InputHelper SettingDownBtn true false 10000 st2 t2)
           (new_InputHelper SettingSelectionBtn true true 2000 st3 t3)
           Running 0 e.

(** [void setup()], on a board [b]; [seeded] is the stream [random()] yields
    after [randomSeed(analogRead(0))]. *)
Definition setup (b : Board) (seeded : nat -> Z) (s : Sketch) : Sketch :=
  let ledPins := [DisplayLED1; DisplayLED2; DisplayLED3;
                  DisplayLED4; DisplayLED5; DisplayLED6] in
  let '(now, s) := millis s in
  let c := new_LedCluster ledPins 6 now b in
  let c := with_board (mkBoard (eeprom (board c)) (eeprom_puts (board c))
                               (pwm_log (board c)) seeded 0) c in
  with_cluster (Some c) s.

(** [void loop()].  [cluster] is set by [setup] and never reset, so the
    [None] case of a pass is never taken after [setup]. *)
Definition loop (s : Sketch) : Sketch :=
  let s := pollSerial s in
  let s := poll_button upBtn with_upBtn upBtnToggled (fun s => s) s in
  let s := poll_button downBtn with_downBtn downBtnToggled (fun s => s) s in
  let s := poll_button settingSelectionBtn with_settingSelectionBtn
                       settingBtnToggled powerTimeout s in
  let s := match cluster s with Some c => cluster_poll c s | None => s end in
  if negb (SettingModes_eqb (mode s) Running) && negb (SettingModes_eqb (mode s) Sleep) then
    let '(t, s) := millis s in
    let delta := int32 (t - lastModeChange s) in
    if 10000 <? delta then with_lastModeChange 0 (setMode Running s) else s
  else s.

(** [n] passes of [loop]. *)
Fixpoint loops (n : nat) (s : Sketch) : Sketch :=
  match n with
  | O => s
  | S n' => loop (loops n' s)
  end.

End Sketch.

Arguments Sketch F : clear implicits.

(** ** What the sketch is observed by *)

(** The pins of the six display LEDs. *)
Definition display_pins : list Z :=
  [DisplayLED1; DisplayLED2; DisplayLED3; DisplayLED4; DisplayLED5; DisplayLED6].

(** The moves of the mode that one pass of [loop] can make when no serial
    command arrives. *)
Definition mode_step (m m' : SettingModes) : bool :=
  match m, m' with
  | Sleep, (Sleep | Running) => true
  | Running, (Running | Sleep | Pattern) => true
  | Pattern, (Pattern | Brightness | Running) => true
  | Brightness, (Brightness | Speed | Running) => true
  | Speed, (Speed | Pattern | Running) => true
  | _, _ => false
  end.

Section SketchObservations.
Context {F : Type} {FA : FloatArith F}.

(** The indicator LEDs show mode [m]: the last level written to each. *)
Definition indicators_show (m : SettingModes) (log : list (Z * Z)) : Prop :=
  pin_level ModeLED log = Some (if SettingModes_eqb Pattern m then HIGH else LOW) /\
  pin_level BrightnessLED log = Some (if SettingModes_eqb Brightness m then HIGH else LOW) /\
  pin_level SpeedLED log = Some (if SettingModes_eqb Speed m then HIGH else LOW).

(** The cluster fits mode [m]: it runs unless asleep, drives the display
    pins, and asleep every display pin was last written 0. *)
Definition power_ok (m : SettingModes) (c : LedCluster F) : Prop :=
  running c = negb (SettingModes_eqb m Sleep) /\
  map pin (leds c) = display_pins /\
  (m = Sleep ->
   Forall (fun p => pin_level p (pwm_log (board c)) = Some 0) display_pins).

(** The invariant of the sketch, with a property [Q] of the cluster that
    its public calls keep. *)
Definition sketch_ok (Q : LedCluster F -> Prop) (s : Sketch F) : Prop :=
  indicators_show (mode s) (digital_log (env s)) /\
  exists c, cluster s = Some c /\ power_ok (mode s) c /\ Q c.

(** The sketch after power-on, [setup] and [n] passes of [loop]. *)
Definition sketch_run (e : Env) (b : Board) (seeded : nat -> Z) (n : nat) : Sketch F :=
  loops n (setup b seeded (static_init e)).

(** What the cluster has in its EEPROM, and the writes made to it. *)
Definition stored (s : Sketch F) : option (Settings * list Settings) :=
  match cluster s with
  | Some c => Some (eeprom (board c), eeprom_puts (board c))
  | None => None
  end.

End SketchObservations.

(** Decimal digits of a number, most significant first ([fuel] bounds their
    count): what a terminal sends for it. *)
Definition digit_char (d : Z) : ascii := ascii_of_N (Z.to_N (48 + d)).

Fixpoint decimal (fuel : nat) (v : Z) : list ascii :=
  match fuel with
  | O => []
  | S fuel' =>
      if v <? 10 then [digit_char v]
      else decimal fuel' (v / 10) ++ [digit_char (v mod 10)]
  end.

(** ** Concrete inputs for the sketch *)

(** Every button held from power-on, with a clock that advances three
    seconds per read; and no button touched, with ten milliseconds per
    read.  No serial bytes. *)
Definition held_env : Env :=
  mkEnv (fun n => 3000 * Z.of_nat n) 0 (fun _ => 1) 0 (fun _ => []) 0 [].
Definition idle_env : Env :=
  mkEnv (fun n => 10 * Z.of_nat n) 0 (fun _ => 0) 0 (fun _ => []) 0 [].

(** The sketch on a board with unwritten EEPROM, after [n] passes. *)
Definition demo_sketch (e : Env) (n : nat) : Sketch spec_float :=
  sketch_run (FA := binary32 no_libm no_libm) e (demo_board blank_settings)
             (fun n => 16807 * Z.of_nat (S n)) n.

(** A sketch that holds the cluster of the chase scenario. *)
Definition chase_sketch : Sketch spec_float :=
  with_cluster (Some (demo_cluster_b32 chase_settings)) (static_init idle_env).

(** * Properties *)

(** ** Machine integers and ranges *)

Lemma int16_small (z : Z) : -32768 <= z <= 32767 -> int16 z = z.
Proof.
  intros H. unfold int16. rewrite Z.mod_small; lia.
Qed.

Lemma int32_small (z : Z) : -2147483648 <= z <= 2147483647 -> int32 z = z.
Proof.
  intros H. unfold int32. rewrite Z.mod_small; lia.
Qed.

Lemma int32_range (z : Z) : -2147483648 <= int32 z <= 2147483647.
Proof.
  unfold int32. pose proof (Z.mod_pos_bound (z + 2147483648) 4294967296). lia.
Qed.

Lemma int32_add_period (z k : Z) : int32 (z + k * 4294967296) = int32 z.
Proof.
  unfold int32. replace (z + k * 4294967296 + 2147483648)
    with (z + 2147483648 + k * 4294967296) by lia.
  now rewrite Z.mod_add by lia.
Qed.

Lemma forceRange_bounds (v lo hi : Z) : lo <= hi -> lo <= forceRange v lo hi <= hi.
Proof.
  intros H. unfold forceRange, minZ, maxZ.
  destruct (v >? lo) eqn:E1.
  - destruct (v <? hi) eqn:E2; lia.
  - destruct (lo <? hi) eqn:E2; lia.
Qed.

Lemma forceRange_spec (v lo hi : Z) :
  lo <= hi -> forceRange v lo hi = Z.min (Z.max v lo) hi.
Proof.
  intros H. unfold forceRange, minZ, maxZ.
  destruct (v >? lo) eqn:E1.
  - destruct (v <? hi) eqn:E2; lia.
  - destruct (lo <? hi) eqn:E2; lia.
Qed.


Lemma wave_fold_range (x : Z) :
  0 <= x < 32000 -> 0 <= absZ (int16 (Z.rem (int16 x) 360 - 180)) <= 180.
Proof.
  intros H. rewrite (int16_small x) by lia.
  pose proof (Z.rem_bound_pos x 360 ltac:(lia) ltac:(lia)) as Hr.
  rewrite int16_small by lia. unfold absZ.
  destruct (Z.rem x 360 - 180 >? 0) eqn:E; [lia|].
  rewrite int16_small by lia. lia.
Qed.

Lemma In_Zrange (lo : Z) (n : nat) (z : Z) :
  lo <= z < lo + Z.of_nat n -> In z (Zrange lo n).
Proof.
  intros H. unfold Zrange. apply in_map_iff.
  exists (Z.to_nat (z - lo)). split; [lia|].
  apply in_seq. lia.
Qed.

Lemma forallb_Zrange (P : Z -> bool) (lo : Z) (n : nat) :
  forallb P (Zrange lo n) = true ->
  forall z, lo <= z < lo + Z.of_nat n -> P z = true.
Proof.
  intros H z Hz. rewrite forallb_forall in H. apply H, In_Zrange, Hz.
Qed.

(** ** The board under the pattern methods *)

Section BoardFacts.
Context {F : Type} {FA : FloatArith F}.

Lemma same_io_refl (b : Board) : same_io b b.
Proof. repeat split. Qed.

Lemma same_io_trans (b1 b2 b3 : Board) :
  same_io b1 b2 -> same_io b2 b3 -> same_io b1 b3.
Proof.
  intros (E1 & P1 & L1) (E2 & P2 & L2). repeat split; congruence.
Qed.

Lemma random1_io (n : Z) (b : Board) : same_io b (snd (random1 n b)).
Proof.
  unfold random1. destruct (n =? 0); simpl; repeat split.
Qed.

Lemma random2_io (lo hi : Z) (b : Board) : same_io b (snd (random2 lo hi b)).
Proof.
  unfold random2. destruct (lo >=? hi); [apply same_io_refl|].
  pose proof (random1_io (int32 (hi - lo)) b) as H.
  destruct (random1 (int32 (hi - lo)) b) as [r b']. exact H.
Qed.

Lemma light_board (raw : Z) (led : LedInfo F) (c : LedCluster F) :
  board (snd (light raw led c)) = board c.
Proof. reflexivity. Qed.

Lemma light_brightness (raw : Z) (led : LedInfo F) (c : LedCluster F) :
  brightness (fst (light raw led c)) =
  scaleBrightness (brightnessMultiplier (eeprom (board c))) (int16 raw).
Proof. reflexivity. Qed.

Lemma light_pin (raw : Z) (led : LedInfo F) (c : LedCluster F) :
  pin (fst (light raw led c)) = pin led.
Proof. reflexivity. Qed.

Lemma candleStep_io (led : LedInfo F) (b : Board) :
  same_io b (snd (candleStep led b)).
Proof.
  unfold candleStep. pose proof (random2_io (-4) 4 b) as H.
  destruct (random2 (-4) 4 b) as [r b']. exact H.
Qed.

Lemma candleMode_io : io_preserving candleMode.
Proof.
  intros led info c. unfold candleMode.
  pose proof (candleStep_io led (board c)) as H.
  destruct (candleStep led (board c)) as [led1 b]. exact H.
Qed.

Lemma staticMode_io : io_preserving staticMode.
Proof.
  intros led info c. unfold staticMode.
  pose proof (candleMode_io led info c) as H.
  destruct (candleMode led info c) as [led1 c1]. simpl in H.
  pose proof (random2_io (-10) 40 (board c1)) as H2.
  destruct (random2 (-10) 40 (board c1)) as [noise b]. simpl in *.
  eapply same_io_trans; eassumption.
Qed.

Lemma raindropMode_io : io_preserving raindropMode.
Proof.
  intros led info c. unfold raindropMode.
  destruct (raindropRaw (raindropPosition led info)); apply same_io_refl.
Qed.

Lemma populate_io (ls : list (LedInfo F)) (b : Board) :
  same_io b (snd (populate ls b)).
Proof.
  revert b. induction ls as [|led rest IH]; intros b; cbn [populate].
  - apply same_io_refl.
  - pose proof (random1_io (360 - RAINDROP_ANGLE) b) as H1.
    destruct (random1 (360 - RAINDROP_ANGLE) b) as [r b1].
    specialize (IH b1). destruct (populate rest b1) as [rest' b2].
    cbn [snd] in *. eapply same_io_trans; eassumption.
Qed.

Lemma populate_pins (ls : list (LedInfo F)) (b : Board) :
  map pin (fst (populate ls b)) = map pin ls.
Proof.
  revert b. induction ls as [|led rest IH]; intros b; cbn [populate]; [reflexivity|].
  destruct (random1 (360 - RAINDROP_ANGLE) b) as [r b1].
  specialize (IH b1). destruct (populate rest b1) as [rest' b2].
  cbn [fst map] in *. now rewrite IH.
Qed.

Lemma populateRaindrops_io (c : LedCluster F) :
  same_io (board c) (board (populateRaindrops c)).
Proof.
  unfold populateRaindrops. pose proof (populate_io (leds c) (board c)) as H.
  destruct (populate (leds c) (board c)) as [ls b]. exact H.
Qed.

Lemma populateRaindrops_settings (c : LedCluster F) :
  settings (populateRaindrops c) = settings c /\
  running (populateRaindrops c) = running c.
Proof.
  unfold populateRaindrops. destruct (populate (leds c) (board c)). split; reflexivity.
Qed.

(** Every method [poll] can select leaves the logs and the EEPROM alone. *)
Lemma select_method_io (info : LightLocationInfo F) (c : LedCluster F) (m : PatternMethod) :
  fst (select_method info c) = Some m -> io_preserving m.
Proof.
  unfold select_method.
  destruct (Patterns_of_Z (pattern (settings c))) as [[]|]; simpl; intros H;
    inversion H; subst;
    try (intros led i c'; apply same_io_refl);
    auto using candleMode_io, staticMode_io, raindropMode_io.
Qed.

Lemma select_method_board (info : LightLocationInfo F) (c : LedCluster F) :
  same_io (board c) (board (snd (select_method info c))).
Proof.
  unfold select_method.
  destruct (Patterns_of_Z (pattern (settings c))) as [[]|]; simpl;
    try apply same_io_refl.
  destruct (negb (lastRevolution c =? revolution info));
    [apply populateRaindrops_io | apply same_io_refl].
Qed.

Lemma run_leds_io (m : PatternMethod) (info : LightLocationInfo F) :
  io_preserving m ->
  forall ls c, same_io (board c) (board (snd (run_leds m info ls c))).
Proof.
  intros Hm ls. induction ls as [|led rest IH]; intros c; simpl.
  - apply same_io_refl.
  - pose proof (Hm led info c) as H1.
    destruct (m led info c) as [led' c1]. simpl in H1.
    specialize (IH c1). destruct (run_leds m info rest c1) as [rest' c2].
    simpl in *. eapply same_io_trans; eassumption.
Qed.

Lemma analogWrite_fold (f : LedInfo F -> Z) (ls : list (LedInfo F)) (b : Board) :
  let b' := fold_left (fun b led => analogWrite (pin led) (f led) b) ls b in
  pwm_log b' = pwm_log b ++ map (fun led => (pin led, f led)) ls /\
  eeprom b' = eeprom b /\ eeprom_puts b' = eeprom_puts b.
Proof.
  revert b. induction ls as [|led rest IH]; intros b; simpl.
  - now rewrite app_nil_r.
  - destruct (IH (analogWrite (pin led) (f led) b)) as (H1 & H2 & H3).
    simpl in *. rewrite H1, H2, H3. simpl. now rewrite <- app_assoc.
Qed.

Lemma pin_level_app (p : Z) (l1 l2 : list (Z * Z)) :
  pin_level p (l1 ++ l2) =
  match pin_level p l2 with Some v => Some v | None => pin_level p l1 end.
Proof.
  induction l1 as [|[q v] l1 IH]; simpl.
  - now destruct (pin_level p l2).
  - rewrite IH. destruct (pin_level p l2); [reflexivity|].
    reflexivity.
Qed.

Lemma pin_level_absent (p : Z) (f : LedInfo F -> Z) (ls : list (LedInfo F)) :
  ~ In p (map pin ls) ->
  pin_level p (map (fun led => (pin led, f led)) ls) = None.
Proof.
  induction ls as [|led rest IH]; simpl; [reflexivity|].
  intros H. rewrite IH by tauto.
  destruct (pin led =? p) eqn:E; [|reflexivity].
  apply Z.eqb_eq in E. tauto.
Qed.

Lemma pin_level_all (p v : Z) (f : LedInfo F -> Z) (ls : list (LedInfo F)) :
  (forall led, In led ls -> f led = v) ->
  In p (map pin ls) ->
  pin_level p (map (fun led => (pin led, f led)) ls) = Some v.
Proof.
  induction ls as [|led rest IH]; simpl; [tauto|].
  intros Hf Hin.
  destruct (in_dec Z.eq_dec p (map pin rest)) as [Hr|Hr].
  - rewrite IH; auto.
  - rewrite pin_level_absent by assumption.
    destruct Hin as [E|]; [|tauto].
    rewrite E, Z.eqb_refl. f_equal. apply Hf. now left.
Qed.

End BoardFacts.

(** ** Duty cycles (C10) *)

Lemma duty_table_checked : forallb duty_entry_ok (Zrange 0 101) = true.
Proof. vm_compute. reflexivity. Qed.

Lemma brightnessToDutyCycle_spec (b : Z) :
  0 <= dutyCycleIndex b <= 100 /\
  dutyCycleIndex b = Z.min (Z.max b 0) 100 /\
  nth_error BRIGHTNESS_TO_DUTY_CYCLE (Z.to_nat (dutyCycleIndex b))
    = Some (brightnessToDutyCycle b) /\
  0 <= brightnessToDutyCycle b <= 255 /\
  (b <= 0 -> brightnessToDutyCycle b = 0).
Proof.
  assert (Hi : 0 <= dutyCycleIndex b <= 100)
    by (unfold dutyCycleIndex; apply forceRange_bounds; lia).
  assert (Hs : dutyCycleIndex b = Z.min (Z.max b 0) 100)
    by (unfold dutyCycleIndex; apply forceRange_spec; lia).
  pose proof (forallb_Zrange duty_entry_ok 0 101 duty_table_checked
                (dutyCycleIndex b) ltac:(lia)) as H.
  unfold duty_entry_ok in H. unfold brightnessToDutyCycle.
  destruct (nth_error BRIGHTNESS_TO_DUTY_CYCLE (Z.to_nat (dutyCycleIndex b)))
    as [d|] eqn:E; [|discriminate].
  apply andb_prop in H as [H H3]. apply andb_prop in H as [H1 H2].
  apply Z.eqb_eq in H1. apply Z.leb_le in H2, H3. rewrite <- H1.
  repeat split; try assumption; try lia.
  intros Hb. assert (Hz : dutyCycleIndex b = 0) by lia.
  rewrite Hz in E. simpl in E. congruence.
Qed.

Section Rendering.
Context {F : Type} {FA : FloatArith F}.

Lemma select_method_valid (info : LightLocationInfo F) (c : LedCluster F) :
  0 <= pattern (settings c) <= 11 ->
  exists m, fst (select_method info c) = Some m.
Proof.
  intros H. unfold select_method.
  assert (Hp : exists p, Patterns_of_Z (pattern (settings c)) = Some p /\ p <> PATTERN_COUNT).
  { assert (Hc : pattern (settings c) = 0 \/ pattern (settings c) = 1 \/
                 pattern (settings c) = 2 \/ pattern (settings c) = 3 \/
                 pattern (settings c) = 4 \/ pattern (settings c) = 5 \/
                 pattern (settings c) = 6 \/ pattern (settings c) = 7 \/
                 pattern (settings c) = 8 \/ pattern (settings c) = 9 \/
                 pattern (settings c) = 10 \/ pattern (settings c) = 11) by lia.
    repeat (destruct Hc as [Hc|Hc]; [rewrite Hc; eexists; split; [reflexivity|discriminate]|]).
    rewrite Hc; eexists; split; [reflexivity|discriminate]. }
  destruct Hp as (p & -> & Hne).
  destruct p; simpl; eauto. congruence.
Qed.


Lemma poll_stopped (now : Z) (c : LedCluster F) : running c = false -> poll now c = c.
Proof. intros H. unfold poll. now rewrite H. Qed.

Lemma poll_running (now : Z) (c : LedCluster F) (m : PatternMethod) :
  running c = true ->
  fst (select_method (getCurrentLightInfo now c) c) = Some m ->
  let info := getCurrentLightInfo now c in
  let c1 := snd (select_method info c) in
  poll now c =
  with_lastRevolution (revolution info) (updateLedBrightnesses (for_each_led m info c1)).
Proof.
  intros Hr Hm. unfold poll. rewrite Hr. cbv zeta.
  destruct (select_method (getCurrentLightInfo now c) c) as [method c1].
  simpl in Hm. subst method. reflexivity.
Qed.

Lemma for_each_led_io (m : PatternMethod) (info : LightLocationInfo F) (c : LedCluster F) :
  io_preserving m -> same_io (board c) (board (for_each_led m info c)).
Proof.
  intros Hm. unfold for_each_led.
  pose proof (run_leds_io m info Hm (leds c) c) as H.
  destruct (run_leds m info (leds c) c) as [ls c']. exact H.
Qed.

(** C10.  On a rendering tick (the engine runs and the stored pattern is one
    of the twelve), [poll] emits for each LED, in order, exactly the table
    entry at that LED's brightness clamped into [0,100]; for every stored
    brightness the index read lies inside the 101-entry table, the duty
    cycle lies in [0,255], and a brightness at or below 0 gives duty cycle
    0. *)
Theorem poll_emits_table_entries (now : Z) (c : LedCluster F) :
  running c = true ->
  0 <= pattern (settings c) <= 11 ->
  pwm_log (board (poll now c)) =
    pwm_log (board c) ++
    map (fun led => (pin led, brightnessToDutyCycle (brightness led)))
        (leds (poll now c)) /\
  forall b : Z,
    dutyCycleIndex b = Z.min (Z.max b 0) 100 /\
    nth_error BRIGHTNESS_TO_DUTY_CYCLE (Z.to_nat (dutyCycleIndex b))
      = Some (brightnessToDutyCycle b) /\
    0 <= brightnessToDutyCycle b <= 255 /\
    (b <= 0 -> brightnessToDutyCycle b = 0).
Proof.
  intros Hr Hp. split.
  - destruct (select_method_valid (getCurrentLightInfo now c) c Hp) as [m Hm].
    rewrite (poll_running now c m Hr Hm). cbv zeta.
    set (info := getCurrentLightInfo now c).
    set (c1 := snd (select_method info c)).
    pose proof (select_method_board info c) as (_ & _ & H1). fold c1 in H1.
    pose proof (for_each_led_io m info c1 (select_method_io info c m Hm)) as (_ & _ & H2).
    unfold updateLedBrightnesses. simpl.
    destruct (analogWrite_fold (fun led => brightnessToDutyCycle (brightness led))
                (leds (for_each_led m info c1)) (board (for_each_led m info c1)))
      as (H3 & _ & _).
    cbv zeta in H3. rewrite H3. congruence.
  - intros b. pose proof (brightnessToDutyCycle_spec b). tauto.
Qed.

End Rendering.

(** ** The settings mutators (C8, C2, C6) *)

Section Mutators.
Context {F : Type} {FA : FloatArith F}.

(** Refinement: on the board, every mutator is the write-through shape of
    the specification, for its field and its new value. *)
Lemma run_mutator_refines (m : Mutator) (c : LedCluster F) :
  (fst (run_mutator m c), board (snd (run_mutator m c)))
  = write_through_spec (field_of m) (new_value m) (board c).
Proof.
  unfold write_through_spec, new_value.
  destruct m; simpl;
    unfold setPattern, updatePattern, setBrightness, setBrightnessPercent,
           updateBrightness, setSpeed, setSpeedPercent, updateSpeed,
           setBrightness, setPattern, setSpeed; simpl;
    match goal with
    | |- context [negb (?a =? ?b)] =>
        first [ destruct (Z.eqb_spec a b) as [E|E]
              | idtac ]
    end; simpl; try reflexivity;
    try (match goal with
         | |- context [?x =? ?y] => destruct (Z.eqb_spec x y)
         end; simpl; congruence).
Qed.

Lemma run_mutator_settings (m : Mutator) (c : LedCluster F) :
  settings (snd (run_mutator m c)) = eeprom (board (snd (run_mutator m c))).
Proof.
  destruct m; simpl;
    unfold setPattern, updatePattern, setBrightness, setBrightnessPercent,
           updateBrightness, setSpeed, setSpeedPercent, updateSpeed,
           setBrightness, setPattern, setSpeed; simpl;
    match goal with
    | |- context [if ?b then _ else _] => destruct b
    end; reflexivity.
Qed.

Lemma run_mutator_keeps (m : Mutator) (c : LedCluster F) :
  running (snd (run_mutator m c)) = running c /\
  pwm_log (board (snd (run_mutator m c))) = pwm_log (board c) /\
  leds (snd (run_mutator m c)) = leds c.
Proof.
  destruct m; simpl;
    unfold setPattern, updatePattern, setBrightness, setBrightnessPercent,
           updateBrightness, setSpeed, setSpeedPercent, updateSpeed,
           setBrightness, setPattern, setSpeed; simpl;
    match goal with
    | |- context [if ?b then _ else _] => destruct b
    end; repeat split; reflexivity.
Qed.


(** The stored pattern after [setPattern] is the argument forced into
    [0, PATTERN_COUNT], the upper bound included. *)
Lemma setPattern_range (p : Z) (c : LedCluster F) :
  pattern (eeprom (board (snd (setPattern p c)))) = forceRange p 0 (Patterns_to_Z PATTERN_COUNT) /\
  0 <= pattern (eeprom (board (snd (setPattern p c)))) <= Patterns_to_Z PATTERN_COUNT.
Proof.
  assert (H : pattern (eeprom (board (snd (setPattern p c)))) = forceRange p 0 12).
  { unfold setPattern, NonVol_get. simpl. unfold NonVol_get.
    destruct (Z.eqb_spec (pattern (eeprom (board c))) (forceRange p 0 12)); simpl; auto. }
  split; [exact H|]. rewrite H. apply (forceRange_bounds p 0 12). lia.
Qed.

(** C2, at the failing input.  [setPattern(12)] leaves the stored pattern at
    12 = PATTERN_COUNT, whatever the cluster: an index outside
    [0, PATTERN_COUNT-1], for which [PATTERN_STRINGS] has no entry and
    [poll] selects no method. *)
Theorem setPattern_stores_pattern_count (c : LedCluster F) (info : LightLocationInfo F) :
  let c' := snd (setPattern 12 c) in
  pattern (eeprom (board c')) = Patterns_to_Z PATTERN_COUNT /\
  pattern (settings c') = Patterns_to_Z PATTERN_COUNT /\
  ~ (0 <= pattern (settings c') <= Patterns_to_Z PATTERN_COUNT - 1) /\
  ~ (pattern (settings c') < PATTERN_STRINGS_size) /\
  fst (select_method info c') = None.
Proof.
  cbv zeta.
  assert (H : pattern (settings (snd (setPattern 12 c))) = 12 /\
              pattern (eeprom (board (snd (setPattern 12 c)))) = 12).
  { unfold setPattern. simpl. unfold NonVol_get.
    change (forceRange 12 0 12) with 12.
    destruct (Z.eqb_spec (pattern (eeprom (board c))) 12); simpl; auto. }
  destruct H as [H1 H2].
  unfold select_method. rewrite H1, H2. simpl. unfold PATTERN_STRINGS_size. simpl.
  repeat split; lia.
Qed.

Lemma setSpeed_stored (speed : Z) (c : LedCluster F) :
  revsPerMinute (eeprom (board (snd (setSpeed speed c))))
    = forceRange speed MIN_SPEED MAX_SPEED /\
  revsPerMinute (settings (snd (setSpeed speed c)))
    = forceRange speed MIN_SPEED MAX_SPEED.
Proof.
  unfold setSpeed. generalize (forceRange speed MIN_SPEED MAX_SPEED). intros v.
  simpl. unfold NonVol_get.
  destruct (Z.eqb_spec v (revsPerMinute (eeprom (board c)))) as [E|E]; simpl; auto.
Qed.

(** C6, as amended.  For a percentage in [0,100], [setSpeedPercent] stores
    [MAX_SPEED * percent / 100] (the percentage of the maximum speed, from
    0), raised to [MIN_SPEED] when below it: every percentage up to 10 gives
    6 rpm, 50 gives 30 rpm, 100 gives 60 rpm; the result lies in [6,60]. *)
Theorem setSpeedPercent_applies (percent : Z) (c : LedCluster F) :
  0 <= percent <= 100 ->
  speedApplied percent c = Z.max MIN_SPEED (MAX_SPEED * percent / 100) /\
  MIN_SPEED <= speedApplied percent c <= MAX_SPEED /\
  (percent <= 10 -> speedApplied percent c = MIN_SPEED) /\
  (percent = 100 -> speedApplied percent c = MAX_SPEED) /\
  revsPerMinute (settings (snd (setSpeedPercent percent c))) = speedApplied percent c.
Proof.
  intros Hp. unfold speedApplied.
  assert (Hq : Z.quot (int16 (MAX_SPEED * percent)) 100 = 60 * percent / 100).
  { unfold MAX_SPEED. rewrite int16_small by lia. apply Z.quot_div_nonneg; lia. }
  assert (Hd : 0 <= 60 * percent / 100 <= 60).
  { split; [apply Z.div_pos; lia | apply Z.div_le_upper_bound; lia]. }
  assert (Hf : forceRange (60 * percent / 100) MIN_SPEED MAX_SPEED
               = Z.max 6 (60 * percent / 100)).
  { rewrite forceRange_spec by (unfold MIN_SPEED, MAX_SPEED; lia).
    unfold MIN_SPEED, MAX_SPEED. lia. }
  assert (Hs : revsPerMinute (eeprom (board (snd (setSpeedPercent percent c))))
               = Z.max 6 (60 * percent / 100) /\
               revsPerMinute (settings (snd (setSpeedPercent percent c)))
               = Z.max 6 (60 * percent / 100)).
  { unfold setSpeedPercent. rewrite Hq, <- Hf. apply setSpeed_stored. }
  destruct Hs as [Hs1 Hs2]. rewrite Hs1, Hs2. unfold MIN_SPEED, MAX_SPEED.
  repeat split; try lia.
  - intros H10. assert (60 * percent / 100 <= 6)
      by (apply Z.div_le_upper_bound; lia). lia.
  - intros ->. reflexivity.
Qed.

End Mutators.

(** ** Construction and life cycle (C3, C9) *)

Section LifeCycle.
Context {F : Type} {FA : FloatArith F}.

(** C3.  When the settings found in the store at construction have the
    invalid byte set or a version other than [VERSION], the constructed
    cluster holds the defaults (version [VERSION], pattern ChaseClockwise,
    brightnessMultiplier 18, revsPerMinute 18, invalid 0), and the
    constructor has written exactly that record to the store, once. *)
Theorem constructor_resets_invalid_settings (pins : list Z) (n now : Z) (b : Board) :
  invalid (eeprom b) <> 0 \/ version (eeprom b) <> VERSION ->
  let c := new_LedCluster (FA := FA) pins n now b in
  settings c = default_settings /\
  eeprom (board c) = default_settings /\
  eeprom_puts (board c) = eeprom_puts b ++ [default_settings] /\
  version (settings c) = VERSION /\
  pattern (settings c) = Patterns_to_Z ChaseClockwise /\
  brightnessMultiplier (settings c) = 18 /\
  revsPerMinute (settings c) = 18 /\
  invalid (settings c) = 0.
Proof.
  intros H. cbv zeta. unfold new_LedCluster.
  set (c0 := populateRaindrops _).
  assert (Hb : same_io b (board c0)) by apply (populateRaindrops_io (mkCluster _ _ _ _ _ _ b)).
  destruct Hb as (He & Hp & _).
  assert (Hc : (negb (invalid (settings (load_settings c0)) =? 0)
                || negb (version (settings (load_settings c0)) =? VERSION)) = true).
  { simpl. unfold NonVol_get. rewrite <- He. apply orb_true_iff.
    destruct H as [H|H]; [left|right]; apply negb_true_iff, Z.eqb_neq; exact H. }
  rewrite Hc. simpl. rewrite <- Hp. repeat split; reflexivity.
Qed.

(** Valid settings of the current version are kept, and nothing is written. *)
Lemma constructor_keeps_valid_settings (pins : list Z) (n now : Z) (b : Board) :
  invalid (eeprom b) = 0 -> version (eeprom b) = VERSION ->
  let c := new_LedCluster (FA := FA) pins n now b in
  settings c = eeprom b /\ eeprom (board c) = eeprom b /\
  eeprom_puts (board c) = eeprom_puts b.
Proof.
  intros Hi Hv. cbv zeta. unfold new_LedCluster.
  set (c0 := populateRaindrops _).
  assert (Hb : same_io b (board c0)) by apply (populateRaindrops_io (mkCluster _ _ _ _ _ _ b)).
  destruct Hb as (He & Hp & _).
  assert (Hc : (negb (invalid (settings (load_settings c0)) =? 0)
                || negb (version (settings (load_settings c0)) =? VERSION)) = false).
  { simpl. unfold NonVol_get. rewrite <- He, Hi, Hv. reflexivity. }
  rewrite Hc. simpl. unfold NonVol_get. repeat split; congruence.
Qed.

Lemma shutdown_spec (c : LedCluster F) :
  running (shutdown c) = false /\
  leds (shutdown c) = leds c /\
  pwm_log (board (shutdown c)) = pwm_log (board c) ++ map (fun led => (pin led, 0)) (leds c).
Proof.
  unfold shutdown. simpl.
  destruct (analogWrite_fold (fun _ => 0) (leds c) (board c)) as (H & _ & _).
  auto.
Qed.

Lemma run_call_stopped (k : Call) (c : LedCluster F) :
  keeps_state k = true -> running c = false ->
  running (run_call k c) = false /\
  pwm_log (board (run_call k c)) = pwm_log (board c) /\
  leds (run_call k c) = leds c.
Proof.
  intros Hk Hr. destruct k as [now|m| |]; try discriminate; simpl.
  - rewrite poll_stopped by assumption. auto.
  - destruct (run_mutator_keeps m c) as (H1 & H2 & H3). rewrite H1. auto.
Qed.

Lemma run_calls_stopped (ks : list Call) (c : LedCluster F) :
  forallb keeps_state ks = true -> running c = false ->
  running (run_calls ks c) = false /\
  pwm_log (board (run_calls ks c)) = pwm_log (board c) /\
  leds (run_calls ks c) = leds c.
Proof.
  revert c. induction ks as [|k ks IH]; intros c Hk Hr; simpl; [auto|].
  simpl in Hk. apply andb_prop in Hk as [Hk Hks].
  destruct (run_call_stopped k c Hk Hr) as (H1 & H2 & H3).
  destruct (IH (run_call k c) Hks H1) as (H4 & H5 & H6).
  unfold run_calls in *. rewrite H5, H6. auto.
Qed.

(** C9.  [shutdown] stops the engine and writes duty cycle 0 to the pin of
    every LED, so every LED pin is left at level 0.  From then on, for any
    sequence of [poll] calls (at any times) and settings mutators, nothing
    more is written to any output, the engine stays stopped, and every LED
    pin stays at level 0, whatever pattern is stored. *)
Theorem shutdown_then_poll_is_dark (ks : list Call) (c : LedCluster F) :
  forallb keeps_state ks = true ->
  let c1 := shutdown c in
  let c2 := run_calls ks c1 in
  running c1 = false /\
  pwm_log (board c1) = pwm_log (board c) ++ map (fun led => (pin led, 0)) (leds c) /\
  running c2 = false /\
  pwm_log (board c2) = pwm_log (board c1) /\
  (forall now, poll now c2 = c2) /\
  forall led, In led (leds c) ->
    pin_level (pin led) (pwm_log (board c1)) = Some 0 /\
    pin_level (pin led) (pwm_log (board c2)) = Some 0.
Proof.
  intros Hk. cbv zeta.
  destruct (shutdown_spec c) as (H1 & H2 & H3).
  destruct (run_calls_stopped ks (shutdown c) Hk H1) as (H4 & H5 & H6).
  repeat split; auto.
  - intros now. now apply poll_stopped.
  - rewrite H3, pin_level_app, (pin_level_all (pin led) 0); auto.
    now apply in_map.
  - rewrite H5, H3, pin_level_app, (pin_level_all (pin led) 0); auto.
    now apply in_map.
Qed.

End LifeCycle.

(** ** The cycle clock (C4) *)

Section Clock.
Context {F : Type} {FA : FloatArith F}.

Lemma int32_shift (x e d : Z) :
  int32 x = e -> -2147483648 <= e + d <= 2147483647 -> int32 (x + d) = e + d.
Proof.
  intros He Hr.
  assert (Hx : x = e + ((x + 2147483648) / 4294967296) * 4294967296).
  { subst e. unfold int32.
    pose proof (Z.div_mod (x + 2147483648) 4294967296 ltac:(lia)). lia. }
  rewrite Hx.
  replace (e + (x + 2147483648) / 4294967296 * 4294967296 + d)
    with (e + d + (x + 2147483648) / 4294967296 * 4294967296) by lia.
  rewrite int32_add_period. now apply int32_small.
Qed.

(** C4, as amended.  For a positive period, a sample time [t] whose elapsed
    time is non-negative and [k >= 0] such that the elapsed time at
    [t + k * period] still fits the 32-bit signed [long]: the sample at
    [t + k * period] has the same angle as the sample at [t] and a
    revolution count larger by exactly [k]. *)
Theorem sample_periodic (c : LedCluster F) (t k : Z) :
  0 < revTimePeriodMs c ->
  0 <= elapsedMs t c ->
  0 <= k ->
  elapsedMs t c + k * revTimePeriodMs c <= LONG_MAX ->
  let i := getCurrentLightInfo t c in
  let i' := getCurrentLightInfo (t + k * revTimePeriodMs c) c in
  lead_angle i' = lead_angle i /\ revolution i' = revolution i + k.
Proof.
  intros Hp He Hk Hmax. cbv zeta. unfold getCurrentLightInfo. simpl.
  set (p := revTimePeriodMs c) in *.
  assert (Hel : elapsedMs (t + k * p) c = elapsedMs t c + k * p).
  { unfold elapsedMs in *.
    replace (t + k * p - startTimeMs c) with (t - startTimeMs c + k * p) by lia.
    apply int32_shift; [reflexivity|]. unfold LONG_MAX in Hmax. nia. }
  rewrite Hel.
  assert (Hrem : Z.rem (elapsedMs t c + k * p) p = Z.rem (elapsedMs t c) p).
  { rewrite !Z.rem_mod_nonneg by nia. apply Z.mod_add. lia. }
  assert (Hquot : Z.quot (elapsedMs t c + k * p) p = Z.quot (elapsedMs t c) p + k).
  { rewrite !Z.quot_div_nonneg by nia. apply Z.div_add. lia. }
  rewrite Hrem, Hquot. split; reflexivity.
Qed.

End Clock.

(** ** Patterns and the raw value they hand over *)

Section RawLink.
Context {F : Type} {FA : FloatArith F}.

Lemma run_leds_light (raw : LedInfo F -> LightLocationInfo F -> Z)
      (info : LightLocationInfo F) (ls : list (LedInfo F)) (c : LedCluster F) :
  fst (run_leds (light_method raw) info ls c) =
    map (fun led =>
           set_brightness
             (scaleBrightness (brightnessMultiplier (eeprom (board c)))
                              (int16 (raw led info))) led) ls /\
  board (snd (run_leds (light_method raw) info ls c)) = board c.
Proof.
  revert c. induction ls as [|led rest IH]; intros c; [split; reflexivity|].
  cbn [run_leds]. unfold light_method at 1 3. unfold light, globaliseBrightness.
  cbn [fst snd].
  destruct (IH (load_settings c)) as [H1 H2].
  destruct (run_leds (light_method raw) info rest (load_settings c)) as [rest' c2].
  cbn [fst snd] in *. rewrite H1, H2. split; reflexivity.
Qed.

Lemma select_method_stateless (info : LightLocationInfo F) (c : LedCluster F)
      (p : Patterns) (raw : LedInfo F -> LightLocationInfo F -> Z) :
  Patterns_of_Z (pattern (settings c)) = Some p ->
  statelessRaw p = Some raw ->
  select_method info c = (Some (light_method raw), c).
Proof.
  intros Hp Hs. unfold select_method. rewrite Hp.
  destruct p; simpl in Hs; inversion Hs; subst; reflexivity.
Qed.

(** A tick of a running engine under one of the stateless patterns: every
    LED gets its raw value scaled by the persisted multiplier. *)
Lemma poll_stateless (now : Z) (c : LedCluster F)
      (p : Patterns) (raw : LedInfo F -> LightLocationInfo F -> Z) :
  running c = true ->
  Patterns_of_Z (pattern (settings c)) = Some p ->
  statelessRaw p = Some raw ->
  leds (poll now c) =
    map (fun led =>
           set_brightness
             (scaleBrightness (brightnessMultiplier (eeprom (board c)))
                              (int16 (raw led (getCurrentLightInfo now c)))) led)
        (leds c).
Proof.
  intros Hr Hp Hs. unfold poll. rewrite Hr.
  rewrite (select_method_stateless _ c p raw Hp Hs).
  unfold for_each_led.
  destruct (run_leds_light raw (getCurrentLightInfo now c) (leds c) c) as [H1 _].
  destruct (run_leds (light_method raw) (getCurrentLightInfo now c) (leds c) c)
    as [ls c']. simpl in *. exact H1.
Qed.

(** For each of the twelve patterns, the method [poll] selects stores the
    raw value of [rawBrightness], scaled by the persisted multiplier; where
    there is none (a raindrop outside its ramps) it stores 0. *)
Lemma method_hands_over_raw (p : Patterns) (info : LightLocationInfo F)
      (c c0 : LedCluster F) (m : PatternMethod) (led : LedInfo F) :
  Patterns_of_Z (pattern (settings c0)) = Some p ->
  fst (select_method info c0) = Some m ->
  brightness (fst (m led info c)) =
    match rawBrightness p led info (board c) with
    | Some r => scaleBrightness (brightnessMultiplier (eeprom (board c))) (int16 r)
    | None => 0
    end.
Proof.
  intros Hp Hm. unfold select_method in Hm. rewrite Hp in Hm.
  destruct p; simpl in Hm; inversion Hm; subst; clear Hm;
    try reflexivity.
  - (* Raindrop *)
    unfold raindropMode. simpl.
    destruct (raindropRaw (raindropPosition led info)); reflexivity.
Qed.

End RawLink.

(** ** The constructed cluster *)

Section Construction.
Context {F : Type} {FA : FloatArith F}.

Lemma populate_angles (ls : list (LedInfo F)) (b : Board) :
  map angle (fst (populate ls b)) = map angle ls.
Proof.
  revert b. induction ls as [|led rest IH]; intros b; cbn [populate]; [reflexivity|].
  destruct (random1 (360 - RAINDROP_ANGLE) b) as [r b1].
  specialize (IH b1). destruct (populate rest b1) as [rest' b2].
  cbn [fst map] in *. now rewrite IH.
Qed.

Lemma elapsed_at_start (now : Z) : int32 (now - int32 now) = 0.
Proof.
  replace (now - int32 now) with (0 + ((now + 2147483648) / 4294967296) * 4294967296).
  - rewrite int32_add_period. reflexivity.
  - unfold int32. pose proof (Z.div_mod (now + 2147483648) 4294967296 ltac:(lia)). lia.
Qed.

(** The cluster the constructor builds on a board with valid settings. *)
Lemma new_LedCluster_valid (pins : list Z) (n now : Z) (b : Board) :
  invalid (eeprom b) = 0 -> version (eeprom b) = VERSION ->
  let c := new_LedCluster pins n now b in
  running c = true /\
  startTimeMs c = int32 now /\
  revTimePeriodMs c = periodOf (revsPerMinute (eeprom b)) /\
  settings c = eeprom b /\
  eeprom (board c) = eeprom b /\
  map angle (leds c) = map angle (new_leds pins n) /\
  map pin (leds c) = map pin (new_leds pins n).
Proof.
  intros Hi Hv. cbv zeta.
  destruct (constructor_keeps_valid_settings pins n now b Hi Hv) as (Hs & He & _).
  cbv zeta in Hs, He.
  unfold new_LedCluster in *.
  set (c0 := populateRaindrops _) in *.
  assert (Hc : (negb (invalid (settings (load_settings c0)) =? 0)
                || negb (version (settings (load_settings c0)) =? VERSION)) = false).
  { pose proof (populateRaindrops_io (mkCluster (new_leds pins n) (int32 now) 0
                                                (NonVol_get b) true 0 b)) as (E & _).
    fold c0 in E. simpl in E. simpl. unfold NonVol_get. rewrite <- E, Hi, Hv. reflexivity. }
  rewrite Hc in *. simpl in *.
  assert (Hf : running c0 = true /\ startTimeMs c0 = int32 now /\
               map angle (leds c0) = map angle (new_leds pins n) /\
               map pin (leds c0) = map pin (new_leds pins n)).
  { unfold c0, populateRaindrops. simpl.
    pose proof (populate_angles (new_leds pins n) b) as Ha.
    pose proof (populate_pins (new_leds pins n) b) as Hp.
    destruct (populate (new_leds pins n) b) as [ls b']. simpl in *. auto. }
  destruct Hf as (H1 & H2 & H3 & H4).
  unfold NonVol_get in *. rewrite He in *. repeat split; auto.
Qed.

End Construction.


(** ** binary32: global scaling (C5), the chase scenario (C7), and the
    integer stages of the patterns *)

Section Binary32.
Variables cosf sinf : spec_float -> spec_float.

Local Abbreviation B := (binary32 cosf sinf).
Local Hint Extern 0 (FloatArith spec_float) =>
  exact (binary32 cosf sinf) : typeclass_instances.

Lemma scale_monotone_checked :
  forallb (scale_monotone_at (FA := B)) (Zrange 0 101) = true.
Proof. vm_compute. reflexivity. Qed.

Lemma scale_step (raw m : Z) :
  0 <= raw <= 100 -> 1 <= m <= 19 ->
  scaleBrightness (FA := B) m raw <= scaleBrightness (FA := B) (m + 1) raw.
Proof.
  intros Hr Hm.
  pose proof (forallb_Zrange _ 0 101 scale_monotone_checked raw ltac:(lia)) as H.
  unfold scale_monotone_at in H.
  pose proof (forallb_Zrange _ 1 19 H m ltac:(lia)) as H'. cbv beta in H'.
  now apply Z.leb_le.
Qed.

Lemma scale_monotone (raw m1 m2 : Z) :
  0 <= raw <= 100 -> 1 <= m1 -> m1 <= m2 -> m2 <= 20 ->
  scaleBrightness (FA := B) m1 raw <= scaleBrightness (FA := B) m2 raw.
Proof.
  intros Hr H1 H12. revert m2 H12.
  apply (Zlt_lower_bound_ind
           (fun m2 => m2 <= 20 ->
                      scaleBrightness (FA := B) m1 raw <= scaleBrightness (FA := B) m2 raw)).
  intros m2 IH Hle H20.
  destruct (Z.eq_dec m1 m2) as [->|Hne]; [lia|].
  specialize (IH (m2 - 1) ltac:(lia) ltac:(lia)).
  pose proof (scale_step raw (m2 - 1) Hr ltac:(lia)) as Hs.
  replace (m2 - 1 + 1) with m2 in Hs by lia. lia.
Qed.

(** C5.  For a raw brightness in [0,100], the value [globaliseBrightness]
    returns does not decrease when the persisted brightnessMultiplier grows
    within [1,20], and with the multiplier at 20 it is the raw value
    itself.  (binary32 arithmetic.) *)
Theorem globaliseBrightness_monotone (raw : Z) (c1 c2 : LedCluster spec_float) :
  0 <= raw <= 100 ->
  1 <= brightnessMultiplier (eeprom (board c1)) ->
  brightnessMultiplier (eeprom (board c1)) <= brightnessMultiplier (eeprom (board c2)) ->
  brightnessMultiplier (eeprom (board c2)) <= 20 ->
  fst (globaliseBrightness (FA := B) raw c1) <= fst (globaliseBrightness (FA := B) raw c2) /\
  (brightnessMultiplier (eeprom (board c2)) = MAX_BRIGHTNESS ->
   fst (globaliseBrightness (FA := B) raw c2) = raw).
Proof.
  intros Hr H1 H12 H2. unfold globaliseBrightness. simpl. unfold NonVol_get. split.
  - now apply scale_monotone.
  - intros ->. reflexivity.
Qed.

(** C7, as amended.  Six LEDs, ChaseClockwise, multiplier 20, the tick taken
    at the start time (lead angle 0): the LEDs sit at 0, 60, 120, 180, 240
    and 300 degrees and get brightness 100, 17, 33, 50, 67 and 83: the LED
    at 0 degrees 100, the LED at 180 degrees 50, and the LED at 300 degrees
    83 (it is the LED at 60 degrees that gets 17).  (binary32 arithmetic.) *)
Theorem chase_clockwise_scenario (pins : list Z) (now : Z) (b : Board) :
  eeprom b = chase_settings ->
  let c := new_LedCluster (FA := B) pins 6 now b in
  map angle (leds c) = map B32.of_int [0; 60; 120; 180; 240; 300] /\
  lead_angle (getCurrentLightInfo (FA := B) now c) = B32.of_int 0 /\
  map brightness (leds (poll (FA := B) now c)) = [100; 17; 33; 50; 67; 83].
Proof.
  intros Hb. cbv zeta.
  destruct (new_LedCluster_valid (FA := B) pins 6 now b)
    as (Hr & Hst & Hper & Hs & He & Ha & _);
    [rewrite Hb; reflexivity | rewrite Hb; reflexivity |].
  cbv zeta in *. set (c := new_LedCluster pins 6 now b) in *.
  assert (Hangles : map angle (leds c) = map B32.of_int [0; 60; 120; 180; 240; 300]).
  { rewrite Ha. vm_compute. reflexivity. }
  assert (Hlead : getCurrentLightInfo (FA := B) now c = mkInfo (B32.of_int 0) 0).
  { unfold getCurrentLightInfo, elapsedMs. rewrite Hst, elapsed_at_start, Hper, Hb.
    vm_compute. reflexivity. }
  split; [exact Hangles|]. split; [rewrite Hlead; reflexivity|].
  rewrite (poll_stateless (FA := B) now c ChaseClockwise (chaseCwRaw (FA := B)) Hr);
    [| rewrite Hs, Hb; reflexivity | reflexivity].
  rewrite Hlead, He, Hb, map_map.
  transitivity
    (map (fun a => scaleBrightness (FA := B) 20
                     (int16 (chaseBrightness (FA := B)
                        (Z.rem (int16 (B32.trunc (B32.sub (B32.add (B32.of_int 0)
                                                                   (B32.of_int 360)) a)))
                               360))))
         (map angle (leds c))).
  - rewrite map_map. apply map_ext. intros led. reflexivity.
  - rewrite Hangles. vm_compute. reflexivity.
Qed.

(** Once the angle is an integer, the rest of each pattern is a finite
    function; on binary32 it stays within the same bounds as on exact
    rationals. *)
Lemma chase_checked_b32 :
  forallb (chase_in_percent (FA := B)) (Zrange 0 360) = true.
Proof. vm_compute. reflexivity. Qed.

Lemma wave_checked_b32 :
  forallb (wave_in_percent (FA := B)) (Zrange 0 181) = true.
Proof. vm_compute. reflexivity. Qed.

Lemma raindrop_checked_b32 :
  forallb (raindrop_in_percent (FA := B)) (Zrange 0 12) = true.
Proof. vm_compute. reflexivity. Qed.

Lemma heartbeat_checked_b32 :
  forallb (heartbeat_in_range (FA := B)) (Zrange 0 136) = true.
Proof. vm_compute. reflexivity. Qed.

Lemma chaseBrightness_range_b32 (a : Z) :
  0 <= a < 360 -> 0 <= chaseBrightness (FA := B) a <= 100.
Proof.
  intros H.
  pose proof (forallb_Zrange _ 0 360 chase_checked_b32 a ltac:(lia)) as Hc.
  unfold chase_in_percent, in_percent in Hc. apply andb_prop in Hc as [H1 H2]. lia.
Qed.

Lemma heartbeat_range_b32 (d : Z) :
  0 <= d <= 135 ->
  -100 <= heartbeatValue (FA := B) (heartbeatPercent (FA := B) d) <= 100.
Proof.
  intros H.
  pose proof (forallb_Zrange _ 0 136 heartbeat_checked_b32 d ltac:(lia)) as Hc.
  unfold heartbeat_in_range in Hc. cbv zeta in Hc.
  apply andb_prop in Hc as [H1 H2]. lia.
Qed.

Lemma waveBrightness_range_b32 (a : Z) :
  0 <= a <= 180 -> 0 <= waveBrightness (FA := B) a <= 100.
Proof.
  intros H.
  pose proof (forallb_Zrange _ 0 181 wave_checked_b32 a ltac:(lia)) as Hc.
  unfold wave_in_percent, in_percent in Hc. apply andb_prop in Hc as [H1 H2]. lia.
Qed.

Lemma raindropRaw_range_b32 (p r : Z) :
  raindropRaw (FA := B) p = Some r -> 0 <= r <= 100.
Proof.
  intros H.
  destruct (Z_lt_le_dec p 0) as [Hn|Hn];
    [|destruct (Z_lt_le_dec p 12) as [Hu|Hu]].
  - unfold raindropRaw in H.
    replace (p >=? 0) with false in H by lia.
    replace (p >=? RAMPUP_ANGLE) with false in H by (unfold RAMPUP_ANGLE; lia).
    discriminate.
  - pose proof (forallb_Zrange _ 0 12 raindrop_checked_b32 p ltac:(lia)) as Hc.
    unfold raindrop_in_percent, in_percent in Hc. rewrite H in Hc.
    apply andb_prop in Hc as [H1 H2]. lia.
  - unfold raindropRaw in H.
    replace (p <? RAMPUP_ANGLE) with false in H by (unfold RAMPUP_ANGLE; lia).
    replace (p <? RAINDROP_ANGLE) with false in H by (unfold RAINDROP_ANGLE; lia).
    rewrite !andb_false_r in H. discriminate.
Qed.

Lemma chase_angle_below_360 (x : Z) : 0 <= Z.rem x 360 -> 0 <= Z.rem x 360 < 360.
Proof.
  intros H. pose proof (Z.rem_bound_abs x 360 ltac:(lia)). lia.
Qed.

(** On binary32, for every float input: the ranges of the raw values hold
    outright for the patterns that do not depend on the angles as floats,
    and for the others as soon as the integer the angle is truncated to
    lies where exact arithmetic puts it. *)
Lemma raw_brightness_ranges_binary32 (p : Patterns) (led : LedInfo spec_float)
      (info : LightLocationInfo spec_float) (b : Board) (r : Z) :
  rawBrightness (FA := B) p led info b = Some r ->
  match p with
  | JustOn | Raindrop | Flames | Static => 0 <= r <= 100
  | ChaseClockwise => 0 <= chaseAngleCw (FA := B) led info -> 0 <= r <= 100
  | ChaseAntiClockwise => 0 <= chaseAngleAcw (FA := B) led info -> 0 <= r <= 100
  | ChaseBoth =>
      0 <= chaseAngleCw (FA := B) led info ->
      0 <= chaseAngleAcw (FA := B) led info -> 0 <= r <= 100
  | WaveClockwise => -180 <= waveAngle (FA := B) led info < 360 -> 0 <= r <= 100
  | WaveAntiClockwise => -360 <= waveAngle (FA := B) led info < 360 -> 0 <= r <= 100
  | Heartbeat => 0 <= heartbeatDelta (FA := B) info <= 135 -> -100 <= r <= 100
  | Throb | Throb2 | PATTERN_COUNT => True
  end.
Proof.
  intros Hr.
  destruct p; cbn [rawBrightness] in Hr; try exact I.
  - inversion Hr. unfold justOnRaw. lia.
  - inversion Hr. intros H. apply chaseBrightness_range_b32.
    now apply chase_angle_below_360.
  - inversion Hr. intros H. apply chaseBrightness_range_b32.
    now apply chase_angle_below_360.
  - inversion Hr. intros H1 H2. unfold chaseBothRaw. apply chaseBrightness_range_b32.
    apply chase_angle_below_360 in H1, H2.
    unfold minZ. destruct (_ <? _); assumption.
  - inversion Hr. intros H. unfold waveCwRaw. cbv zeta.
    apply waveBrightness_range_b32, wave_fold_range. lia.
  - inversion Hr. intros H. unfold waveAcwRaw. cbv zeta.
    apply waveBrightness_range_b32.
    rewrite (int16_small (360 - waveAngle led info)) by lia.
    apply wave_fold_range. lia.
  - inversion Hr. intros H. unfold heartbeatRaw. now apply heartbeat_range_b32.
  - now apply (raindropRaw_range_b32 (raindropPosition (FA := B) led info)).
  - inversion Hr. unfold candleRaw, candleStep.
    destruct (random2 (-4) 4 b) as [x b']. cbn [fst set_extra extra].
    apply forceRange_bounds. lia.
  - destruct (candleStep led b) as [led1 b1]. inversion Hr.
    unfold staticRaw. apply forceRange_bounds. lia.
Qed.

End Binary32.

(** ** Exact rationals: the range of every pattern's raw value (C1) *)

Lemma trunc_range (x : Q) (a b : Z) :
  a <= 0 -> 0 < b -> (inject_Z a <= x)%Q -> (x < inject_Z b)%Q ->
  a <= ExactQ.trunc x < b.
Proof.
  intros Ha Hb H1 H2. unfold ExactQ.trunc. destruct x as [n d].
  unfold Qle, Qlt in *. simpl in *.
  destruct (Z_lt_le_dec n 0) as [Hn|Hn].
  - replace n with (- (- n)) by lia.
    rewrite Z.quot_opp_l by lia. rewrite Z.quot_div_nonneg by lia.
    assert (0 <= - n / Z.pos d) by (apply Z.div_pos; lia).
    assert (- n / Z.pos d <= - a) by (apply Z.div_le_upper_bound; lia).
    lia.
  - rewrite Z.quot_div_nonneg by lia.
    assert (0 <= n / Z.pos d) by (apply Z.div_pos; lia).
    assert (n / Z.pos d < b) by (apply Z.div_lt_upper_bound; lia).
    lia.
Qed.

Lemma trunc_floor (x : Q) : (0 <= x)%Q -> ExactQ.trunc x = Qfloor x.
Proof.
  intros H. unfold ExactQ.trunc. destruct x as [n d]. simpl.
  apply Z.quot_div_nonneg; [|lia].
  unfold Qle in H. simpl in H. lia.
Qed.

Section ExactRationals.
Variables cosf sinf : Q -> Q.

Local Abbreviation E := (exactQ cosf sinf).
Local Hint Extern 0 (FloatArith Q) => exact (exactQ cosf sinf) : typeclass_instances.

(** The [round] macro on a non-negative value is the nearest integer (ties
    upward). *)
Lemma round_nearest (y : Q) :
  (0 <= y)%Q -> (y <= 1000000)%Q ->
  (inject_Z (round (FA := E) y) <= y + (1 # 2) /\
   y + (1 # 2) < inject_Z (round (FA := E) y) + 1)%Q.
Proof.
  intros H0 H1. unfold round. simpl.
  assert (Eb : Qle_bool 0 y = true) by now apply Qle_bool_iff.
  change (inject_Z 0) with 0%Q. rewrite Eb.
  assert (Hh : (ExactQ.lit 1 2 == 1 # 2)%Q) by reflexivity.
  destruct (trunc_range (y + ExactQ.lit 1 2) 0 1000001) as [L U]; try lia.
  - rewrite Hh. change (inject_Z 0) with 0%Q. lra.
  - rewrite Hh. change (inject_Z 1000001) with 1000001%Q. lra.
  - rewrite int32_small by lia. rewrite trunc_floor by (rewrite Hh; lra).
    rewrite <- Hh. split.
    + apply Qfloor_le.
    + pose proof (Qlt_floor (y + ExactQ.lit 1 2)) as Hf.
      rewrite inject_Z_plus in Hf. exact Hf.
Qed.





















(** The scaling and the chase scenario come out the same without rounding
    error. *)
Lemma scale_monotone_checked_exact :
  forallb (scale_monotone_at (FA := E)) (Zrange 0 101) = true.
Proof. vm_compute. reflexivity. Qed.

Lemma chase_scenario_exact :
  map brightness
      (leds (poll (FA := E) 1000
                  (new_LedCluster (FA := E) demo_pins 6 1000 (demo_board chase_settings))))
  = [100; 17; 33; 50; 67; 83].
Proof. vm_compute. reflexivity. Qed.


End ExactRationals.

(** ** What a tick leaves alone *)

Section Frame.

Context {F : Type} {FA : FloatArith F}.

Lemma framed_refl (c : LedCluster F) : framed c c.
Proof. unfold framed. repeat split; auto. Qed.

Lemma framed_trans (c1 c2 c3 : LedCluster F) :
  framed c1 c2 -> framed c2 c3 -> framed c1 c3.
Proof.
  intros (I1 & P1 & R1 & S1 & E1) (I2 & P2 & R2 & S2 & E2).
  unfold framed. repeat split; try congruence.
  - destruct I1 as (A & B & C), I2 as (A2 & B2 & C2). congruence.
  - destruct I1 as (A & B & C), I2 as (A2 & B2 & C2). congruence.
  - destruct I1 as (A & B & C), I2 as (A2 & B2 & C2). congruence.
  - destruct I1 as (A & _). destruct E2 as [E2|E2]; destruct E1 as [E1|E1];
      [left|right|right|right]; congruence.
Qed.

Lemma light_framed (raw : Z) (led : LedInfo F) (c : LedCluster F) :
  framed c (snd (light raw led c)).
Proof. unfold framed. simpl. repeat split; auto. Qed.

Lemma with_board_framed (b : Board) (c : LedCluster F) :
  same_io (board c) b -> framed c (with_board b c).
Proof. intros H. unfold framed. simpl. repeat split; auto; apply H. Qed.

Lemma method_framed (info : LightLocationInfo F) (c0 : LedCluster F) (m : PatternMethod) :
  fst (select_method info c0) = Some m ->
  forall led i c, framed c (snd (m led i c)).
Proof.
  unfold select_method.
  destruct (Patterns_of_Z (pattern (settings c0))) as [[]|]; simpl; intros H;
    inversion H; subst; intros led i c; try apply light_framed.
  - unfold raindropMode.
    destruct (raindropRaw (raindropPosition led i)); [apply light_framed|apply framed_refl].
  - unfold candleMode.
    pose proof (candleStep_io led (board c)) as Hio.
    destruct (candleStep led (board c)) as [led1 b].
    eapply framed_trans; [apply (with_board_framed b c Hio)|apply light_framed].
  - unfold staticMode, candleMode.
    pose proof (candleStep_io led (board c)) as Hio.
    destruct (candleStep led (board c)) as [led1 b]. cbn [snd] in Hio.
    set (c1 := snd (light (candleRaw led1) led1 (with_board b c))).
    assert (H1 : framed c c1).
    { eapply framed_trans; [apply (with_board_framed b c Hio)|apply light_framed]. }
    change (light (candleRaw led1) led1 (with_board b c))
      with (fst (light (candleRaw led1) led1 (with_board b c)), c1).
    cbv iota beta.
    pose proof (random2_io (-10) 40 (board c1)) as Hio2.
    destruct (random2 (-10) 40 (board c1)) as [noise b2]. cbn [snd] in Hio2.
    eapply framed_trans; [exact H1|].
    eapply framed_trans; [apply (with_board_framed b2 c1 Hio2)|apply light_framed].
Qed.

Lemma run_leds_framed (m : PatternMethod) (info : LightLocationInfo F) :
  (forall led i c, framed c (snd (m led i c))) ->
  forall ls c, framed c (snd (run_leds m info ls c)).
Proof.
  intros Hm ls. induction ls as [|led rest IH]; intros c; simpl.
  - apply framed_refl.
  - pose proof (Hm led info c) as H1.
    destruct (m led info c) as [led' c1]. simpl in H1.
    specialize (IH c1). destruct (run_leds m info rest c1) as [rest' c2].
    simpl in *. eapply framed_trans; eassumption.
Qed.

Lemma populateRaindrops_framed (c : LedCluster F) : framed c (populateRaindrops c).
Proof.
  pose proof (populateRaindrops_io c) as Hio.
  unfold populateRaindrops in *. destruct (populate (leds c) (board c)) as [ls b].
  simpl in *. unfold framed. simpl. repeat split; auto; apply Hio.
Qed.

Lemma select_method_framed (info : LightLocationInfo F) (c : LedCluster F) :
  framed c (snd (select_method info c)).
Proof.
  unfold select_method.
  destruct (Patterns_of_Z (pattern (settings c))) as [[]|]; simpl;
    try apply framed_refl.
  destruct (negb (lastRevolution c =? revolution info));
    [apply populateRaindrops_framed | apply framed_refl].
Qed.

Lemma poll_framed (now : Z) (c : LedCluster F) :
  eeprom (board (poll now c)) = eeprom (board c) /\
  eeprom_puts (board (poll now c)) = eeprom_puts (board c) /\
  revTimePeriodMs (poll now c) = revTimePeriodMs c /\
  running (poll now c) = running c /\
  startTimeMs (poll now c) = startTimeMs c /\
  (settings (poll now c) = settings c \/ settings (poll now c) = eeprom (board c)).
Proof.
  unfold poll. destruct (running c) eqn:Hr; [|repeat split; auto].
  set (info := getCurrentLightInfo now c).
  pose proof (select_method_framed info c) as H1.
  pose proof (method_framed info c) as Hm.
  destruct (select_method info c) as [[m|] c1]; cbn [fst snd] in *.
  - specialize (Hm m eq_refl).
    pose proof (run_leds_framed m info Hm (leds c1) c1) as H2.
    unfold for_each_led. destruct (run_leds m info (leds c1) c1) as [ls c2].
    cbn [snd] in H2.
    pose proof (framed_trans _ _ _ H1 H2) as (Hio & Hp & Hrun & Hs & He).
    destruct Hio as (A & B & C).
    unfold updateLedBrightnesses. simpl.
    destruct (analogWrite_fold (fun led => brightnessToDutyCycle (brightness led))
                ls (board c2)) as (_ & X & Y).
    cbv zeta in X, Y. rewrite X, Y. repeat split; try congruence; try exact He.
  - destruct H1 as (Hio & Hp & Hrun & Hs & He). destruct Hio as (A & B & C).
    simpl. repeat split; try congruence; try exact He.
Qed.

End Frame.

(** ** The settings stay in range (X1) *)

Section Invariant.

Context {F : Type} {FA : FloatArith F}.

Lemma new_value_in_range (m : Mutator) (s : Settings) :
  settings_in_range s -> settings_in_range (set_field (field_of m) (new_value m s) s).
Proof.
  intros (Hv & Hi & Hp & Hb & Hs). unfold new_value, settings_in_range.
  destruct m; simpl; repeat split; auto;
    try apply (forceRange_bounds _ 0 12);
    try apply (forceRange_bounds _ MIN_BRIGHTNESS MAX_BRIGHTNESS);
    try apply (forceRange_bounds _ MIN_SPEED MAX_SPEED);
    unfold MIN_BRIGHTNESS, MAX_BRIGHTNESS, MIN_SPEED, MAX_SPEED in *; simpl in *; lia.
Qed.

Lemma run_mutator_store (m : Mutator) (c : LedCluster F) :
  eeprom (board (snd (run_mutator m c))) = eeprom (board c) \/
  eeprom (board (snd (run_mutator m c)))
    = set_field (field_of m) (new_value m (eeprom (board c))) (eeprom (board c)).
Proof.
  pose proof (run_mutator_refines m c) as H. unfold write_through_spec, NonVol_get in H.
  destruct (new_value m (eeprom (board c)) =? get_field (field_of m) (eeprom (board c)));
    inversion H as [[H1 H2]]; rewrite ?H2; auto.
Qed.

Lemma run_mutator_period (m : Mutator) (c : LedCluster F) :
  revTimePeriodMs c = periodOf (revsPerMinute (eeprom (board c))) ->
  revTimePeriodMs (snd (run_mutator m c))
    = periodOf (revsPerMinute (eeprom (board (snd (run_mutator m c))))).
Proof.
  intros Hp.
  destruct m; simpl;
    unfold setPattern, updatePattern, setBrightness, setBrightnessPercent,
           updateBrightness, setSpeed, setSpeedPercent, updateSpeed,
           setBrightness, setPattern, setSpeed; cbn [load_settings with_settings settings board];
    match goal with
    | |- context [if ?b then _ else _] => destruct b
    end; simpl; auto.
Qed.

Lemma run_mutator_consistent (m : Mutator) (c : LedCluster F) :
  consistent c -> consistent (snd (run_mutator m c)).
Proof.
  intros (Hr & Hs & Hp). unfold consistent.
  split; [|split; [apply run_mutator_settings | now apply run_mutator_period]].
  destruct (run_mutator_store m c) as [E|E]; rewrite E; [exact Hr|].
  now apply new_value_in_range.
Qed.

Lemma poll_consistent (now : Z) (c : LedCluster F) :
  consistent c -> consistent (poll now c).
Proof.
  intros (Hr & Hs & Hp).
  destruct (poll_framed now c) as (A & _ & B & _ & _ & E).
  unfold consistent. rewrite A, B. repeat split; try apply Hr; auto.
  destruct E; congruence.
Qed.

Lemma shutdown_consistent (c : LedCluster F) : consistent c -> consistent (shutdown c).
Proof.
  intros (Hr & Hs & Hp). unfold consistent, shutdown. simpl.
  destruct (analogWrite_fold (fun _ => 0) (leds c) (board c)) as (_ & A & _).
  cbv zeta in A. rewrite A. auto.
Qed.

Lemma startUp_consistent (now now' : Z) (c : LedCluster F) :
  consistent c -> consistent (startUp now now' c).
Proof.
  intros H. unfold startUp. destruct (negb (running c)); [|exact H].
  apply poll_consistent. exact H.
Qed.

Lemma run_call_consistent (k : Call) (c : LedCluster F) :
  consistent c -> consistent (run_call k c).
Proof.
  intros H. destruct k; simpl.
  - now apply poll_consistent.
  - now apply run_mutator_consistent.
  - now apply startUp_consistent.
  - now apply shutdown_consistent.
Qed.

Lemma run_calls_consistent (ks : list Call) (c : LedCluster F) :
  consistent c -> consistent (run_calls ks c).
Proof.
  revert c. induction ks as [|k ks IH]; intros c H; [exact H|].
  apply (IH (run_call k c)). now apply run_call_consistent.
Qed.

Lemma default_settings_in_range : settings_in_range default_settings.
Proof. unfold settings_in_range. simpl. repeat split; discriminate. Qed.

(** The constructor on a store that fails the validity test. *)
Lemma new_LedCluster_reset (pins : list Z) (n now : Z) (b : Board) :
  invalid (eeprom b) <> 0 \/ version (eeprom b) <> VERSION ->
  let c := new_LedCluster pins n now b in
  settings c = default_settings /\ eeprom (board c) = default_settings /\
  revTimePeriodMs c = periodOf DEFAULT_SPEED /\ running c = true.
Proof.
  intros H. cbv zeta. unfold new_LedCluster.
  set (c0 := populateRaindrops _).
  assert (Hb : same_io b (board c0)) by apply (populateRaindrops_io (mkCluster _ _ _ _ _ _ b)).
  destruct Hb as (He & Hp & _).
  assert (Hrun : running c0 = true)
    by apply (populateRaindrops_settings (mkCluster _ _ _ _ _ _ b)).
  assert (Hc : (negb (invalid (settings (load_settings c0)) =? 0)
                || negb (version (settings (load_settings c0)) =? VERSION)) = true).
  { simpl. unfold NonVol_get. rewrite <- He. apply orb_true_iff.
    destruct H as [H|H]; [left|right]; apply negb_true_iff, Z.eqb_neq; exact H. }
  rewrite Hc. simpl. repeat split; auto.
Qed.

Lemma new_LedCluster_consistent (pins : list Z) (n now : Z) (b : Board) :
  (invalid (eeprom b) <> 0 \/ version (eeprom b) <> VERSION) \/
  settings_in_range (eeprom b) ->
  consistent (new_LedCluster pins n now b).
Proof.
  intros [H|H].
  - destruct (new_LedCluster_reset pins n now b H) as (A & B & C & _).
    cbv zeta in *. unfold consistent. rewrite B, A, C.
    repeat split; try discriminate.
  - pose proof H as (Hv & Hi & _).
    destruct (new_LedCluster_valid pins n now b Hi Hv) as (_ & _ & A & B & C & _).
    cbv zeta in *. unfold consistent. rewrite C, B, A. auto.
Qed.

(** X1.  Whatever is in the EEPROM at power-on that the constructor either
    rejects or that is already in range, and whatever public calls follow
    (ticks, mutators, start-up, shutdown), the persisted settings stay
    valid and in range (pattern in [0,12], multiplier in [1,20], speed in
    [6,60] rpm), the in-RAM copy equals the persisted one, and the
    revolution period is the one computed from the persisted speed. *)
Theorem settings_stay_in_range (pins : list Z) (n now : Z) (b : Board) (ks : list Call) :
  (invalid (eeprom b) <> 0 \/ version (eeprom b) <> VERSION) \/
  settings_in_range (eeprom b) ->
  let c := run_calls ks (new_LedCluster pins n now b) in
  settings_in_range (eeprom (board c)) /\
  settings c = eeprom (board c) /\
  revTimePeriodMs c = periodOf (revsPerMinute (eeprom (board c))).
Proof.
  intros H. cbv zeta. apply run_calls_consistent, new_LedCluster_consistent, H.
Qed.

End Invariant.

(** ** Patterns outside the twelve, and relative pattern steps (X2 to X4) *)

Section PatternIndex.

Context {F : Type} {FA : FloatArith F}.

Lemma Patterns_of_Z_inv (z : Z) (p : Patterns) :
  Patterns_of_Z z = Some p -> z = Patterns_to_Z p.
Proof.
  intros H. destruct z as [|q|q]; [inversion H; reflexivity| |discriminate].
  do 4 (try destruct q as [q|q|]); simpl in H; try discriminate;
    inversion H; reflexivity.
Qed.

Lemma select_method_unknown (info : LightLocationInfo F) (c : LedCluster F) :
  ~ (0 <= pattern (settings c) <= 11) -> select_method info c = (None, c).
Proof.
  intros H. unfold select_method.
  destruct (Patterns_of_Z (pattern (settings c))) as [p|] eqn:E; [|reflexivity].
  apply Patterns_of_Z_inv in E.
  destruct p; try reflexivity; simpl in E; lia.
Qed.

(** X2.  With a stored pattern outside the twelve patterns ([PATTERN_COUNT],
    which [setPattern] accepts, included) a tick selects no method: it
    writes nothing to the pins, leaves the board and the LEDs as they
    were, and only records the revolution. *)
Theorem poll_unknown_pattern_is_silent (now : Z) (c : LedCluster F) :
  ~ (0 <= pattern (settings c) <= 11) ->
  poll now c =
    (if running c
     then with_lastRevolution (revolution (getCurrentLightInfo now c)) c
     else c) /\
  board (poll now c) = board c /\
  leds (poll now c) = leds c.
Proof.
  intros H. unfold poll. destruct (running c); [|auto].
  rewrite (select_method_unknown _ c H). auto.
Qed.

Lemma updatePattern_stored (delta : Z) (c : LedCluster F) :
  0 <= pattern (eeprom (board c)) <= 12 -> -12 <= delta <= 12 ->
  pattern (eeprom (board (snd (updatePattern delta c))))
    = (pattern (eeprom (board c)) + delta) mod 12 /\
  pattern (settings (snd (updatePattern delta c)))
    = (pattern (eeprom (board c)) + delta) mod 12 /\
  fst (updatePattern delta c)
    = negb (pattern (eeprom (board c)) =? (pattern (eeprom (board c)) + delta) mod 12).
Proof.
  intros Hp Hd. unfold updatePattern.
  cbn [load_settings with_settings settings board NonVol_get].
  set (p := pattern (eeprom (board c))) in *.
  change (Patterns_to_Z PATTERN_COUNT) with 12.
  assert (Hr : Z.rem (int16 (int16 (p + 12) + delta)) 12 = (p + delta) mod 12).
  { rewrite (int16_small (p + 12)) by lia. rewrite int16_small by lia.
    rewrite Z.rem_mod_nonneg by lia.
    replace (p + 12 + delta) with (p + delta + 1 * 12) by lia.
    apply Z.mod_add. lia. }
  unfold NonVol_get. fold p. rewrite Hr.
  pose proof (Z.mod_pos_bound (p + delta) 12 ltac:(lia)) as Hm.
  generalize dependent ((p + delta) mod 12). intros v _ Hv.
  unfold setPattern. cbn [load_settings with_settings settings board].
  unfold NonVol_get. cbn [load_settings with_settings settings board].
  fold p. change (Patterns_to_Z PATTERN_COUNT) with 12.
  assert (Hf : forceRange v 0 12 = v).
  { rewrite forceRange_spec by lia. lia. }
  rewrite Hf. destruct (Z.eqb_spec p v) as [E|E]; simpl; auto.
Qed.

(** X3.  [updatePattern(delta)] for a step of at most twelve moves the
    stored pattern to [(pattern + delta) mod 12]: it wraps in both
    directions and never stores [PATTERN_COUNT].  It reports a change
    exactly when the step is not a multiple of twelve, and always when it
    leaves a stored [PATTERN_COUNT]. *)
Theorem updatePattern_wraps (delta : Z) (c : LedCluster F) :
  0 <= pattern (eeprom (board c)) <= 12 -> -12 <= delta <= 12 ->
  let p := pattern (eeprom (board c)) in
  let c' := snd (updatePattern delta c) in
  pattern (eeprom (board c')) = (p + delta) mod 12 /\
  pattern (settings c') = (p + delta) mod 12 /\
  0 <= pattern (eeprom (board c')) <= 11 /\
  (p <= 11 -> fst (updatePattern delta c) = negb (delta mod 12 =? 0)) /\
  (p = 12 -> fst (updatePattern delta c) = true).
Proof.
  intros Hp Hd. cbv zeta.
  destruct (updatePattern_stored delta c Hp Hd) as (A & B & C).
  pose proof (Z.mod_pos_bound (pattern (eeprom (board c)) + delta) 12 ltac:(lia)) as Hm.
  rewrite A, B, C. repeat split; try lia.
  - intros Hle. f_equal.
    pose proof (Z.div_mod (pattern (eeprom (board c)) + delta) 12 ltac:(lia)) as D1.
    pose proof (Z.div_mod delta 12 ltac:(lia)) as D2.
    pose proof (Z.mod_pos_bound delta 12 ltac:(lia)) as Hm2.
    destruct (Z.eqb_spec (pattern (eeprom (board c)))
                         ((pattern (eeprom (board c)) + delta) mod 12)) as [E1|E1];
      destruct (Z.eqb_spec (delta mod 12) 0) as [E2|E2]; try reflexivity; exfalso; lia.
Qed.

Lemma run_calls_cons (k : Call) (ks : list Call) (c : LedCluster F) :
  run_calls (k :: ks) c = run_calls ks (run_call k c).
Proof. reflexivity. Qed.

Lemma updatePattern_iter (delta : Z) (n : nat) (c : LedCluster F) :
  0 <= pattern (eeprom (board c)) <= 12 -> -12 <= delta <= 12 ->
  pattern (eeprom (board (run_calls (repeat (CMutate (UpdatePattern delta)) n) c)))
    = (if Nat.eqb n 0 then pattern (eeprom (board c))
       else (pattern (eeprom (board c)) + Z.of_nat n * delta) mod 12).
Proof.
  intros Hp Hd. revert c Hp. induction n as [|n IH]; intros c Hp; [reflexivity|].
  cbn [repeat Nat.eqb]. rewrite run_calls_cons.
  change (run_call (CMutate (UpdatePattern delta)) c) with (snd (updatePattern delta c)).
  destruct (updatePattern_stored delta c Hp Hd) as (A & _ & _).
  pose proof (Z.mod_pos_bound (pattern (eeprom (board c)) + delta) 12 ltac:(lia)) as Hm.
  rewrite IH by (rewrite A; lia). rewrite A.
  destruct n as [|n]; [cbn [Nat.eqb]; f_equal; lia|]. cbn [Nat.eqb].
  rewrite Zplus_mod_idemp_l. f_equal. lia.
Qed.

(** X4.  Twelve presses of the same button (steps of +1 or of -1) bring the
    pattern back to where it was, and no smaller number of presses does:
    the buttons reach every pattern. *)
Theorem updatePattern_full_cycle (delta : Z) (c : LedCluster F) :
  0 <= pattern (eeprom (board c)) <= 11 -> delta = 1 \/ delta = -1 ->
  pattern (eeprom (board (run_calls (repeat (CMutate (UpdatePattern delta)) 12) c)))
    = pattern (eeprom (board c)) /\
  forall n, (0 < n < 12)%nat ->
    pattern (eeprom (board (run_calls (repeat (CMutate (UpdatePattern delta)) n) c)))
      <> pattern (eeprom (board c)).
Proof.
  intros Hp Hd. split.
  - rewrite updatePattern_iter by lia. simpl Nat.eqb. cbv iota.
    destruct Hd as [-> | ->].
    + replace (pattern (eeprom (board c)) + Z.of_nat 12 * 1)
        with (pattern (eeprom (board c)) + 1 * 12) by lia.
      rewrite Z.mod_add by lia. apply Z.mod_small. lia.
    + replace (pattern (eeprom (board c)) + Z.of_nat 12 * -1)
        with (pattern (eeprom (board c)) + (-1) * 12) by lia.
      rewrite Z.mod_add by lia. apply Z.mod_small. lia.
  - intros n Hn. rewrite updatePattern_iter by lia.
    destruct (Nat.eqb_spec n 0) as [E|E]; [lia|].
    intros Heq.
    set (p := pattern (eeprom (board c))) in *.
    pose proof (Z.div_mod (p + Z.of_nat n * delta) 12 ltac:(lia)) as Hdm.
    rewrite Heq in Hdm.
    destruct Hd as [-> | ->]; lia.
Qed.

End PatternIndex.

(** ** Duty cycles, waves, flames, raindrops and start-up (X5 to X9) *)

Lemma duty_steps_checked : forallb duty_step_ok (Zrange 0 100) = true.
Proof. vm_compute. reflexivity. Qed.

Lemma duty_table_increasing (i j : Z) :
  0 <= i -> i < j -> j <= 100 ->
  nth (Z.to_nat i) BRIGHTNESS_TO_DUTY_CYCLE 0 < nth (Z.to_nat j) BRIGHTNESS_TO_DUTY_CYCLE 0.
Proof.
  intros Hi Hij. assert (Hij' : i + 1 <= j) by lia. clear Hij. revert j Hij'.
  apply (Zlt_lower_bound_ind
           (fun j => j <= 100 ->
                     nth (Z.to_nat i) BRIGHTNESS_TO_DUTY_CYCLE 0
                     < nth (Z.to_nat j) BRIGHTNESS_TO_DUTY_CYCLE 0) (i + 1)).
  intros j IH Hj Hle.
  pose proof (forallb_Zrange _ 0 100 duty_steps_checked (j - 1) ltac:(lia)) as Hs.
  unfold duty_step_ok in Hs. apply Z.ltb_lt in Hs.
  replace (j - 1 + 1) with j in Hs by lia.
  destruct (Z.eq_dec j (i + 1)) as [->|Hne].
  - replace (i + 1 - 1) with i in Hs by lia. exact Hs.
  - specialize (IH (j - 1) ltac:(lia) ltac:(lia)). lia.
Qed.

(** X5.  The duty cycle never decreases with the brightness, increases
    strictly between any two brightnesses of [0,100], and is 255 from
    brightness 100 on. *)
Theorem brightnessToDutyCycle_monotone (b1 b2 : Z) :
  b1 <= b2 ->
  brightnessToDutyCycle b1 <= brightnessToDutyCycle b2 /\
  (0 <= b1 -> b1 < b2 -> b2 <= 100 -> brightnessToDutyCycle b1 < brightnessToDutyCycle b2) /\
  (100 <= b2 -> brightnessToDutyCycle b2 = 255).
Proof.
  intros H. unfold brightnessToDutyCycle, dutyCycleIndex.
  pose proof (forceRange_spec b1 0 100 ltac:(lia)) as E1.
  pose proof (forceRange_spec b2 0 100 ltac:(lia)) as E2.
  rewrite E1, E2. repeat split.
  - destruct (Z.eq_dec (Z.min (Z.max b1 0) 100) (Z.min (Z.max b2 0) 100)) as [E|E].
    + rewrite E. lia.
    + apply Z.lt_le_incl, duty_table_increasing; lia.
  - intros H0 Hlt Hle. apply duty_table_increasing; lia.
  - intros Hge. replace (Z.min (Z.max b2 0) 100) with 100 by lia. reflexivity.
Qed.

Lemma wave_folds_checked : forallb wave_folds_agree (Zrange (-180) 540) = true.
Proof. vm_compute. reflexivity. Qed.

Section Generic.

Context {F : Type} {FA : FloatArith F}.

(** X6.  The two wave patterns compute the same raw brightness for an LED
    whenever the integer angle between the lead point and the LED is at
    least -180: there the anti-clockwise wave is the clockwise one. *)
Theorem wave_patterns_coincide (led : LedInfo F) (info : LightLocationInfo F) :
  -180 <= waveAngle led info < 360 ->
  waveAcwRaw led info = waveCwRaw led info.
Proof.
  intros H. unfold waveAcwRaw, waveCwRaw. cbv zeta. f_equal.
  pose proof (forallb_Zrange _ (-180) 540 wave_folds_checked (waveAngle led info)
                ltac:(lia)) as Hc.
  unfold wave_folds_agree in Hc. apply Z.eqb_eq in Hc. symmetry. exact Hc.
Qed.

Lemma random2_range (lo hi : Z) (b : Board) :
  lo < hi -> -1000 <= lo -> hi <= 1000 -> 0 <= rand_src b (rand_pos b) ->
  lo <= fst (random2 lo hi b) < hi /\
  rand_pos (snd (random2 lo hi b)) = S (rand_pos b) /\
  rand_src (snd (random2 lo hi b)) = rand_src b.
Proof.
  intros Hlt Hlo Hhi Hr. unfold random2.
  replace (lo >=? hi) with false by lia.
  rewrite int32_small by lia. unfold random1.
  replace (hi - lo =? 0) with false by lia.
  unfold random_raw. cbn [fst snd rand_pos rand_src].
  pose proof (Z.rem_bound_pos (rand_src b (rand_pos b)) (hi - lo) Hr ltac:(lia)) as Hb.
  rewrite int32_small by lia. repeat split; lia.
Qed.

(** X7.  The flame level of the candle pattern is a bounded random walk:
    with [random()] non-negative, one step moves a level of [0,100] by -4
    to +3 and clamps it to [0,100], and uses one random draw. *)
Theorem candleStep_is_bounded_walk (led : LedInfo F) (b : Board) :
  0 <= rand_src b (rand_pos b) ->
  -30000 <= extra led <= 30000 ->
  let e' := extra (fst (candleStep led b)) in
  0 <= e' <= 100 /\
  (0 <= extra led <= 100 -> extra led - 4 <= e' <= extra led + 3) /\
  (100 < extra led -> 96 <= e') /\
  rand_pos (snd (candleStep led b)) = S (rand_pos b).
Proof.
  intros Hr He. cbv zeta. unfold candleStep.
  destruct (random2_range (-4) 4 b ltac:(lia) ltac:(lia) ltac:(lia) Hr) as (Hd & Hp & _).
  destruct (random2 (-4) 4 b) as [d b']. cbn [fst snd] in *.
  cbn [extra set_extra]. rewrite (int32_small (extra led + d)) by lia.
  rewrite int16_small by lia.
  rewrite forceRange_spec by lia. repeat split; lia.
Qed.

Lemma populate_offsets (ls : list (LedInfo F)) (b : Board) :
  (forall n, 0 <= rand_src b n) ->
  Forall (fun led => 0 <= extra led <= 347) (fst (populate ls b)) /\
  rand_pos (snd (populate ls b)) = (rand_pos b + length ls)%nat /\
  rand_src (snd (populate ls b)) = rand_src b.
Proof.
  revert b. induction ls as [|led rest IH]; intros b Hr; cbn [populate].
  - cbn. repeat split; auto.
  - pose proof (Z.rem_bound_pos (rand_src b (rand_pos b)) 348 (Hr _) ltac:(lia)) as Hb.
    assert (E : random1 (360 - RAINDROP_ANGLE) b =
                (Z.rem (rand_src b (rand_pos b)) 348,
                 mkBoard (eeprom b) (eeprom_puts b) (pwm_log b) (rand_src b)
                         (S (rand_pos b)))) by reflexivity.
    rewrite E. clear E.
    set (b1 := mkBoard _ _ _ _ _).
    destruct (IH b1) as (A & B & C); [intros n; apply Hr|].
    destruct (populate rest b1) as [rest' b2]. cbn [fst snd] in *.
    repeat split.
    + constructor; [|exact A]. cbn [extra set_extra].
      rewrite int16_small by lia. lia.
    + rewrite B. cbn. lia.
    + rewrite C. reflexivity.
Qed.

(** X8.  [populateRaindrops] gives every LED an offset at which a whole
    raindrop fits into the revolution ([0 <= extra] and
    [extra + RAINDROP_ANGLE < 360]), keeps pins and angles, and uses one
    random draw per LED ([random()] being non-negative). *)
Theorem populateRaindrops_offsets (c : LedCluster F) :
  (forall n, 0 <= rand_src (board c) n) ->
  let c' := populateRaindrops c in
  Forall (fun led => 0 <= extra led /\ extra led + RAINDROP_ANGLE < 360) (leds c') /\
  map pin (leds c') = map pin (leds c) /\
  map angle (leds c') = map angle (leds c) /\
  rand_pos (board c') = (rand_pos (board c) + length (leds c))%nat.
Proof.
  intros Hr. cbv zeta. unfold populateRaindrops.
  destruct (populate_offsets (leds c) (board c) Hr) as (A & B & _).
  pose proof (populate_pins (leds c) (board c)) as P.
  pose proof (populate_angles (leds c) (board c)) as Q.
  destruct (populate (leds c) (board c)) as [ls b]. cbn [fst snd] in *.
  cbn [leds with_leds with_board board]. repeat split; auto.
  eapply Forall_impl; [|exact A]. cbv beta. intros led H.
  unfold RAINDROP_ANGLE. lia.
Qed.



End Generic.

(** ** binary32: scaling, period, chase and raindrop (X10 to X14) *)

Section Binary32More.

Variables cosf sinf : spec_float -> spec_float.

Local Abbreviation B := (binary32 cosf sinf).

Local Hint Extern 0 (FloatArith spec_float) =>
  exact (binary32 cosf sinf) : typeclass_instances.

Lemma scale_bounded_checked :
  forallb (scale_bounded_at (FA := B)) (Zrange (-100) 201) = true.
Proof. vm_compute. reflexivity. Qed.

Lemma scale_full_checked : forallb (scale_full_at (FA := B)) (Zrange 1 20) = true.
Proof. vm_compute. reflexivity. Qed.

Lemma chase_steps_checked : forallb (chase_step_ok (FA := B)) (Zrange (-359) 718) = true.
Proof. vm_compute. reflexivity. Qed.

Lemma period_checked : forallb (period_ok (FA := B)) (Zrange 6 55) = true.
Proof. vm_compute. reflexivity. Qed.

Lemma raindrop_shape_checked : forallb (raindrop_shape_at (FA := B)) (Zrange 0 12) = true.
Proof. vm_compute. reflexivity. Qed.

Lemma scale_bounded (m raw : Z) :
  1 <= m <= 20 -> -100 <= raw <= 100 ->
  (0 <= raw -> 0 <= scaleBrightness (FA := B) m raw <= raw) /\
  (raw <= 0 -> raw <= scaleBrightness (FA := B) m raw <= 0).
Proof.
  intros Hm Hr.
  pose proof (forallb_Zrange _ (-100) 201 scale_bounded_checked raw ltac:(lia)) as H.
  unfold scale_bounded_at in H.
  pose proof (forallb_Zrange _ 1 20 H m ltac:(lia)) as H'. cbv beta zeta in H'.
  destruct (Z.leb_spec 0 raw); apply andb_true_iff in H'; destruct H' as [A C];
    apply Z.leb_le in A, C; split; intros; lia.
Qed.

(** X10.  Global scaling only dims: for a raw value in [-100,100] and a
    persisted multiplier in [1,20] the result lies between 0 and the raw
    value, a negative raw value ends as duty cycle 0, and full brightness
    100 becomes five times the multiplier.  (binary32 arithmetic.) *)
Theorem globaliseBrightness_only_dims (raw : Z) (c : LedCluster spec_float) :
  -100 <= raw <= 100 ->
  MIN_BRIGHTNESS <= brightnessMultiplier (eeprom (board c)) <= MAX_BRIGHTNESS ->
  let v := fst (globaliseBrightness (FA := B) raw c) in
  (0 <= raw -> 0 <= v <= raw) /\
  (raw <= 0 -> raw <= v <= 0 /\ brightnessToDutyCycle v = 0) /\
  (raw = 100 -> v = 5 * brightnessMultiplier (eeprom (board c))).
Proof.
  intros Hr Hm. cbv zeta. unfold globaliseBrightness, load_settings. cbn [fst settings with_settings].
  unfold NonVol_get. unfold MIN_BRIGHTNESS, MAX_BRIGHTNESS in Hm.
  destruct (scale_bounded _ raw Hm Hr) as [A C].
  split; [exact A|]. split.
  - intros Hn. specialize (C Hn). split; [exact C|].
    unfold brightnessToDutyCycle, dutyCycleIndex.
    rewrite forceRange_spec by lia.
    replace (Z.min (Z.max _ 0) 100) with 0 by lia. reflexivity.
  - intros ->.
    pose proof (forallb_Zrange _ 1 20 scale_full_checked
                  (brightnessMultiplier (eeprom (board c))) ltac:(lia)) as H.
    unfold scale_full_at in H. now apply Z.eqb_eq in H.
Qed.

Lemma periodOf_b32 (rpm : Z) :
  MIN_SPEED <= rpm <= MAX_SPEED -> periodOf (FA := B) rpm = 60000 / rpm.
Proof.
  unfold MIN_SPEED, MAX_SPEED. intros H.
  pose proof (forallb_Zrange _ 6 55 period_checked rpm ltac:(lia)) as Hc.
  unfold period_ok in Hc. now apply Z.eqb_eq in Hc.
Qed.

(** X11.  After construction and any public calls the revolution period is
    [60000 / revsPerMinute] milliseconds and lies in [1000, 10000]: the
    cycle clock never divides by zero.  (binary32 arithmetic.) *)
Theorem cycle_period_stays_positive (pins : list Z) (n now : Z) (b : Board) (ks : list Call) :
  (invalid (eeprom b) <> 0 \/ version (eeprom b) <> VERSION) \/ settings_in_range (eeprom b) ->
  let c := run_calls (FA := B) ks (new_LedCluster (FA := B) pins n now b) in
  revTimePeriodMs c = 60000 / revsPerMinute (eeprom (board c)) /\
  1000 <= revTimePeriodMs c <= 10000.
Proof.
  intros H. cbv zeta.
  pose proof (run_calls_consistent (FA := B) ks _
                (new_LedCluster_consistent (FA := B) pins n now b H)) as (R & _ & P).
  destruct R as (_ & _ & _ & _ & Hs).
  rewrite P, (periodOf_b32 _ Hs). split; [reflexivity|].
  unfold MIN_SPEED, MAX_SPEED in Hs.
  split.
  - apply Z.div_le_lower_bound; lia.
  - apply Z.div_le_upper_bound; lia.
Qed.

Lemma chaseBrightness_antitone (a1 a2 : Z) :
  -359 <= a1 -> a1 <= a2 -> a2 <= 359 ->
  chaseBrightness (FA := B) a2 <= chaseBrightness (FA := B) a1.
Proof.
  intros H1 H12. revert a2 H12.
  apply (Zlt_lower_bound_ind
           (fun a2 => a2 <= 359 ->
                      chaseBrightness (FA := B) a2 <= chaseBrightness (FA := B) a1)).
  intros a2 IH Hle H2.
  destruct (Z.eq_dec a1 a2) as [->|Hne]; [lia|].
  specialize (IH (a2 - 1) ltac:(lia) ltac:(lia)).
  pose proof (forallb_Zrange _ (-359) 718 chase_steps_checked (a2 - 1) ltac:(lia)) as Hs.
  unfold chase_step_ok in Hs. apply Z.leb_le in Hs.
  replace (a2 - 1 + 1) with a2 in Hs by lia. lia.
Qed.

(** X12.  For every LED and lead point the raw brightness of ChaseBoth is
    the larger of those of ChaseClockwise and ChaseAntiClockwise.
    (binary32 arithmetic.) *)
Theorem chaseBoth_is_brighter_of_two (led : LedInfo spec_float)
        (info : LightLocationInfo spec_float) :
  chaseBothRaw (FA := B) led info
  = Z.max (chaseCwRaw (FA := B) led info) (chaseAcwRaw (FA := B) led info).
Proof.
  unfold chaseBothRaw, chaseCwRaw, chaseAcwRaw, minZ.
  set (cw := chaseAngleCw led info). set (acw := chaseAngleAcw led info).
  assert (Hcw : -359 <= cw <= 359).
  { unfold cw, chaseAngleCw.
    match goal with |- context [Z.rem ?x 360] =>
      pose proof (Z.rem_bound_abs x 360 ltac:(lia)) end. lia. }
  assert (Hacw : -359 <= acw <= 359).
  { unfold acw, chaseAngleAcw.
    match goal with |- context [Z.rem ?x 360] =>
      pose proof (Z.rem_bound_abs x 360 ltac:(lia)) end. lia. }
  destruct (Z.ltb_spec cw acw) as [L|L].
  - pose proof (chaseBrightness_antitone cw acw ltac:(lia) ltac:(lia) ltac:(lia)). lia.
  - pose proof (chaseBrightness_antitone acw cw ltac:(lia) ltac:(lia) ltac:(lia)). lia.
Qed.

(** X13.  The raindrop lights an LED exactly at the positions 0 to 11 of
    its drop; there the raw value is 0 at position 0, rises strictly to
    100 at position 3 and then falls strictly.  (binary32 arithmetic.) *)
Theorem raindrop_profile (p : Z) :
  (raindropRaw (FA := B) p = None <-> ~ (0 <= p < RAINDROP_ANGLE)) /\
  raindropRaw (FA := B) 0 = Some 0 /\
  raindropRaw (FA := B) RAMPUP_ANGLE = Some 100 /\
  (forall r r', raindropRaw (FA := B) p = Some r -> raindropRaw (FA := B) (p + 1) = Some r' ->
                if p <? RAMPUP_ANGLE then r < r' else r' < r).
Proof.
  split; [|split; [|split]].
  - unfold raindropRaw, RAINDROP_ANGLE, RAMPUP_ANGLE.
    destruct (Z.geb_spec p 0), (Z.ltb_spec p 3), (Z.ltb_spec p 12), (Z.geb_spec p 3);
      cbn [andb]; split; intros ?; try discriminate; try reflexivity; try lia; exfalso; lia.
  - vm_compute. reflexivity.
  - vm_compute. reflexivity.
  - intros r r' H1 H2.
    assert (Hp : 0 <= p < 12).
    { unfold raindropRaw, RAINDROP_ANGLE, RAMPUP_ANGLE in H1.
      destruct (Z.geb_spec p 0), (Z.ltb_spec p 3), (Z.ltb_spec p 12), (Z.geb_spec p 3);
            cbn [andb] in H1; try discriminate; lia. }
    pose proof (forallb_Zrange _ 0 12 raindrop_shape_checked p ltac:(lia)) as Hc.
    unfold raindrop_shape_at in Hc. rewrite H1, H2 in Hc.
    unfold RAMPUP_ANGLE. destruct (p <? 3); now apply Z.ltb_lt in Hc.
Qed.

(** X14.  After [setBrightnessPercent(percent)] with a percentage of
    [0,100], a tick under JustOn gives every LED the brightness
    [5 * max 1 (percent / 5)], the stored multiplier being
    [max 1 (percent / 5)].  (binary32 arithmetic.) *)
Theorem justOn_shows_brightness_setting (percent now : Z) (c : LedCluster spec_float) :
  running c = true ->
  pattern (eeprom (board c)) = Patterns_to_Z JustOn ->
  0 <= percent <= 100 ->
  let c' := poll (FA := B) now (snd (setBrightnessPercent percent c)) in
  map brightness (leds c') = map (fun _ => 5 * Z.max 1 (percent / 5)) (leds c) /\
  map pin (leds c') = map pin (leds c) /\
  brightnessMultiplier (eeprom (board c')) = Z.max 1 (percent / 5).
Proof.
  intros Hr Hp Hpc. cbv zeta.
  change (setBrightnessPercent percent c) with (run_mutator (SetBrightnessPercent percent) c).
  set (c1 := snd (run_mutator (SetBrightnessPercent percent) c)).
  pose proof (run_mutator_settings (SetBrightnessPercent percent) c) as Hs. fold c1 in Hs.
  destruct (run_mutator_keeps (SetBrightnessPercent percent) c) as (Hk1 & _ & Hk3).
  fold c1 in Hk1, Hk3.
  assert (Hnv : new_value (SetBrightnessPercent percent) (eeprom (board c))
                = Z.max 1 (percent / 5)).
  { unfold new_value. cbn [field_of requested]. unfold MAX_BRIGHTNESS, MIN_BRIGHTNESS.
    rewrite int16_small by lia.
    rewrite Z.quot_div_nonneg by lia.
    assert (percent * 20 / 100 = percent / 5).
    { replace 100 with (20 * 5) by lia. rewrite Z.mul_comm.
      rewrite Z.div_mul_cancel_l by lia. reflexivity. }
    rewrite H. pose proof (Z.div_le_upper_bound percent 5 20 ltac:(lia) ltac:(lia)).
    pose proof (Z.div_pos percent 5 ltac:(lia) ltac:(lia)).
    rewrite forceRange_spec by lia. lia. }
  assert (He : brightnessMultiplier (eeprom (board c1)) = Z.max 1 (percent / 5) /\
               pattern (eeprom (board c1)) = 0).
  { pose proof (run_mutator_refines (SetBrightnessPercent percent) c) as H.
    unfold write_through_spec, NonVol_get in H. rewrite Hnv in H.
    cbn [field_of get_field set_field] in H. fold c1 in H.
    destruct (Z.eqb_spec (Z.max 1 (percent / 5)) (brightnessMultiplier (eeprom (board c))));
      inversion H as [[H1 H2]]; rewrite H2.
    - split; [congruence|exact Hp].
    - unfold NonVol_put. cbn. destruct (eeprom (board c)); cbn in *. split; [reflexivity|exact Hp]. }
  destruct He as [Hb Hpat].
  assert (Hpz : Patterns_of_Z (pattern (settings c1)) = Some JustOn).
  { rewrite Hs, Hpat. reflexivity. }
  pose proof (poll_stateless now c1 JustOn (fun _ _ => justOnRaw)
                (eq_trans Hk1 Hr) Hpz eq_refl) as Hl.
  assert (Hscale : scaleBrightness (FA := B) (Z.max 1 (percent / 5)) (int16 justOnRaw)
                   = 5 * Z.max 1 (percent / 5)).
  { pose proof (Z.div_le_upper_bound percent 5 20 ltac:(lia) ltac:(lia)).
    pose proof (forallb_Zrange _ 1 20 scale_full_checked (Z.max 1 (percent / 5))
                  ltac:(lia)) as H1.
    unfold scale_full_at in H1. apply Z.eqb_eq in H1. exact H1. }
  split; [|split].
  - rewrite Hl, Hb, Hscale, Hk3. rewrite map_map. apply map_ext. reflexivity.
  - rewrite Hl, Hk3, map_map. apply map_ext. reflexivity.
  - destruct (poll_framed now c1) as (He & _). rewrite He. exact Hb.
Qed.

End Binary32More.

(** ** InputHelper (X15) *)

Lemma InputHelper_poll_bounce (now a b : Z) (h : InputHelper) :
  a <> b -> InputHelper_poll now a b h = (None, h).
Proof.
  intros H. unfold InputHelper_poll. destruct (Z.eqb_spec a b); [contradiction|reflexivity].
Qed.

Lemma InputHelper_poll_step (now a b : Z) (h : InputHelper) :
  toggle_callback h = true -> timeout_callback h = true ->
  let h1 := snd (InputHelper_poll now a b h) in
  toggle_callback h1 = true /\ timeout_callback h1 = true /\
  input_pin h1 = input_pin h /\ timeout_duration_ms h1 = timeout_duration_ms h /\
  match fst (InputHelper_poll now a b h) with
  | None => h1 = h
  | Some (Toggle p st d) =>
      a = b /\ st = a /\ st <> lastState h /\ p = input_pin h /\
      d = int32 (int32 now - lastChangeMs h) /\
      lastState h1 = st /\ lastChangeMs h1 = int32 now /\
      trigger_timeout h1 = (if st =? 0 then trigger_timeout h else true)
  | Some (Timeout p d) =>
      a = b /\ a = lastState h /\ lastState h <> 0 /\ trigger_timeout h = true /\
      p = input_pin h /\ d = int32 (int32 now - lastChangeMs h) /\
      timeout_duration_ms h <= d /\
      lastState h1 = lastState h /\ lastChangeMs h1 = lastChangeMs h /\
      trigger_timeout h1 = false
  end.
Proof.
  intros Ht Hto. unfold InputHelper_poll, signalToggleCallback, signalTimeoutCallback.
  cbv zeta. rewrite Ht, Hto.
  destruct (Z.eqb_spec a b) as [<-|Hab]; [|cbn; auto].
  destruct (Z.eqb_spec a (lastState h)) as [E|E]; cbn [negb].
  - destruct (trigger_timeout h) eqn:Htr; cbn [andb]; [|cbn; auto].
    destruct (Z.eqb_spec (lastState h) 0) as [E0|E0]; cbn [negb andb]; [cbn; auto|].
    destruct (Z.geb_spec (int32 (int32 now - lastChangeMs h)) (timeout_duration_ms h));
      cbn; repeat split; auto; lia.
  - cbn. repeat split; auto. destruct (a =? 0); reflexivity.
Qed.

(** X15.  Over any run of polls of an [InputHelper] with both callbacks:
    the time-out callback is made at most once per press (between two of
    its calls the toggle callback reported a press) and only while the
    input is on, and every toggle callback reports a state other than the
    one before it. *)
Theorem timeout_once_per_press (reads : list (Z * Z * Z)) (h : InputHelper) :
  toggle_callback h = true -> timeout_callback h = true ->
  timeouts_spaced (trigger_timeout h) (fst (InputHelper_polls reads h)) = true /\
  toggles_alternate (lastState h) (fst (InputHelper_polls reads h)) = true.
Proof.
  revert h. induction reads as [|[[now a] b] rest IH]; intros h Ht Hto; cbn [InputHelper_polls].
  - cbn. auto.
  - pose proof (InputHelper_poll_step now a b h Ht Hto) as Hs. cbv zeta in Hs.
    destruct (InputHelper_poll now a b h) as [e h1]. cbn [fst snd] in Hs.
    destruct Hs as (Ht1 & Hto1 & _ & _ & He).
    specialize (IH h1 Ht1 Hto1). destruct (InputHelper_polls rest h1) as [es h2].
    cbn [fst] in *. destruct IH as [A B].
    destruct e as [[p st d|p d]|].
    + destruct He as (_ & _ & Hne & _ & _ & Hl & _ & Htr).
      cbn [timeouts_spaced toggles_alternate]. rewrite Hl in B. rewrite Htr in A.
      rewrite A, B. destruct (Z.eqb_spec st (lastState h)); [contradiction|auto].
    + destruct He as (_ & _ & Hne & Htr & _ & _ & _ & Hl & _ & Htr1).
      cbn [timeouts_spaced toggles_alternate]. rewrite Hl in B. rewrite Htr1 in A.
      rewrite A, B, Htr. destruct (Z.eqb_spec (lastState h) 0); [contradiction|auto].
    + subst h1. auto.
Qed.

(** ** The sketch: its invariant (X16 to X19) *)

Section SketchInv.

Context {F : Type} {FA : FloatArith F}.

Lemma setMode_spec (m : SettingModes) (s : Sketch F) :
  cluster (setMode m s) = cluster s /\
  mode (setMode m s) = m /\
  digital_log (env (setMode m s)) =
    digital_log (env s) ++
    [(ModeLED, if SettingModes_eqb Pattern m then HIGH else LOW);
     (BrightnessLED, if SettingModes_eqb Brightness m then HIGH else LOW);
     (SpeedLED, if SettingModes_eqb Speed m then HIGH else LOW)].
Proof.
  unfold setMode, millis, env_millis, OutputHelper_assign, env_digitalWrite. cbn.
  repeat split. rewrite <- !app_assoc. cbn.
  destruct m; reflexivity.
Qed.

End SketchInv.

Section SketchInv2.

Context {F : Type} {FA : FloatArith F}.

Lemma method_pin (info : LightLocationInfo F) (c : LedCluster F) (m : PatternMethod) :
  fst (select_method info c) = Some m ->
  forall led i c0, pin (fst (m led i c0)) = pin led.
Proof.
  intros Hm. unfold select_method in Hm.
  destruct (Patterns_of_Z (pattern (settings c))) as [[]|]; simpl in Hm;
    inversion Hm; subst; intros led i c0; try reflexivity; try apply light_pin.
  unfold raindropMode. destruct (raindropRaw (raindropPosition led i)); reflexivity.
Qed.

Lemma run_leds_pins (m : PatternMethod) (info : LightLocationInfo F) :
  (forall led i c0, pin (fst (m led i c0)) = pin led) ->
  forall ls c0, map pin (fst (run_leds m info ls c0)) = map pin ls.
Proof.
  intros Hpin. induction ls as [|led rest IH]; intros c0; [reflexivity|].
  cbn [run_leds]. pose proof (Hpin led info c0) as Hl.
  destruct (m led info c0) as [led' c']. cbn [fst] in Hl.
  specialize (IH c'). destruct (run_leds m info rest c') as [rest' c''].
  cbn [fst map] in *. now rewrite Hl, IH.
Qed.

Lemma select_method_pins (info : LightLocationInfo F) (c : LedCluster F) :
  map pin (leds (snd (select_method info c))) = map pin (leds c).
Proof.
  unfold select_method.
  destruct (Patterns_of_Z (pattern (settings c))) as [[]|]; try reflexivity.
  cbn [snd]. destruct (negb _); [|reflexivity].
  unfold populateRaindrops.
  pose proof (populate_pins (leds c) (board c)) as P.
  destruct (populate (leds c) (board c)) as [ls b]. exact P.
Qed.

Lemma poll_pins (now : Z) (c : LedCluster F) :
  map pin (leds (poll now c)) = map pin (leds c).
Proof.
  unfold poll. destruct (running c); [|reflexivity].
  set (info := getCurrentLightInfo now c).
  pose proof (select_method_pins info c) as Hs.
  pose proof (method_pin info c) as Hm.
  destruct (select_method info c) as [[m|] c1]; cbn [fst snd] in *.
  - cbn [leds with_lastRevolution]. unfold updateLedBrightnesses, for_each_led.
    pose proof (run_leds_pins m info (Hm m eq_refl) (leds c1) c1) as Hr.
    destruct (run_leds m info (leds c1) c1) as [ls c']. cbn [fst] in Hr.
    cbn. congruence.
  - exact Hs.
Qed.

Lemma power_awake (m m' : SettingModes) (c : LedCluster F) :
  m <> Sleep -> m' <> Sleep -> power_ok m c -> power_ok m' c.
Proof.
  intros Hm Hm' (A & B & _). split; [|split; [exact B|]].
  - rewrite A. destruct m, m'; try reflexivity; contradiction.
  - intros ->. contradiction.
Qed.

Lemma power_mutator (m : SettingModes) (mu : Mutator) (c : LedCluster F) :
  power_ok m c -> power_ok m (snd (run_mutator mu c)).
Proof.
  intros (A & B & C). destruct (run_mutator_keeps mu c) as (Hr & Hl & Hls).
  split; [congruence|]. split; [congruence|]. intros Hm. rewrite Hl. auto.
Qed.

Lemma power_poll (m : SettingModes) (now : Z) (c : LedCluster F) :
  power_ok m c -> power_ok m (poll now c).
Proof.
  intros (A & B & C). destruct (running c) eqn:Hr.
  - destruct (poll_framed now c) as (_ & _ & _ & Hr' & _).
    split; [congruence|]. split.
    + rewrite poll_pins. exact B.
    + intros ->. discriminate A.
  - rewrite poll_stopped by exact Hr. split; [congruence|split; [exact B|exact C]].
Qed.

Lemma power_startUp (m : SettingModes) (now now' : Z) (c : LedCluster F) :
  power_ok m c -> power_ok Running (startUp now now' c).
Proof.
  intros (A & B & C). unfold startUp. destruct (running c) eqn:Hr; cbn [negb].
  - split; [exact Hr|]. split; [exact B|discriminate].
  - set (c0 := with_running true (with_startTimeMs (int32 now) c)).
    destruct (poll_framed now' c0) as (_ & _ & _ & Hr' & _).
    split; [exact Hr'|]. split; [|discriminate].
    rewrite poll_pins. exact B.
Qed.

Lemma power_shutdown (m : SettingModes) (c : LedCluster F) :
  power_ok m c -> power_ok Sleep (shutdown c).
Proof.
  intros (_ & B & _). destruct (shutdown_spec c) as (Hr & Hl & Hlog).
  split; [exact Hr|]. split; [congruence|]. intros _.
  rewrite Hlog. apply Forall_forall. intros p Hp.
  rewrite pin_level_app.
  rewrite (pin_level_all p 0 (fun _ => 0) (leds c)); [reflexivity|reflexivity|].
  rewrite B. exact Hp.
Qed.

Lemma indicators_setMode (m : SettingModes) (s : Sketch F) :
  indicators_show m (digital_log (env (setMode m s))).
Proof.
  destruct (setMode_spec m s) as (_ & _ & Hl). rewrite Hl.
  unfold indicators_show. rewrite !pin_level_app.
  destruct m; cbn; repeat split; reflexivity.
Qed.

Lemma indicators_blink (m : SettingModes) (led : Z) (log : list (Z * Z)) :
  (m = Pattern /\ led = ModeLED) \/ (m = Brightness /\ led = BrightnessLED) \/
  (m = Speed /\ led = SpeedLED) ->
  indicators_show m log ->
  indicators_show m ((log ++ [(led, LOW)]) ++ [(led, HIGH)]).
Proof.
  intros H (A & B & C). unfold indicators_show. rewrite <- app_assoc, !pin_level_app.
  destruct H as [[-> ->]|[[-> ->]|[-> ->]]]; cbn; repeat split; assumption.
Qed.

Lemma indicators_power (m m' : SettingModes) (log : list (Z * Z)) :
  (m = Sleep \/ m = Running) -> (m' = Sleep \/ m' = Running) ->
  indicators_show m log -> indicators_show m' log.
Proof. intros [-> | ->] [-> | ->]; auto. Qed.

Lemma toggle_case_spec (update : Z -> LedCluster F -> bool * LedCluster F) (led value : Z)
      (c : LedCluster F) (s : Sketch F) :
  let s' := toggle_case update led value c s in
  cluster s' = Some (snd (update value c)) /\
  mode s' = mode s /\
  digital_log (env s') =
    (if fst (update value c)
     then (digital_log (env s) ++ [(led, LOW)]) ++ [(led, HIGH)]
     else digital_log (env s)).
Proof.
  cbv zeta. unfold toggle_case, millis, env_millis. cbn.
  destruct (update value c) as [[] c']; cbn; auto.
Qed.

Lemma cluster_startUp_spec (c : LedCluster F) (s : Sketch F) :
  exists now now',
    cluster (cluster_startUp c s) =
      (if running c then cluster s else Some (startUp now now' c)) /\
    mode (cluster_startUp c s) = mode s /\
    digital_log (env (cluster_startUp c s)) = digital_log (env s).
Proof.
  exists (millis_src (env s) (millis_pos (env s))),
         (millis_src (env s) (S (millis_pos (env s)))).
  unfold cluster_startUp, millis, env_millis.
  destruct (running c); cbn; auto.
Qed.

Lemma cluster_startUp_calls (c : LedCluster F) (s : Sketch F) :
  cluster s = Some c ->
  exists now now',
    cluster (cluster_startUp c s) = Some (startUp now now' c) /\
    mode (cluster_startUp c s) = mode s /\
    digital_log (env (cluster_startUp c s)) = digital_log (env s).
Proof.
  intros Hc. destruct (cluster_startUp_spec c s) as (now & now' & A & B & C).
  exists now, now'. split; [|auto]. rewrite A. unfold startUp.
  destruct (running c); [exact Hc|reflexivity].
Qed.

Lemma cluster_poll_spec (c : LedCluster F) (s : Sketch F) :
  cluster s = Some c ->
  exists now,
    cluster (cluster_poll c s) = Some (poll now c) /\
    mode (cluster_poll c s) = mode s /\
    lastModeChange (cluster_poll c s) = lastModeChange s /\
    digital_log (env (cluster_poll c s)) = digital_log (env s).
Proof.
  intros Hc. exists (millis_src (env s) (millis_pos (env s))).
  unfold cluster_poll, millis, env_millis.
  destruct (running c) eqn:Hr; cbn; auto.
  rewrite poll_stopped by exact Hr. auto.
Qed.

Section Invariant.

Variable Q : LedCluster F -> Prop.

Hypothesis HQ : forall k c, Q c -> Q (run_call k c).

Lemma sketch_ok_core (s s' : Sketch F) :
  cluster s' = cluster s -> mode s' = mode s ->
  digital_log (env s') = digital_log (env s) ->
  sketch_ok Q s -> sketch_ok Q s'.
Proof. intros A B C H. unfold sketch_ok. rewrite A, B, C. exact H. Qed.

Lemma millis_ok (s : Sketch F) : sketch_ok Q s -> sketch_ok Q (snd (millis s)).
Proof. apply sketch_ok_core; reflexivity. Qed.

Lemma digitalRead_ok (s : Sketch F) : sketch_ok Q s -> sketch_ok Q (snd (digitalRead s)).
Proof. apply sketch_ok_core; reflexivity. Qed.

Lemma with_lastModeChange_ok (v : Z) (s : Sketch F) :
  sketch_ok Q s -> sketch_ok Q (with_lastModeChange v s).
Proof. apply sketch_ok_core; reflexivity. Qed.

Lemma toggleClusterValue_ok (value : Z) (s : Sketch F) :
  sketch_ok Q s -> sketch_ok Q (toggleClusterValue value s).
Proof.
  intros (Hi & c & Hc & Hp & Hq). unfold toggleClusterValue. rewrite Hc.
  destruct (mode s) eqn:Hm;
    try (split; [rewrite Hm; exact Hi|exists c; rewrite Hm; auto]).
  - destruct (toggle_case_spec updatePattern ModeLED value c s) as (A & B & C).
    cbv zeta in *. split.
    + rewrite B, C, Hm. destruct (fst (updatePattern value c)); [|exact Hi].
      apply indicators_blink; auto.
    + eexists. split; [exact A|]. rewrite B, Hm. split.
      * apply (power_mutator Pattern (UpdatePattern value) c Hp).
      * apply (HQ (CMutate (UpdatePattern value)) c Hq).
  - destruct (toggle_case_spec updateBrightness BrightnessLED value c s) as (A & B & C).
    cbv zeta in *. split.
    + rewrite B, C, Hm. destruct (fst (updateBrightness value c)); [|exact Hi].
      apply indicators_blink; auto.
    + eexists. split; [exact A|]. rewrite B, Hm. split.
      * apply (power_mutator Brightness (UpdateBrightness value) c Hp).
      * apply (HQ (CMutate (UpdateBrightness value)) c Hq).
  - destruct (toggle_case_spec updateSpeed SpeedLED value c s) as (A & B & C).
    cbv zeta in *. split.
    + rewrite B, C, Hm. destruct (fst (updateSpeed value c)); [|exact Hi].
      apply indicators_blink; auto.
    + eexists. split; [exact A|]. rewrite B, Hm. split.
      * apply (power_mutator Speed (UpdateSpeed value) c Hp).
      * apply (HQ (CMutate (UpdateSpeed value)) c Hq).
Qed.

Lemma upBtnToggled_ok (state : Z) (s : Sketch F) :
  sketch_ok Q s -> sketch_ok Q (upBtnToggled state s).
Proof.
  intros H. unfold upBtnToggled. destruct (cluster s); [|exact H].
  destruct (negb _); [apply toggleClusterValue_ok|]; exact H.
Qed.

Lemma downBtnToggled_ok (state : Z) (s : Sketch F) :
  sketch_ok Q s -> sketch_ok Q (downBtnToggled state s).
Proof.
  intros H. unfold downBtnToggled. destruct (cluster s); [|exact H].
  destruct (negb _); [apply toggleClusterValue_ok|]; exact H.
Qed.

Lemma powerTimeout_ok (s : Sketch F) : sketch_ok Q s -> sketch_ok Q (powerTimeout s).
Proof.
  intros (Hi & c & Hc & Hp & Hq). unfold powerTimeout. rewrite Hc.
  destruct (mode s) eqn:Hm;
    try (split; [rewrite Hm; exact Hi|exists c; rewrite Hm; auto]).
  - destruct (cluster_startUp_calls c (with_mode Running s) Hc) as (now & now' & A & B & C).
    split.
    + rewrite B, C. cbn. apply (indicators_power Sleep Running); auto.
    + eexists. split; [exact A|]. rewrite B. cbn [mode with_mode]. split.
      * apply (power_startUp Sleep). exact Hp.
      * apply (HQ (CStartUp now now') c Hq).
  - cbn. split.
    + apply (indicators_power Running Sleep); auto.
    + eexists. split; [reflexivity|]. split.
      * apply (power_shutdown Running). exact Hp.
      * apply (HQ CShutdown c Hq).
Qed.

Lemma setMode_ok (m : SettingModes) (s : Sketch F) :
  mode s <> Sleep -> m <> Sleep -> sketch_ok Q s -> sketch_ok Q (setMode m s).
Proof.
  intros H1 H2 (Hi & c & Hc & Hp & Hq).
  pose proof (indicators_setMode m s) as Hi'.
  destruct (setMode_spec m s) as (A & B & _). split.
  - rewrite B. exact Hi'.
  - exists c. split; [congruence|]. rewrite B. split; [|exact Hq].
    exact (power_awake (mode s) m c H1 H2 Hp).
Qed.

Lemma settingBtnToggled_ok (state : Z) (s : Sketch F) :
  sketch_ok Q s -> sketch_ok Q (settingBtnToggled state s).
Proof.
  intros H. unfold settingBtnToggled. destruct (cluster s); [|exact H].
  destruct (negb _); [|exact H].
  destruct (mode s) eqn:Hm; try exact H; apply setMode_ok; auto; try congruence;
    discriminate.
Qed.

Lemma serial_setting_ok (set : Z -> LedCluster F -> bool * LedCluster F)
      (mu : Z -> Mutator) (upd : Z -> LedCluster F -> bool * LedCluster F)
      (mu' : Z -> Mutator) (letterMode : SettingModes) (led : Z)
      (command : list ascii) (inc : bool) (c : LedCluster F) (s : Sketch F) :
  (forall v c, set v c = run_mutator (mu v) c) ->
  (forall v c, upd v c = run_mutator (mu' v) c) ->
  (forall v s, cluster s = Some c -> mode s = letterMode ->
               toggleClusterValue v s = toggle_case upd led v c s) ->
  cluster s = Some c ->
  sketch_ok Q s -> sketch_ok Q (serial_setting set letterMode command inc c s).
Proof.
  intros Hset Hupd Ht Hc (Hi & c' & Hc' & Hp & Hq).
  assert (c' = c) by congruence. subst c'.
  unfold serial_setting. destruct (1 <? Z.of_nat (length command)).
  - split; [exact Hi|]. eexists. split; [reflexivity|]. cbn [mode with_cluster].
    rewrite Hset. split.
    + apply power_mutator. exact Hp.
    + apply (HQ (CMutate (mu _)) c Hq).
  - set (v := if inc then 1 else -1).
    destruct (setMode_spec letterMode s) as (A1 & B1 & _).
    rewrite Ht by congruence.
    destruct (toggle_case_spec upd led v c (setMode letterMode s)) as (A2 & B2 & _).
    cbv zeta in A2, B2.
    set (s2 := toggle_case upd led v c (setMode letterMode s)) in *.
    destruct (setMode_spec (mode s) s2) as (A3 & B3 & _).
    split.
    + rewrite B3. apply indicators_setMode.
    + eexists. split; [rewrite A3; exact A2|]. rewrite B3, Hupd. split.
      * apply power_mutator. exact Hp.
      * apply (HQ (CMutate (mu' _)) c Hq).
Qed.

Lemma handleSerialCommand_ok (command : list ascii) (s : Sketch F) :
  sketch_ok Q s -> sketch_ok Q (handleSerialCommand command s).
Proof.
  intros H. pose proof H as (Hi & c & Hc & Hp & Hq).
  unfold handleSerialCommand. rewrite Hc.
  destruct command as [|c0 rest]; [exact H|].
  destruct (strncmp_is_0 _ _ _); [exact H|].
  destruct (Ascii.eqb (toupper c0) PATTERN_MODE_CHAR).
  { apply (serial_setting_ok setPattern SetPattern updatePattern UpdatePattern Pattern ModeLED);
      auto.
    intros v s0 Hc0 Hm0. unfold toggleClusterValue. now rewrite Hc0, Hm0. }
  destruct (Ascii.eqb (toupper c0) SPEED_MODE_CHAR).
  { apply (serial_setting_ok setSpeedPercent SetSpeedPercent updateSpeed UpdateSpeed
                             Speed SpeedLED); auto.
    intros v s0 Hc0 Hm0. unfold toggleClusterValue. now rewrite Hc0, Hm0. }
  destruct (Ascii.eqb (toupper c0) BRIGHTNESS_MODE_CHAR).
  { apply (serial_setting_ok setBrightnessPercent SetBrightnessPercent
                             updateBrightness UpdateBrightness Brightness BrightnessLED); auto.
    intros v s0 Hc0 Hm0. unfold toggleClusterValue. now rewrite Hc0, Hm0. }
  destruct (Ascii.eqb (toupper c0) RUNNING_MODE_CHAR).
  { destruct (setMode_spec Running s) as (A1 & B1 & _).
    rewrite A1, Hc.
    destruct (cluster_startUp_calls c (setMode Running s) (eq_trans A1 Hc))
      as (now & now' & A & B & C).
    split.
    - rewrite B, C, B1. apply indicators_setMode.
    - eexists. split; [exact A|]. rewrite B, B1. split.
      + apply (power_startUp (mode s)). exact Hp.
      + apply (HQ (CStartUp now now') c Hq). }
  destruct (Ascii.eqb (toupper c0) SLEEP_MODE_CHAR).
  { destruct (setMode_spec Sleep s) as (A1 & B1 & _).
    rewrite A1, Hc. unfold sketch_ok. cbn [cluster mode env with_cluster].
    split.
    - rewrite B1. apply indicators_setMode.
    - eexists. split; [reflexivity|]. rewrite B1. split.
      + apply (power_shutdown (mode s)). exact Hp.
      + apply (HQ CShutdown c Hq). }
  exact H.
Qed.

Lemma pollSerial_ok (s : Sketch F) : sketch_ok Q s -> sketch_ok Q (pollSerial s).
Proof.
  intros H. unfold pollSerial, env_serial. cbn.
  destruct (serial_src (env s) (serial_pos (env s))); [exact H|].
  apply handleSerialCommand_ok. exact H.
Qed.

Lemma poll_button_ok (get : Sketch F -> InputHelper) (set : InputHelper -> Sketch F -> Sketch F)
      (toggled : Z -> Sketch F -> Sketch F) (timeout : Sketch F -> Sketch F) (s : Sketch F) :
  (forall h s, cluster (set h s) = cluster s /\ mode (set h s) = mode s /\
               env (set h s) = env s) ->
  (forall st s, sketch_ok Q s -> sketch_ok Q (toggled st s)) ->
  (forall s, sketch_ok Q s -> sketch_ok Q (timeout s)) ->
  sketch_ok Q s -> sketch_ok Q (poll_button get set toggled timeout s).
Proof.
  intros Hset Hto Hti H. unfold poll_button.
  apply millis_ok in H. destruct (millis s) as [now s1]. cbn [snd] in H.
  apply digitalRead_ok in H. destruct (digitalRead s1) as [a s2]. cbn [snd] in H.
  apply digitalRead_ok in H. destruct (digitalRead s2) as [b s3]. cbn [snd] in H.
  destruct (InputHelper_poll now a b (get s3)) as [e h'].
  assert (H0 : sketch_ok Q (set h' s3)).
  { destruct (Hset h' s3) as (A & B & C).
    apply (sketch_ok_core s3); [exact A|exact B|now rewrite C|exact H]. }
  destruct e as [[p st d|p d]|]; cbn [dispatch]; auto.
Qed.

Lemma cluster_poll_ok (s : Sketch F) :
  sketch_ok Q s ->
  sketch_ok Q (match cluster s with Some c => cluster_poll c s | None => s end).
Proof.
  intros (Hi & c & Hc & Hp & Hq). rewrite Hc.
  destruct (cluster_poll_spec c s Hc) as (now & A & B & _ & C).
  split; [rewrite B, C; exact Hi|].
  eexists. split; [exact A|]. rewrite B. split.
  - apply power_poll. exact Hp.
  - apply (HQ (CPoll now) c Hq).
Qed.

Lemma mode_timeout_ok (s : Sketch F) :
  sketch_ok Q s ->
  sketch_ok Q
    (if negb (SettingModes_eqb (mode s) Running) && negb (SettingModes_eqb (mode s) Sleep)
     then
       let '(t, s) := millis s in
       let delta := int32 (t - lastModeChange s) in
       if 10000 <? delta then with_lastModeChange 0 (setMode Running s) else s
     else s).
Proof.
  intros H.
  destruct (negb (SettingModes_eqb (mode s) Running)
            && negb (SettingModes_eqb (mode s) Sleep)) eqn:Hm; [|exact H].
  assert (Hmode : mode (snd (millis s)) <> Sleep).
  { change (mode (snd (millis s))) with (mode s). intro E. rewrite E in Hm. discriminate. }
  apply millis_ok in H. destruct (millis s) as [t s1]. cbn [snd] in *. cbv zeta.
  destruct (10000 <? int32 (t - lastModeChange s1)); [|exact H].
  apply with_lastModeChange_ok.
  apply setMode_ok; [exact Hmode|discriminate|exact H].
Qed.

Lemma loop_ok (s : Sketch F) : sketch_ok Q s -> sketch_ok Q (loop s).
Proof.
  intros H. unfold loop.
  apply mode_timeout_ok, cluster_poll_ok.
  apply poll_button_ok.
  - intros h s0. cbn [cluster mode env with_settingSelectionBtn]. auto.
  - apply settingBtnToggled_ok.
  - apply powerTimeout_ok.
  - apply poll_button_ok.
    + intros h s0. cbn [cluster mode env with_downBtn]. auto.
    + apply downBtnToggled_ok.
    + intros s0 H0; exact H0.
    + apply poll_button_ok.
      * intros h s0. cbn [cluster mode env with_upBtn]. auto.
      * apply upBtnToggled_ok.
      * intros s0 H0; exact H0.
      * apply pollSerial_ok, H.
Qed.

Lemma loops_ok (n : nat) (s : Sketch F) : sketch_ok Q s -> sketch_ok Q (loops n s).
Proof.
  intros H. induction n as [|n IH]; [exact H|].
  cbn [loops]. apply loop_ok, IH.
Qed.

End Invariant.

End SketchInv2.

Section SketchRun.

Context {F : Type} {FA : FloatArith F}.

Lemma new_LedCluster_running_pins (pins : list Z) (n now : Z) (b : Board) :
  running (new_LedCluster pins n now b) = true /\
  map pin (leds (new_LedCluster pins n now b)) = map pin (new_leds pins n).
Proof.
  unfold new_LedCluster.
  set (c0 := mkCluster _ _ _ _ _ _ b).
  destruct (populateRaindrops_settings c0) as (_ & Hr).
  assert (Hp : map pin (leds (populateRaindrops c0)) = map pin (new_leds pins n)).
  { unfold populateRaindrops. pose proof (populate_pins (leds c0) (board c0)) as P.
    destruct (populate (leds c0) (board c0)) as [ls b']. exact P. }
  cbv zeta.
  destruct (negb _ || negb _); cbn; rewrite Hr; auto.
Qed.

Lemma static_init_spec (e : Env) :
  mode (static_init (F := F) e) = Running /\
  digital_log (env (static_init (F := F) e)) =
    digital_log e ++ [(ModeLED, LOW); (SpeedLED, LOW); (BrightnessLED, LOW)].
Proof.
  split; [lazy; reflexivity|].
  transitivity (((digital_log e ++ [(ModeLED, LOW)]) ++ [(SpeedLED, LOW)])
                ++ [(BrightnessLED, LOW)]).
  - lazy. reflexivity.
  - rewrite <- !app_assoc. reflexivity.
Qed.

Lemma setup_spec (b : Board) (seeded : nat -> Z) (s : Sketch F) :
  exists now c,
    c = new_LedCluster [DisplayLED1; DisplayLED2; DisplayLED3;
                        DisplayLED4; DisplayLED5; DisplayLED6] 6 now b /\
    cluster (setup b seeded s) =
      Some (with_board (mkBoard (eeprom (board c)) (eeprom_puts (board c))
                                (pwm_log (board c)) seeded 0) c) /\
    mode (setup b seeded s) = mode s /\
    digital_log (env (setup b seeded s)) = digital_log (env s).
Proof.
  exists (millis_src (env s) (millis_pos (env s))). eexists. split; [reflexivity|].
  unfold setup, millis, env_millis.
  cbn [cluster mode env digital_log with_cluster with_env]. auto.
Qed.

Lemma setup_ok (Q : LedCluster F -> Prop) (b : Board) (seeded : nat -> Z) (e : Env) :
  (forall now c,
     c = new_LedCluster [DisplayLED1; DisplayLED2; DisplayLED3;
                         DisplayLED4; DisplayLED5; DisplayLED6] 6 now b ->
     Q (with_board (mkBoard (eeprom (board c)) (eeprom_puts (board c))
                            (pwm_log (board c)) seeded 0) c)) ->
  sketch_ok Q (setup b seeded (static_init e)).
Proof.
  intros HQ. destruct (setup_spec b seeded (static_init e)) as (now & c & Ec & A & B & C).
  destruct (static_init_spec e) as (B0 & C0). rewrite B0 in B. rewrite C0 in C.
  split.
  - rewrite B, C. unfold indicators_show. rewrite !pin_level_app.
    cbn [pin_level]. auto.
  - eexists. split; [exact A|]. rewrite B. split; [|apply (HQ now c Ec)].
    destruct (new_LedCluster_running_pins
                [DisplayLED1; DisplayLED2; DisplayLED3; DisplayLED4; DisplayLED5; DisplayLED6]
                6 now b) as (Hr & Hp).
    rewrite <- Ec in Hr, Hp.
    split; [exact Hr|]. split; [|discriminate].
    cbn [leds with_board]. rewrite Hp. reflexivity.
Qed.

(** X16.  After power-on, [setup] and any number of passes of [loop], with
    any buttons, clock and serial input: the mode indicator is lit exactly
    in Pattern mode, the brightness indicator exactly in Brightness mode
    and the speed indicator exactly in Speed mode. *)
Theorem indicators_follow_mode (e : Env) (b : Board) (seeded : nat -> Z) (n : nat) :
  let s := sketch_run e b seeded n in
  pin_level ModeLED (digital_log (env s))
    = Some (if SettingModes_eqb Pattern (mode s) then HIGH else LOW) /\
  pin_level BrightnessLED (digital_log (env s))
    = Some (if SettingModes_eqb Brightness (mode s) then HIGH else LOW) /\
  pin_level SpeedLED (digital_log (env s))
    = Some (if SettingModes_eqb Speed (mode s) then HIGH else LOW).
Proof.
  cbv zeta. unfold sketch_run.
  assert (H : sketch_ok (fun _ => True) (loops n (setup b seeded (static_init e)))).
  { apply loops_ok; [auto|]. apply setup_ok. auto. }
  destruct H as (Hi & _). exact Hi.
Qed.

(** X17.  Whenever the sketch is in Sleep mode, the cluster is stopped and
    the last value written to each of the six display pins is 0. *)
Theorem asleep_is_dark (e : Env) (b : Board) (seeded : nat -> Z) (n : nat) :
  mode (sketch_run e b seeded n) = Sleep ->
  exists c, cluster (sketch_run e b seeded n) = Some c /\
            running c = false /\
            Forall (fun p => pin_level p (pwm_log (board c)) = Some 0)
                   [DisplayLED1; DisplayLED2; DisplayLED3;
                    DisplayLED4; DisplayLED5; DisplayLED6].
Proof.
  unfold sketch_run. intros Hm.
  assert (H : sketch_ok (fun _ => True) (loops n (setup b seeded (static_init e)))).
  { apply loops_ok; [auto|]. apply setup_ok. auto. }
  destruct H as (_ & c & Hc & (Hr & _ & Hd) & _).
  exists c. split; [exact Hc|]. rewrite Hm in Hr, Hd. split; [exact Hr|].
  apply Hd. reflexivity.
Qed.

(** X18.  At every pass the cluster exists, drives the six display pins,
    and runs exactly when the mode is not Sleep. *)
Theorem awake_is_running (e : Env) (b : Board) (seeded : nat -> Z) (n : nat) :
  exists c, cluster (sketch_run e b seeded n) = Some c /\
            running c = negb (SettingModes_eqb (mode (sketch_run e b seeded n)) Sleep) /\
            map pin (leds c) = [DisplayLED1; DisplayLED2; DisplayLED3;
                                DisplayLED4; DisplayLED5; DisplayLED6].
Proof.
  unfold sketch_run.
  assert (H : sketch_ok (fun _ => True) (loops n (setup b seeded (static_init e)))).
  { apply loops_ok; [auto|]. apply setup_ok. auto. }
  destruct H as (_ & c & Hc & (Hr & Hp & _) & _).
  exists c. auto.
Qed.

Lemma reseed_consistent (c : LedCluster F) (seeded : nat -> Z) :
  consistent c ->
  consistent (with_board (mkBoard (eeprom (board c)) (eeprom_puts (board c))
                                  (pwm_log (board c)) seeded 0) c).
Proof. intros H. exact H. Qed.

(** X19.  Under the sketch, with any buttons, clock and serial bytes, the
    persisted settings stay valid and in range and the cluster stays in
    step with them, from any EEPROM content that the constructor rejects
    or that is in range. *)
Theorem sketch_keeps_settings_in_range (e : Env) (b : Board) (seeded : nat -> Z) (n : nat) :
  (invalid (eeprom b) <> 0 \/ version (eeprom b) <> VERSION) \/ settings_in_range (eeprom b) ->
  exists c, cluster (sketch_run e b seeded n) = Some c /\
            settings_in_range (eeprom (board c)) /\
            settings c = eeprom (board c) /\
            revTimePeriodMs c = periodOf (revsPerMinute (eeprom (board c))).
Proof.
  intros Hb. unfold sketch_run.
  assert (H : sketch_ok consistent (loops n (setup b seeded (static_init e)))).
  { apply loops_ok; [intros k c; apply run_call_consistent|].
    apply setup_ok. intros now c Ec. apply reseed_consistent. rewrite Ec.
    apply new_LedCluster_consistent. exact Hb. }
  destruct H as (_ & c & Hc & _ & Hq). exists c. split; [exact Hc|exact Hq].
Qed.

End SketchRun.

(** ** The sketch: one pass of [loop] (X20, X24) *)

Section SketchPass.

Context {F : Type} {FA : FloatArith F}.

Lemma poll_button_cases (get : Sketch F -> InputHelper) (set : InputHelper -> Sketch F -> Sketch F)
      (toggled : Z -> Sketch F -> Sketch F) (timeout : Sketch F -> Sketch F) (s : Sketch F) :
  (forall h s, cluster (set h s) = cluster s /\ mode (set h s) = mode s) ->
  exists s0 e,
    poll_button get set toggled timeout s = dispatch toggled timeout e s0 /\
    cluster s0 = cluster s /\ mode s0 = mode s.
Proof.
  intros Hset. unfold poll_button.
  assert (H1 : cluster (snd (millis s)) = cluster s /\ mode (snd (millis s)) = mode s)
    by (split; reflexivity).
  destruct (millis s) as [now s1]. cbn [snd] in H1.
  assert (H2 : cluster (snd (digitalRead s1)) = cluster s1 /\
               mode (snd (digitalRead s1)) = mode s1) by (split; reflexivity).
  destruct (digitalRead s1) as [a s2]. cbn [snd] in H2.
  assert (H3 : cluster (snd (digitalRead s2)) = cluster s2 /\
               mode (snd (digitalRead s2)) = mode s2) by (split; reflexivity).
  destruct (digitalRead s2) as [b s3]. cbn [snd] in H3.
  destruct (InputHelper_poll now a b (get s3)) as [e h'].
  exists (set h' s3), e. split; [reflexivity|].
  destruct (Hset h' s3) as (A & B).
  destruct H1, H2, H3. split; congruence.
Qed.

Lemma toggleClusterValue_mode (value : Z) (s : Sketch F) :
  mode (toggleClusterValue value s) = mode s /\
  (mode s = Running \/ mode s = Sleep -> toggleClusterValue value s = s).
Proof.
  unfold toggleClusterValue. destruct (cluster s) as [c|]; [|auto].
  destruct (mode s) eqn:Hm; try (split; [auto|intros [E|E]; auto; discriminate]).
  - destruct (toggle_case_spec updatePattern ModeLED value c s) as (_ & B & _). cbv zeta in B.
    rewrite B; exact Hm.
  - destruct (toggle_case_spec updateBrightness BrightnessLED value c s) as (_ & B & _). cbv zeta in B.
    rewrite B; exact Hm.
  - destruct (toggle_case_spec updateSpeed SpeedLED value c s) as (_ & B & _). cbv zeta in B.
    rewrite B; exact Hm.
Qed.

Lemma updown_pass (get : Sketch F -> InputHelper) (set : InputHelper -> Sketch F -> Sketch F)
      (value : Z) (toggled : Z -> Sketch F -> Sketch F) (s : Sketch F) :
  (forall h s, cluster (set h s) = cluster s /\ mode (set h s) = mode s) ->
  (forall st s, toggled st s = s \/ toggled st s = toggleClusterValue value s) ->
  let s' := poll_button get set toggled (fun s => s) s in
  mode s' = mode s /\
  (mode s = Running \/ mode s = Sleep -> cluster s' = cluster s).
Proof.
  intros Hset Ht. cbv zeta.
  destruct (poll_button_cases get set toggled (fun s => s) s Hset) as (s0 & e & E & A & B).
  rewrite E. destruct e as [[p st d|p d]|]; cbn [dispatch]; [|auto|auto].
  destruct (Ht st s0) as [-> | ->]; [auto|].
  destruct (toggleClusterValue_mode value s0) as (M & K).
  split; [congruence|]. intros Hm. rewrite K; [exact A|]. rewrite B. exact Hm.
Qed.

Lemma upBtnToggled_cases (st : Z) (s : Sketch F) :
  upBtnToggled st s = s \/ upBtnToggled st s = toggleClusterValue 1 s.
Proof.
  unfold upBtnToggled. destruct (cluster s); [|auto]. destruct (negb _); auto.
Qed.

Lemma downBtnToggled_cases (st : Z) (s : Sketch F) :
  downBtnToggled st s = s \/ downBtnToggled st s = toggleClusterValue (-1) s.
Proof.
  unfold downBtnToggled. destruct (cluster s); [|auto]. destruct (negb _); auto.
Qed.

Lemma settingBtnToggled_pass (st : Z) (s : Sketch F) :
  cluster (settingBtnToggled st s) = cluster s /\
  (mode (settingBtnToggled st s) = mode s \/
   (mode s = Running /\ mode (settingBtnToggled st s) = Pattern) \/
   (mode s = Pattern /\ mode (settingBtnToggled st s) = Brightness) \/
   (mode s = Brightness /\ mode (settingBtnToggled st s) = Speed) \/
   (mode s = Speed /\ mode (settingBtnToggled st s) = Pattern)).
Proof.
  unfold settingBtnToggled. destruct (cluster s) eqn:Hc; [|auto].
  destruct (negb _); [|auto].
  destruct (mode s) eqn:Hm; [auto| | | |].
  - destruct (setMode_spec Pattern s) as (A & B & _). split; [congruence|auto].
  - destruct (setMode_spec Brightness s) as (A & B & _). split; [congruence|auto 6].
  - destruct (setMode_spec Speed s) as (A & B & _). split; [congruence|auto 6].
  - destruct (setMode_spec Pattern s) as (A & B & _). split; [congruence|auto 6].
Qed.

Lemma shutdown_stored (c : LedCluster F) :
  eeprom (board (shutdown c)) = eeprom (board c) /\
  eeprom_puts (board (shutdown c)) = eeprom_puts (board c).
Proof.
  unfold shutdown. cbn [board with_board with_running leds].
  destruct (analogWrite_fold (fun _ => 0) (leds c) (board c)) as (_ & A & B). auto.
Qed.

Lemma startUp_stored (now now' : Z) (c : LedCluster F) :
  eeprom (board (startUp now now' c)) = eeprom (board c) /\
  eeprom_puts (board (startUp now now' c)) = eeprom_puts (board c).
Proof.
  unfold startUp. destruct (negb (running c)); [|auto].
  destruct (poll_framed now' (with_running true (with_startTimeMs (int32 now) c)))
    as (A & B & _). auto.
Qed.

Lemma powerTimeout_pass (s : Sketch F) :
  stored (powerTimeout s) = stored s /\
  (mode (powerTimeout s) = mode s \/
   (mode s = Sleep /\ mode (powerTimeout s) = Running) \/
   (mode s = Running /\ mode (powerTimeout s) = Sleep)).
Proof.
  unfold powerTimeout. destruct (cluster s) as [c|] eqn:Hc; [|auto].
  destruct (mode s) eqn:Hm; auto.
  - destruct (cluster_startUp_calls c (with_mode Running s) Hc) as (now & now' & A & B & _).
    split; [|rewrite B; auto].
    unfold stored. rewrite A, Hc.
    destruct (startUp_stored now now' c) as (X & Y). now rewrite X, Y.
  - split; [|auto]. unfold stored. cbn [cluster with_cluster with_mode]. rewrite Hc.
    destruct (shutdown_stored c) as (X & Y). now rewrite X, Y.
Qed.

Lemma setting_pass (s : Sketch F) :
  let s' := poll_button settingSelectionBtn with_settingSelectionBtn
                        settingBtnToggled powerTimeout s in
  stored s' = stored s /\
  (mode s' = mode s \/
   (mode s = Running /\ mode s' = Pattern) \/
   (mode s = Pattern /\ mode s' = Brightness) \/
   (mode s = Brightness /\ mode s' = Speed) \/
   (mode s = Speed /\ mode s' = Pattern) \/
   (mode s = Sleep /\ mode s' = Running) \/
   (mode s = Running /\ mode s' = Sleep)).
Proof.
  cbv zeta.
  destruct (poll_button_cases settingSelectionBtn with_settingSelectionBtn
                              settingBtnToggled powerTimeout s) as (s0 & e & E & A & B).
  { intros h s1. split; reflexivity. }
  rewrite E. assert (Hs : stored s0 = stored s) by (unfold stored; now rewrite A).
  rewrite <- Hs, <- B. clear E A B Hs.
  destruct e as [[p st d|p d]|]; cbn [dispatch]; [| |auto].
  - destruct (settingBtnToggled_pass st s0) as (X & Y).
    split; [unfold stored; now rewrite X|]. intuition auto.
  - destruct (powerTimeout_pass s0) as (X & Y). split; [exact X|]. intuition auto.
Qed.

Lemma cluster_poll_pass (s : Sketch F) :
  let s' := match cluster s with Some c => cluster_poll c s | None => s end in
  stored s' = stored s /\ mode s' = mode s.
Proof.
  cbv zeta. destruct (cluster s) as [c|] eqn:Hc; [|auto].
  destruct (cluster_poll_spec c s Hc) as (now & A & B & _).
  split; [|exact B]. unfold stored. rewrite A, Hc.
  destruct (poll_framed now c) as (X & Y & _). now rewrite X, Y.
Qed.

Lemma with_lastModeChange_spec (v : Z) (s : Sketch F) :
  cluster (with_lastModeChange v s) = cluster s /\
  mode (with_lastModeChange v s) = mode s.
Proof. split; reflexivity. Qed.

Lemma mode_timeout_pass (s : Sketch F) :
  let s' :=
    if negb (SettingModes_eqb (mode s) Running) && negb (SettingModes_eqb (mode s) Sleep)
    then
      let '(t, s) := millis s in
      let delta := int32 (t - lastModeChange s) in
      if 10000 <? delta then with_lastModeChange 0 (setMode Running s) else s
    else s in
  cluster s' = cluster s /\
  (mode s' = mode s \/ (mode s <> Running /\ mode s <> Sleep /\ mode s' = Running)).
Proof.
  cbv zeta.
  destruct (negb (SettingModes_eqb (mode s) Running)
            && negb (SettingModes_eqb (mode s) Sleep)) eqn:Hm; [|auto].
  assert (H1 : cluster (snd (millis s)) = cluster s /\ mode (snd (millis s)) = mode s)
    by (split; reflexivity).
  destruct (millis s) as [t s1]. cbn [snd] in H1. destruct H1 as (A & B).
  destruct (10000 <? int32 (t - lastModeChange s1)); [|auto].
  destruct (setMode_spec Running s1) as (X & Y & _).
  destruct (with_lastModeChange_spec 0 (setMode Running s1)) as (X' & Y').
  rewrite X', Y'.
  split; [congruence|]. right.
  destruct (mode s); try discriminate; repeat split; auto; discriminate.
Qed.

Lemma pollSerial_idle (s : Sketch F) :
  serial_src (env s) (serial_pos (env s)) = [] ->
  cluster (pollSerial s) = cluster s /\ mode (pollSerial s) = mode s.
Proof.
  intros H. unfold pollSerial, env_serial. rewrite H. split; reflexivity.
Qed.

(** [loop] as the chain of its six steps. *)
Lemma loop_chain (P0 P1 P2 P3 P4 P5 P6 : Sketch F -> Prop) :
  (forall s, P0 s -> P1 (pollSerial s)) ->
  (forall s, P1 s -> P2 (poll_button upBtn with_upBtn upBtnToggled (fun s => s) s)) ->
  (forall s, P2 s -> P3 (poll_button downBtn with_downBtn downBtnToggled (fun s => s) s)) ->
  (forall s, P3 s -> P4 (poll_button settingSelectionBtn with_settingSelectionBtn
                                     settingBtnToggled powerTimeout s)) ->
  (forall s, P4 s -> P5 (match cluster s with Some c => cluster_poll c s | None => s end)) ->
  (forall s, P5 s ->
             P6 (if negb (SettingModes_eqb (mode s) Running)
                    && negb (SettingModes_eqb (mode s) Sleep)
                 then
                   let '(t, s) := millis s in
                   let delta := int32 (t - lastModeChange s) in
                   if 10000 <? delta then with_lastModeChange 0 (setMode Running s) else s
                 else s)) ->
  forall s, P0 s -> P6 (loop s).
Proof.
  intros H1 H2 H3 H4 H5 H6 s H. unfold loop.
  apply H6, H5, H4, H3, H2, H1, H.
Qed.

(** X20.  A pass of [loop] in which no serial command arrives moves the
    mode only along Sleep <-> Running, Running -> Pattern -> Brightness ->
    Speed -> Pattern, and from a settings mode back to Running; and a pass
    that starts in Running or Sleep leaves the EEPROM alone. *)
Theorem loop_pass_without_serial (s : Sketch F) :
  serial_src (env s) (serial_pos (env s)) = [] ->
  mode_step (mode s) (mode (loop s)) = true /\
  (mode s = Running \/ mode s = Sleep -> stored (loop s) = stored s).
Proof.
  intros Hs.
  set (quiet := fun s' : Sketch F => mode s = Running \/ mode s = Sleep -> stored s' = stored s).
  apply (loop_chain
           (fun s0 => s0 = s)
           (fun s1 => mode s1 = mode s /\ quiet s1)
           (fun s2 => mode s2 = mode s /\ quiet s2)
           (fun s3 => mode s3 = mode s /\ quiet s3)
           (fun s4 => mode_step (mode s) (mode s4) = true /\ quiet s4)
           (fun s5 => mode_step (mode s) (mode s5) = true /\ quiet s5)
           (fun s6 => mode_step (mode s) (mode s6) = true /\ quiet s6));
    [| | | | | |reflexivity].
  - intros s0 ->. destruct (pollSerial_idle s Hs) as (C & M).
    split; [exact M|]. intros _. unfold stored. now rewrite C.
  - intros s1 (M & K).
    destruct (updown_pass upBtn with_upBtn 1 upBtnToggled s1) as (M' & C');
      [intros; split; reflexivity|apply upBtnToggled_cases|].
    cbv zeta in M', C'. split; [congruence|].
    intros Hm. rewrite <- (K Hm). unfold stored. rewrite C'; [reflexivity|congruence].
  - intros s2 (M & K).
    destruct (updown_pass downBtn with_downBtn (-1) downBtnToggled s2) as (M' & C');
      [intros; split; reflexivity|apply downBtnToggled_cases|].
    cbv zeta in M', C'. split; [congruence|].
    intros Hm. rewrite <- (K Hm). unfold stored. rewrite C'; [reflexivity|congruence].
  - intros s3 (M & K). destruct (setting_pass s3) as (C' & M'). cbv zeta in M', C'.
    rewrite M in M'. split.
    + clear - M'.
      destruct M' as [E|[[E1 E2]|[[E1 E2]|[[E1 E2]|[[E1 E2]|[[E1 E2]|[E1 E2]]]]]]];
        try (rewrite E1, E2; reflexivity).
      rewrite E. destruct (mode s); reflexivity.
    + intros Hm. rewrite C'. exact (K Hm).
  - intros s4 (M & K). destruct (cluster_poll_pass s4) as (C' & M'). cbv zeta in M', C'.
    rewrite M'. split; [exact M|].
    intros Hm. rewrite C'. exact (K Hm).
  - intros s5 (M & K). pose proof (mode_timeout_pass s5) as H.
    cbv zeta in H |- *. destruct H as (C' & M').
    split.
    + destruct M' as [E|(_ & _ & E3)]; [rewrite E; exact M|].
      rewrite E3. destruct (mode s); reflexivity.
    + intros Hm. unfold stored. rewrite C'. exact (K Hm).
Qed.

End SketchPass.

Lemma InputHelper_timeout_armed (now a b : Z) (h : InputHelper) (p d : Z) :
  fst (InputHelper_poll now a b h) = Some (Timeout p d) ->
  trigger_timeout h = true /\ lastState h <> 0.
Proof.
  unfold InputHelper_poll, signalToggleCallback, signalTimeoutCallback.
  destruct (a =? b); [|discriminate].
  destruct (negb (a =? lastState h)).
  - cbn [fst]. destruct (toggle_callback h); discriminate.
  - destruct (trigger_timeout h); cbn [andb]; [|discriminate].
    destruct (Z.eqb_spec (lastState h) 0); cbn [negb andb]; [discriminate|].
    intros _. auto.
Qed.

Section SleepProps.

Context {F : Type} {FA : FloatArith F}.

Lemma toggleClusterValue_buttons (value : Z) (s : Sketch F) :
  settingSelectionBtn (toggleClusterValue value s) = settingSelectionBtn s.
Proof.
  unfold toggleClusterValue. destruct (cluster s) as [c|]; [|reflexivity].
  destruct (mode s); try reflexivity; unfold toggle_case, millis, env_millis;
    cbn [fst snd];
    match goal with |- context [?u value c] => destruct (u value c) as [[] c'] end;
    reflexivity.
Qed.

Lemma updown_buttons (get : Sketch F -> InputHelper) (set : InputHelper -> Sketch F -> Sketch F)
      (value : Z) (toggled : Z -> Sketch F -> Sketch F) (s : Sketch F) :
  (forall h s, settingSelectionBtn (set h s) = settingSelectionBtn s) ->
  (forall st s, toggled st s = s \/ toggled st s = toggleClusterValue value s) ->
  settingSelectionBtn (poll_button get set toggled (fun s => s) s) = settingSelectionBtn s.
Proof.
  intros Hset Ht. unfold poll_button.
  assert (H1 : settingSelectionBtn (snd (millis s)) = settingSelectionBtn s) by reflexivity.
  destruct (millis s) as [now s1]. cbn [snd] in H1.
  assert (H2 : settingSelectionBtn (snd (digitalRead s1)) = settingSelectionBtn s1)
    by reflexivity.
  destruct (digitalRead s1) as [a s2]. cbn [snd] in H2.
  assert (H3 : settingSelectionBtn (snd (digitalRead s2)) = settingSelectionBtn s2)
    by reflexivity.
  destruct (digitalRead s2) as [b s3]. cbn [snd] in H3.
  destruct (InputHelper_poll now a b (get s3)) as [e h'].
  pose proof (Hset h' s3) as H4.
  destruct e as [[p st d|p d]|]; cbn [dispatch]; [|congruence|congruence].
  destruct (Ht st (set h' s3)) as [-> | ->]; [congruence|].
  rewrite toggleClusterValue_buttons. congruence.
Qed.

Lemma setting_poll_event (s : Sketch F) :
  exists now a b s0,
    poll_button settingSelectionBtn with_settingSelectionBtn settingBtnToggled powerTimeout s
    = dispatch settingBtnToggled powerTimeout
               (fst (InputHelper_poll now a b (settingSelectionBtn s))) s0 /\
    cluster s0 = cluster s /\ mode s0 = mode s.
Proof.
  unfold poll_button.
  assert (H1 : cluster (snd (millis s)) = cluster s /\ mode (snd (millis s)) = mode s /\
               settingSelectionBtn (snd (millis s)) = settingSelectionBtn s)
    by (repeat split; reflexivity).
  destruct (millis s) as [now s1]. cbn [snd] in H1.
  assert (H2 : cluster (snd (digitalRead s1)) = cluster s1 /\
               mode (snd (digitalRead s1)) = mode s1 /\
               settingSelectionBtn (snd (digitalRead s1)) = settingSelectionBtn s1)
    by (repeat split; reflexivity).
  destruct (digitalRead s1) as [a s2]. cbn [snd] in H2.
  assert (H3 : cluster (snd (digitalRead s2)) = cluster s2 /\
               mode (snd (digitalRead s2)) = mode s2 /\
               settingSelectionBtn (snd (digitalRead s2)) = settingSelectionBtn s2)
    by (repeat split; reflexivity).
  destruct (digitalRead s2) as [b s3]. cbn [snd] in H3.
  destruct H1 as (A1 & B1 & C1), H2 as (A2 & B2 & C2), H3 as (A3 & B3 & C3).
  assert (Hb : settingSelectionBtn s3 = settingSelectionBtn s) by congruence.
  rewrite Hb.
  destruct (InputHelper_poll now a b (settingSelectionBtn s)) as [e h'] eqn:E.
  exists now, a, b, (with_settingSelectionBtn h' s3). rewrite E. cbn [fst].
  split; [reflexivity|]. split.
  - change (cluster (with_settingSelectionBtn h' s3)) with (cluster s3). congruence.
  - change (mode (with_settingSelectionBtn h' s3)) with (mode s3). congruence.
Qed.

Lemma pollSerial_idle_buttons (s : Sketch F) :
  serial_src (env s) (serial_pos (env s)) = [] ->
  settingSelectionBtn (pollSerial s) = settingSelectionBtn s.
Proof.
  intros H. unfold pollSerial, env_serial. rewrite H. reflexivity.
Qed.

(** X24.  Without a serial command, a pass of [loop] ends in Sleep only if
    it starts in Sleep, or in Running with the settings button already
    registered as held and its time-out still armed. *)
Theorem sleep_needs_armed_hold (s : Sketch F) :
  serial_src (env s) (serial_pos (env s)) = [] ->
  mode s <> Sleep ->
  (mode s = Running ->
   lastState (settingSelectionBtn s) = 0 \/ trigger_timeout (settingSelectionBtn s) = false) ->
  mode (loop s) <> Sleep.
Proof.
  intros Hs Hm Hb.
  set (same := fun s' : Sketch F =>
                 mode s' = mode s /\ settingSelectionBtn s' = settingSelectionBtn s).
  apply (loop_chain (fun s0 => s0 = s) same same same
                    (fun s4 => mode s4 <> Sleep) (fun s5 => mode s5 <> Sleep)
                    (fun s6 => mode s6 <> Sleep));
    [| | | | | |reflexivity].
  - intros s0 ->. split; [apply (pollSerial_idle s Hs)|apply (pollSerial_idle_buttons s Hs)].
  - intros s1 (M & B).
    destruct (updown_pass upBtn with_upBtn 1 upBtnToggled s1) as (M' & _);
      [intros; split; reflexivity|apply upBtnToggled_cases|].
    cbv zeta in M'. split; [congruence|].
    rewrite (updown_buttons upBtn with_upBtn 1 upBtnToggled s1);
      [exact B|reflexivity|apply upBtnToggled_cases].
  - intros s2 (M & B).
    destruct (updown_pass downBtn with_downBtn (-1) downBtnToggled s2) as (M' & _);
      [intros; split; reflexivity|apply downBtnToggled_cases|].
    cbv zeta in M'. split; [congruence|].
    rewrite (updown_buttons downBtn with_downBtn (-1) downBtnToggled s2);
      [exact B|reflexivity|apply downBtnToggled_cases].
  - intros s3 (M & B).
    destruct (setting_poll_event s3) as (now & a & b & s0 & E & C0 & M0).
    rewrite E. rewrite B.
    destruct (fst (InputHelper_poll now a b (settingSelectionBtn s))) as [[p st d|p d]|] eqn:Ev;
      cbn [dispatch].
    + destruct (settingBtnToggled_pass st s0) as (_ & Y).
      rewrite M0, M in Y.
      destruct Y as [E1|[[_ E1]|[[_ E1]|[[_ E1]|[_ E1]]]]]; rewrite E1;
        try discriminate; exact Hm.
    + destruct (InputHelper_timeout_armed _ _ _ _ _ _ Ev) as (Ht & Hl).
      destruct (powerTimeout_pass s0) as (_ & Y). rewrite M0, M in Y.
      destruct Y as [E1|[[E0 _]|[E0 _]]].
      * rewrite E1. exact Hm.
      * contradiction.
      * destruct (Hb E0) as [H0|H0]; [contradiction|congruence].
    + rewrite M0, M. exact Hm.
  - intros s4 H4. destruct (cluster_poll_pass s4) as (_ & M'). cbv zeta in M'.
    rewrite M'. exact H4.
  - intros s5 H5. pose proof (mode_timeout_pass s5) as H.
    cbv zeta in H |- *. destruct H as (_ & [E|(_ & _ & E)]); rewrite E;
      [exact H5|discriminate].
Qed.

(** The press itself: from [Running] it enters [Pattern], where the
    time-out that ends a long press does nothing. *)
Lemma press_from_running (st : Z) (c : LedCluster F) (s : Sketch F) :
  cluster s = Some c -> mode s = Running -> st <> 0 ->
  mode (settingBtnToggled st s) = Pattern /\
  powerTimeout (settingBtnToggled st s) = settingBtnToggled st s.
Proof.
  intros Hc Hm Hst.
  assert (E : settingBtnToggled st s = setMode Pattern s).
  { unfold settingBtnToggled. rewrite Hc, Hm.
    destruct (Z.eqb_spec st 0); [contradiction|reflexivity]. }
  rewrite E. destruct (setMode_spec Pattern s) as (A & B & _).
  split; [exact B|]. unfold powerTimeout. rewrite A, Hc, B. reflexivity.
Qed.

End SleepProps.

(** ** The serial commands (X21 to X23) *)

Lemma digit_char_code (d : Z) :
  0 <= d <= 9 -> Z.of_N (N_of_ascii (digit_char d)) = 48 + d.
Proof.
  intros H. unfold digit_char. rewrite N_ascii_embedding.
  - lia.
  - lia.
Qed.

Lemma digit_char_isDigit (d : Z) : 0 <= d <= 9 -> isDigit (digit_char d) = true.
Proof.
  intros H. unfold isDigit. rewrite digit_char_code by exact H.
  apply andb_true_iff. split; apply Z.leb_le; lia.
Qed.

Lemma decimal_digits (fuel : nat) (v : Z) :
  0 <= v -> forallb isDigit (decimal fuel v) = true.
Proof.
  revert v. induction fuel as [|f IH]; intros v Hv; cbn [decimal]; [reflexivity|].
  destruct (Z.ltb_spec v 10).
  - cbn. rewrite digit_char_isDigit by lia. reflexivity.
  - rewrite forallb_app, IH by (apply Z.div_pos; lia). cbn.
    rewrite digit_char_isDigit; [reflexivity|].
    pose proof (Z.mod_pos_bound v 10 ltac:(lia)). lia.
Qed.

Lemma incoming_digits_all (ds value : list ascii) :
  forallb isDigit ds = true -> incoming_digits ds value = value ++ ds.
Proof.
  revert value. induction ds as [|c rest IH]; intros value H; cbn [incoming_digits].
  - now rewrite app_nil_r.
  - cbn in H. apply andb_true_iff in H. destruct H as [Hc Hr].
    rewrite Hc. cbn [negb]. rewrite IH by exact Hr. now rewrite <- app_assoc.
Qed.

Lemma incoming_digits_bad (ds value : list ascii) :
  forallb isDigit ds = false -> incoming_digits ds value = ["0"%char].
Proof.
  revert value. induction ds as [|c rest IH]; intros value H; cbn [incoming_digits].
  - discriminate.
  - cbn in H. destruct (isDigit c); cbn [negb]; [|reflexivity].
    apply IH. exact H.
Qed.

Lemma toInt_from_app (ds rest : list ascii) (acc : Z) :
  forallb isDigit ds = true ->
  toInt_from acc (ds ++ rest) = toInt_from (toInt_from acc ds) rest.
Proof.
  revert acc. induction ds as [|c ds IH]; intros acc H; [reflexivity|].
  cbn in H. apply andb_true_iff in H. destruct H as [Hc Hr].
  cbn [app toInt_from]. rewrite Hc. apply IH. exact Hr.
Qed.

Lemma toInt_from_decimal (fuel : nat) (v : Z) :
  0 <= v < 10 ^ Z.of_nat fuel -> v < 2 ^ 31 ->
  toInt_from 0 (decimal fuel v) = v.
Proof.
  revert v. induction fuel as [|f IH]; intros v Hv Hb.
  - cbn in *. lia.
  - cbn [decimal]. destruct (Z.ltb_spec v 10).
    + cbn [toInt_from]. rewrite digit_char_isDigit by lia.
      rewrite digit_char_code by lia. rewrite int32_small by lia. lia.
    + rewrite toInt_from_app by (apply decimal_digits, Z.div_pos; lia).
      assert (Hq : 0 <= v / 10 < 10 ^ Z.of_nat f).
      { split; [apply Z.div_pos; lia|].
        apply Z.div_lt_upper_bound; [lia|].
        rewrite Nat2Z.inj_succ, Z.pow_succ_r in Hv by lia. lia. }
      assert (Hq' : v / 10 < 2 ^ 31).
      { apply Z.div_lt_upper_bound; lia. }
      rewrite IH by assumption.
      pose proof (Z.mod_pos_bound v 10 ltac:(lia)) as Hm.
      cbn [toInt_from]. rewrite digit_char_isDigit by lia.
      rewrite digit_char_code by lia.
      pose proof (Z.div_mod v 10 ltac:(lia)) as Hd.
      rewrite int32_small by lia. lia.
Qed.

Lemma getIncomingValue_digits (fuel : nat) (v : Z) :
  0 <= v < 10 ^ Z.of_nat fuel -> v < 2 ^ 31 ->
  getIncomingValue (decimal fuel v) = int16 v /\
  getIncomingValue ("="%char :: decimal fuel v) = int16 v.
Proof.
  intros Hv Hb.
  assert (Hd : forallb isDigit (decimal fuel v) = true) by (apply decimal_digits; lia).
  assert (H1 : getIncomingValue ("="%char :: decimal fuel v) = int16 v).
  { unfold getIncomingValue. cbn [Ascii.eqb Bool.eqb andb].
    rewrite incoming_digits_all by exact Hd. cbn [app]. unfold toInt.
    now rewrite toInt_from_decimal. }
  assert (H2 : getIncomingValue (decimal fuel v) = int16 v).
  { unfold getIncomingValue.
    destruct (decimal fuel v) as [|c r] eqn:E.
    - destruct fuel; [cbn in Hv; assert (v = 0) by lia; subst; reflexivity|].
      cbn [decimal] in E.
      destruct (v <? 10); [discriminate|]. destruct (decimal fuel (v / 10)); discriminate.
    - assert (Hc : Ascii.eqb c "="%char = false).
      { destruct (Ascii.eqb_spec c "="%char) as [->|]; [|reflexivity].
        cbn in Hd. discriminate. }
      rewrite Hc. rewrite incoming_digits_all by exact Hd. cbn [app].
      unfold toInt. rewrite <- E. now rewrite toInt_from_decimal. }
  split; [exact H2|exact H1].
Qed.

(** X21.  [getIncomingValue] reads a decimal number of at most 32767 back
    as that number, with or without a leading '=', and reads 0 as soon as
    a character that is not a digit follows. *)
Theorem getIncomingValue_reads_decimal (fuel : nat) (v : Z) :
  0 <= v < 10 ^ Z.of_nat fuel -> v <= 32767 ->
  getIncomingValue (decimal fuel v) = v /\
  getIncomingValue ("="%char :: decimal fuel v) = v /\
  (forall junk, isDigit junk = false ->
                getIncomingValue (decimal fuel v ++ [junk]) = 0).
Proof.
  intros Hv Hs. destruct (getIncomingValue_digits fuel v Hv ltac:(lia)) as (A & B).
  rewrite int16_small in A, B by lia. split; [exact A|]. split; [exact B|].
  intros junk Hj. unfold getIncomingValue.
  assert (Hbad : forallb isDigit (decimal fuel v ++ [junk]) = false).
  { rewrite forallb_app. cbn. rewrite Hj. now rewrite andb_false_r. }
  destruct (decimal fuel v ++ [junk]) as [|c r] eqn:E.
  - destruct (decimal fuel v); discriminate.
  - destruct (Ascii.eqb_spec c "="%char) as [->|Hne].
    + destruct (decimal fuel v) as [|d r'] eqn:Ed.
      * cbn in E. inversion E. subst. reflexivity.
      * cbn in E. inversion E. subst d.
        pose proof (decimal_digits fuel v ltac:(lia)) as Hd. rewrite Ed in Hd.
        cbn in Hd. discriminate.
    + rewrite incoming_digits_bad by exact Hbad. reflexivity.
Qed.

(** Anything that is not a digit in the value makes it 0. *)
Lemma getIncomingValue_bad (command : list ascii) :
  forallb isDigit command = false ->
  hd "0"%char command <> "="%char ->
  getIncomingValue command = 0.
Proof.
  intros H Hh. unfold getIncomingValue.
  destruct command as [|c r]; [discriminate|]. cbn [hd] in Hh.
  destruct (Ascii.eqb_spec c "="%char); [contradiction|].
  rewrite incoming_digits_bad by exact H. reflexivity.
Qed.

Lemma strncmp_prefix (command : list ascii) :
  command <> [] ->
  strncmp_is_0 command API_REQUEST_STR (length command) = true <->
  exists rest, API_REQUEST_STR = command ++ rest.
Proof.
  intros Hne. unfold API_REQUEST_STR.
  destruct command as [|c1 [|c2 [|c3 [|c4 [|c5 r]]]]]; [contradiction| | | | |];
    cbn [length strncmp_is_0];
    repeat match goal with
           | |- context [Ascii.eqb ?x ?y] => destruct (Ascii.eqb_spec x y) as [->|]
           end; cbn [andb]; split; intros H; try discriminate; try reflexivity;
    try (eexists; reflexivity);
    try (destruct H as [rest H]; cbn in H; inversion H; congruence).
Qed.

Section SerialProps.

Context {F : Type} {FA : FloatArith F}.

(** X22.  Every non-empty prefix of "api?" ("a", "ap", "api", "api?") is
    taken as the API request: [handleSerialCommand] leaves mode, settings
    and outputs as they are. *)
Theorem api_request_changes_nothing (command rest : list ascii) (s : Sketch F) :
  command <> [] -> API_REQUEST_STR = command ++ rest ->
  handleSerialCommand command s = s.
Proof.
  intros Hne Hp. unfold handleSerialCommand.
  destruct (cluster s); [|reflexivity].
  destruct command as [|c0 r] eqn:E; [reflexivity|]. rewrite <- E in *.
  assert (H : strncmp_is_0 command API_REQUEST_STR (length command) = true).
  { apply strncmp_prefix; [exact Hne|]. exists rest. exact Hp. }
  rewrite H. reflexivity.
Qed.

Lemma serial_value_command (set : Z -> LedCluster F -> bool * LedCluster F)
      (letterMode : SettingModes) (c0 : ascii) (ds : list ascii) (inc : bool)
      (c : LedCluster F) (s : Sketch F) :
  ds <> [] ->
  serial_setting set letterMode (c0 :: ds) inc c s =
    with_cluster (Some (snd (set (getIncomingValue ds) c))) s.
Proof.
  intros Hne. unfold serial_setting. destruct ds as [|d r]; [contradiction|].
  replace (1 <? Z.of_nat (length (c0 :: d :: r))) with true; [reflexivity|].
  symmetry. apply Z.ltb_lt. cbn [length]. lia.
Qed.

Lemma decimal_nonempty (fuel : nat) (v : Z) : decimal (S fuel) v <> [].
Proof.
  cbn [decimal]. destruct (v <? 10); [discriminate|].
  destruct (decimal fuel (v / 10)); discriminate.
Qed.

(** X23.  The serial command "P<number>" stores the pattern
    [min number 12] and keeps the mode; from 12 on, the following ticks
    write nothing to the pins and leave the LEDs as they are. *)
Theorem serial_pattern_command (fuel : nat) (v : Z) (c : LedCluster F) (s : Sketch F) :
  cluster s = Some c ->
  0 <= v < 10 ^ Z.of_nat (S fuel) -> v <= 32767 ->
  let s' := handleSerialCommand ("P"%char :: decimal (S fuel) v) s in
  mode s' = mode s /\
  cluster s' = Some (snd (setPattern v c)) /\
  pattern (eeprom (board (snd (setPattern v c)))) = Z.min v 12 /\
  (12 <= v ->
   forall now, board (poll now (snd (setPattern v c))) = board (snd (setPattern v c)) /\
               leds (poll now (snd (setPattern v c))) = leds c).
Proof.
  intros Hc Hv Hs. cbv zeta.
  assert (Hg : getIncomingValue (decimal (S fuel) v) = v).
  { destruct (getIncomingValue_digits (S fuel) v Hv ltac:(lia)) as (H & _).
    rewrite H. apply int16_small. lia. }
  assert (E : handleSerialCommand ("P"%char :: decimal (S fuel) v) s
              = with_cluster (Some (snd (setPattern v c))) s).
  { unfold handleSerialCommand. rewrite Hc.
    replace (strncmp_is_0 _ _ _) with false by reflexivity.
    replace (Ascii.eqb (toupper "P") PATTERN_MODE_CHAR) with true by reflexivity.
    rewrite serial_value_command by apply decimal_nonempty.
    now rewrite Hg. }
  rewrite E. split; [reflexivity|]. split; [reflexivity|].
  destruct (setPattern_range v c) as (Hp & _).
  split.
  - rewrite Hp. rewrite forceRange_spec by (cbn; lia). cbn. lia.
  - intros H12 now.
    pose proof (run_mutator_settings (SetPattern v) c) as Hset.
    pose proof (run_mutator_keeps (SetPattern v) c) as (_ & _ & Hl).
    change (run_mutator (SetPattern v) c) with (setPattern v c) in Hset, Hl.
    assert (Hu : ~ (0 <= pattern (settings (snd (setPattern v c))) <= 11)).
    { rewrite Hset, Hp. rewrite forceRange_spec by (cbn; lia). cbn. lia. }
    unfold poll. destruct (running (snd (setPattern v c))); [|auto].
    rewrite (select_method_unknown _ _ Hu). cbn. auto.
Qed.

End SerialProps.

(** ** The angles in operation (X25) *)

Section Angles.

Context {F : Type} {FA : FloatArith F}.








End Angles.

Section ExactAngles.

Variables cosf sinf : Q -> Q.

Local Abbreviation E := (exactQ cosf sinf).

Local Hint Extern 0 (FloatArith Q) => exact (exactQ cosf sinf) : typeclass_instances.






End ExactAngles.

(** ** Where the specification and the code part ways *)

#[local] Hint Extern 0 (FloatArith spec_float) =>
  exact (binary32 no_libm no_libm) : typeclass_instances.
#[local] Hint Extern 0 (FloatArith Q) =>
  exact (exactQ cosQ sinQ) : typeclass_instances.


(** The clockwise wave goes negative too (lead angle 0, LED at 300 degrees):
    the remainder of a negative angle is negative in C. *)
Lemma waveCw_raw_is_negative :
  rawBrightness (FA := binary32 no_libm no_libm) WaveClockwise
                (mkLed 5 (B32.of_int 300) 0 11 0) (mkInfo (B32.of_int 0) 0)
                (demo_board chase_settings) = Some (-67) /\
  rawBrightness (FA := exactQ cosQ sinQ) WaveClockwise
                (mkLed 5 300%Q 0 11 0) (mkInfo 0%Q 0)
                (demo_board chase_settings) = Some (-67).
Proof. split; reflexivity. Qed.

(** C4 as stated fails: with start time 0 and a period of 3333 ms, the
    sample 644318 periods after time 0 falls beyond LONG_MAX milliseconds;
    the elapsed time wraps negative, the revolution count is -644301 instead
    of 644318 and the angle is negative. *)
Lemma sample_wraps_past_long_max :
  let c := with_revTimePeriodMs 3333 (with_startTimeMs 0 (demo_cluster_Q chase_settings)) in
  let i := getCurrentLightInfo (FA := exactQ cosQ sinQ) 0 c in
  let i' := getCurrentLightInfo (FA := exactQ cosQ sinQ) (0 + 644318 * revTimePeriodMs c) c in
  0 < revTimePeriodMs c /\ elapsedMs 0 c = 0 /\ 0 <= 644318 /\
  0 + 644318 * revTimePeriodMs c = 2147511894 /\
  revolution i + 644318 = 644318 /\
  revolution i' = -644301 /\
  lead_angle i = (0 # 3333)%Q /\
  lead_angle i' = (-60840 # 3333)%Q.
Proof. cbv zeta. repeat split; try reflexivity; discriminate. Qed.

(** C6 as stated fails: 50 percent is stored as 30 rpm, where the linear
    map of [0,100] onto [6,60] gives 33 rpm. *)
Lemma setSpeedPercent_is_not_linear :
  speedApplied 50 (demo_cluster_b32 chase_settings) = 30 /\
  linear_speed_spec 50 = 33.
Proof. split; reflexivity. Qed.

(** C7 as stated fails: in the scenario the LED at 300 degrees (the sixth)
    gets 83, not 17. *)
Lemma chase_led_at_300_gets_83 :
  let c := demo_cluster_b32 chase_settings in
  nth_error (map angle (leds c)) 5 = Some (B32.of_int 300) /\
  lead_angle (getCurrentLightInfo (FA := binary32 no_libm no_libm) 1000 c) = B32.of_int 0 /\
  nth_error (map brightness (leds (poll (FA := binary32 no_libm no_libm) 1000 c))) 5 = Some 83 /\
  (83 =? 17) = false.
Proof. cbv zeta. repeat split. Qed.

(** ** The theorems at concrete inputs *)



Lemma constructor_resets_invalid_settings_witness :
  let c := demo_cluster_b32 blank_settings in
  settings c = default_settings /\
  eeprom (board c) = default_settings /\
  eeprom_puts (board c) = eeprom_puts (demo_board blank_settings) ++ [default_settings] /\
  version (settings c) = VERSION /\
  pattern (settings c) = Patterns_to_Z ChaseClockwise /\
  brightnessMultiplier (settings c) = 18 /\
  revsPerMinute (settings c) = 18 /\
  invalid (settings c) = 0.
Proof.
  apply (constructor_resets_invalid_settings (FA := binary32 no_libm no_libm)
           demo_pins 6 1000 (demo_board blank_settings)).
  left. discriminate.
Defined.

Lemma sample_periodic_witness :
  let c := demo_cluster_Q chase_settings in
  let i := getCurrentLightInfo (FA := exactQ cosQ sinQ) 1500 c in
  let i' := getCurrentLightInfo (FA := exactQ cosQ sinQ) (1500 + 3 * revTimePeriodMs c) c in
  lead_angle i' = lead_angle i /\ revolution i' = revolution i + 3.
Proof.
  apply (sample_periodic (FA := exactQ cosQ sinQ) (demo_cluster_Q chase_settings) 1500 3).
  - reflexivity.
  - discriminate.
  - discriminate.
  - discriminate.
Defined.

Lemma globaliseBrightness_monotone_witness :
  let c1 := demo_cluster_b32 (set_brightnessMultiplier 5 chase_settings) in
  let c2 := demo_cluster_b32 chase_settings in
  fst (globaliseBrightness (FA := binary32 no_libm no_libm) 50 c1)
    <= fst (globaliseBrightness (FA := binary32 no_libm no_libm) 50 c2) /\
  (brightnessMultiplier (eeprom (board c2)) = MAX_BRIGHTNESS ->
   fst (globaliseBrightness (FA := binary32 no_libm no_libm) 50 c2) = 50).
Proof.
  apply (globaliseBrightness_monotone no_libm no_libm 50
           (demo_cluster_b32 (set_brightnessMultiplier 5 chase_settings))
           (demo_cluster_b32 chase_settings)).
  - split; discriminate.
  - discriminate.
  - discriminate.
  - discriminate.
Defined.

Lemma setSpeedPercent_applies_witness :
  let c := demo_cluster_b32 chase_settings in
  speedApplied 50 c = Z.max MIN_SPEED (MAX_SPEED * 50 / 100) /\
  MIN_SPEED <= speedApplied 50 c <= MAX_SPEED /\
  (50 <= 10 -> speedApplied 50 c = MIN_SPEED) /\
  (50 = 100 -> speedApplied 50 c = MAX_SPEED) /\
  revsPerMinute (settings (snd (setSpeedPercent 50 c))) = speedApplied 50 c.
Proof.
  apply (setSpeedPercent_applies (FA := binary32 no_libm no_libm) 50
           (demo_cluster_b32 chase_settings)).
  split; discriminate.
Defined.

Lemma chase_clockwise_scenario_witness :
  let c := demo_cluster_b32 chase_settings in
  map angle (leds c) = map B32.of_int [0; 60; 120; 180; 240; 300] /\
  lead_angle (getCurrentLightInfo (FA := binary32 no_libm no_libm) 1000 c) = B32.of_int 0 /\
  map brightness (leds (poll (FA := binary32 no_libm no_libm) 1000 c))
    = [100; 17; 33; 50; 67; 83].
Proof.
  apply (chase_clockwise_scenario no_libm no_libm demo_pins 1000 (demo_board chase_settings)).
  reflexivity.
Defined.

Lemma shutdown_then_poll_is_dark_witness :
  let ks := [CPoll 2000; CMutate (SetPattern 9); CPoll 3000] in
  let c := demo_cluster_b32 chase_settings in
  let c1 := shutdown c in
  let c2 := run_calls (FA := binary32 no_libm no_libm) ks c1 in
  running c1 = false /\
  pwm_log (board c1) = pwm_log (board c) ++ map (fun led => (pin led, 0)) (leds c) /\
  running c2 = false /\
  pwm_log (board c2) = pwm_log (board c1) /\
  (forall now, poll (FA := binary32 no_libm no_libm) now c2 = c2) /\
  forall led, In led (leds c) ->
    pin_level (pin led) (pwm_log (board c1)) = Some 0 /\
    pin_level (pin led) (pwm_log (board c2)) = Some 0.
Proof.
  apply (shutdown_then_poll_is_dark (FA := binary32 no_libm no_libm)
           [CPoll 2000; CMutate (SetPattern 9); CPoll 3000]
           (demo_cluster_b32 chase_settings)).
  reflexivity.
Defined.

Lemma poll_emits_table_entries_witness :
  let c := demo_cluster_b32 chase_settings in
  pwm_log (board (poll (FA := binary32 no_libm no_libm) 1000 c)) =
    pwm_log (board c) ++
    map (fun led => (pin led, brightnessToDutyCycle (brightness led)))
        (leds (poll (FA := binary32 no_libm no_libm) 1000 c)) /\
  forall b : Z,
    dutyCycleIndex b = Z.min (Z.max b 0) 100 /\
    nth_error BRIGHTNESS_TO_DUTY_CYCLE (Z.to_nat (dutyCycleIndex b))
      = Some (brightnessToDutyCycle b) /\
    0 <= brightnessToDutyCycle b <= 255 /\
    (b <= 0 -> brightnessToDutyCycle b = 0).
Proof.
  apply (poll_emits_table_entries (FA := binary32 no_libm no_libm) 1000
           (demo_cluster_b32 chase_settings)).
  - reflexivity.
  - split; discriminate.
Defined.

(** ** The further theorems at concrete inputs *)

Lemma settings_stay_in_range_witness :
  let c := run_calls (FA := binary32 no_libm no_libm)
             [CMutate (SetPattern 40); CMutate (UpdateSpeed 30); CPoll 2000]
             (new_LedCluster (FA := binary32 no_libm no_libm) demo_pins 6 1000
                             (demo_board blank_settings)) in
  settings_in_range (eeprom (board c)) /\ settings c = eeprom (board c) /\
  revTimePeriodMs c
    = periodOf (FA := binary32 no_libm no_libm) (revsPerMinute (eeprom (board c))).
Proof.
  apply (settings_stay_in_range (FA := binary32 no_libm no_libm) demo_pins 6 1000
           (demo_board blank_settings)
           [CMutate (SetPattern 40); CMutate (UpdateSpeed 30); CPoll 2000]).
  left. left. discriminate.
Defined.

Lemma poll_unknown_pattern_is_silent_witness :
  let c := demo_cluster_b32 (set_pattern 12 chase_settings) in
  poll (FA := binary32 no_libm no_libm) 2000 c =
    (if running c
     then with_lastRevolution
            (revolution (getCurrentLightInfo (FA := binary32 no_libm no_libm) 2000 c)) c
     else c) /\
  board (poll (FA := binary32 no_libm no_libm) 2000 c) = board c /\
  leds (poll (FA := binary32 no_libm no_libm) 2000 c) = leds c.
Proof.
  apply (poll_unknown_pattern_is_silent (FA := binary32 no_libm no_libm) 2000
           (demo_cluster_b32 (set_pattern 12 chase_settings))).
  change (~ (0 <= 12 <= 11)). lia.
Defined.

Lemma updatePattern_wraps_witness :
  let c := demo_cluster_b32 (set_pattern 0 chase_settings) in
  let p := pattern (eeprom (board c)) in
  let c' := snd (updatePattern (-1) c) in
  pattern (eeprom (board c')) = (p + -1) mod 12 /\
  pattern (settings c') = (p + -1) mod 12 /\
  0 <= pattern (eeprom (board c')) <= 11 /\
  (p <= 11 -> fst (updatePattern (-1) c) = negb (-1 mod 12 =? 0)) /\
  (p = 12 -> fst (updatePattern (-1) c) = true).
Proof.
  apply (updatePattern_wraps (-1) (demo_cluster_b32 (set_pattern 0 chase_settings))).
  - change (0 <= 0 <= 12). lia.
  - lia.
Defined.

Lemma updatePattern_full_cycle_witness :
  let c := demo_cluster_b32 (set_pattern 0 chase_settings) in
  pattern (eeprom (board (run_calls (FA := binary32 no_libm no_libm)
                                    (repeat (CMutate (UpdatePattern 1)) 12) c)))
    = pattern (eeprom (board c)) /\
  forall n, (0 < n < 12)%nat ->
    pattern (eeprom (board (run_calls (FA := binary32 no_libm no_libm)
                                      (repeat (CMutate (UpdatePattern 1)) n) c)))
      <> pattern (eeprom (board c)).
Proof.
  apply (updatePattern_full_cycle (FA := binary32 no_libm no_libm) 1
           (demo_cluster_b32 (set_pattern 0 chase_settings))).
  - change (0 <= 0 <= 11). lia.
  - left. reflexivity.
Defined.

Lemma brightnessToDutyCycle_monotone_witness :
  brightnessToDutyCycle 10 <= brightnessToDutyCycle 20 /\
  (0 <= 10 -> 10 < 20 -> 20 <= 100 -> brightnessToDutyCycle 10 < brightnessToDutyCycle 20) /\
  (100 <= 20 -> brightnessToDutyCycle 20 = 255).
Proof.
  apply (brightnessToDutyCycle_monotone 10 20). lia.
Defined.

Lemma wave_patterns_coincide_witness :
  waveAcwRaw (FA := binary32 no_libm no_libm)
             (mkLed 1 (B32.of_int 60) 0 5 0) (mkInfo (B32.of_int 90) 0)
  = waveCwRaw (FA := binary32 no_libm no_libm)
              (mkLed 1 (B32.of_int 60) 0 5 0) (mkInfo (B32.of_int 90) 0).
Proof.
  apply (wave_patterns_coincide (FA := binary32 no_libm no_libm)
           (mkLed 1 (B32.of_int 60) 0 5 0) (mkInfo (B32.of_int 90) 0)).
  vm_compute. split; [discriminate|reflexivity].
Defined.

Lemma candleStep_is_bounded_walk_witness :
  let led := mkLed (F := spec_float) 0 (B32.of_int 0) 0 3 50 in
  let b := demo_board chase_settings in
  let e' := extra (fst (candleStep led b)) in
  0 <= e' <= 100 /\
  (0 <= extra led <= 100 -> extra led - 4 <= e' <= extra led + 3) /\
  (100 < extra led -> 96 <= e') /\
  rand_pos (snd (candleStep led b)) = S (rand_pos b).
Proof.
  apply (candleStep_is_bounded_walk (mkLed (F := spec_float) 0 (B32.of_int 0) 0 3 50)
           (demo_board chase_settings)).
  - vm_compute. discriminate.
  - vm_compute. split; discriminate.
Defined.

Lemma populateRaindrops_offsets_witness :
  let c := demo_cluster_b32 chase_settings in
  let c' := populateRaindrops c in
  Forall (fun led => 0 <= extra led /\ extra led + RAINDROP_ANGLE < 360) (leds c') /\
  map pin (leds c') = map pin (leds c) /\
  map angle (leds c') = map angle (leds c) /\
  rand_pos (board c') = (rand_pos (board c) + length (leds c))%nat.
Proof.
  apply (populateRaindrops_offsets (demo_cluster_b32 chase_settings)).
  intros n. change (0 <= 16807 * Z.of_nat (S n)). lia.
Defined.

Lemma globaliseBrightness_only_dims_witness :
  let c := demo_cluster_b32 (set_brightnessMultiplier 5 chase_settings) in
  let v := fst (globaliseBrightness (FA := binary32 no_libm no_libm) 50 c) in
  (0 <= 50 -> 0 <= v <= 50) /\
  (50 <= 0 -> 50 <= v <= 0 /\ brightnessToDutyCycle v = 0) /\
  (50 = 100 -> v = 5 * brightnessMultiplier (eeprom (board c))).
Proof.
  apply (globaliseBrightness_only_dims no_libm no_libm 50
           (demo_cluster_b32 (set_brightnessMultiplier 5 chase_settings))).
  - lia.
  - change (1 <= 5 <= 20). lia.
Defined.

Lemma cycle_period_stays_positive_witness :
  let c := run_calls (FA := binary32 no_libm no_libm)
             [CMutate (SetSpeedPercent 0); CPoll 2000; CMutate (UpdateSpeed 1)]
             (new_LedCluster (FA := binary32 no_libm no_libm) demo_pins 6 1000
                             (demo_board blank_settings)) in
  revTimePeriodMs c = 60000 / revsPerMinute (eeprom (board c)) /\
  1000 <= revTimePeriodMs c <= 10000.
Proof.
  apply (cycle_period_stays_positive no_libm no_libm demo_pins 6 1000
           (demo_board blank_settings)
           [CMutate (SetSpeedPercent 0); CPoll 2000; CMutate (UpdateSpeed 1)]).
  left. left. discriminate.
Defined.

Lemma justOn_shows_brightness_setting_witness :
  let c := demo_cluster_b32 (set_pattern 0 chase_settings) in
  let c' := poll (FA := binary32 no_libm no_libm) 2000 (snd (setBrightnessPercent 50 c)) in
  map brightness (leds c') = map (fun _ => 5 * Z.max 1 (50 / 5)) (leds c) /\
  map pin (leds c') = map pin (leds c) /\
  brightnessMultiplier (eeprom (board c')) = Z.max 1 (50 / 5).
Proof.
  apply (justOn_shows_brightness_setting no_libm no_libm 50 2000
           (demo_cluster_b32 (set_pattern 0 chase_settings))).
  - reflexivity.
  - reflexivity.
  - lia.
Defined.

Lemma timeout_once_per_press_witness :
  let h := new_InputHelper SettingSelectionBtn true true 2000 0 0 in
  let reads := [(100, 1, 1); (1000, 1, 0); (2500, 1, 1); (5000, 1, 1); (6000, 0, 0)] in
  timeouts_spaced (trigger_timeout h) (fst (InputHelper_polls reads h)) = true /\
  toggles_alternate (lastState h) (fst (InputHelper_polls reads h)) = true.
Proof.
  apply (timeout_once_per_press
           [(100, 1, 1); (1000, 1, 0); (2500, 1, 1); (5000, 1, 1); (6000, 0, 0)]
           (new_InputHelper SettingSelectionBtn true true 2000 0 0)).
  - reflexivity.
  - reflexivity.
Defined.

Lemma asleep_is_dark_witness :
  exists c, cluster (demo_sketch held_env 1) = Some c /\
            running c = false /\
            Forall (fun p => pin_level p (pwm_log (board c)) = Some 0)
                   [DisplayLED1; DisplayLED2; DisplayLED3;
                    DisplayLED4; DisplayLED5; DisplayLED6].
Proof.
  apply (asleep_is_dark (FA := binary32 no_libm no_libm) held_env
           (demo_board blank_settings) (fun n => 16807 * Z.of_nat (S n)) 1).
  vm_compute. reflexivity.
Defined.

Lemma sketch_keeps_settings_in_range_witness :
  exists c, cluster (demo_sketch idle_env 2) = Some c /\
            settings_in_range (eeprom (board c)) /\
            settings c = eeprom (board c) /\
            revTimePeriodMs c
              = periodOf (FA := binary32 no_libm no_libm) (revsPerMinute (eeprom (board c))).
Proof.
  apply (sketch_keeps_settings_in_range (FA := binary32 no_libm no_libm) idle_env
           (demo_board blank_settings) (fun n => 16807 * Z.of_nat (S n)) 2).
  left. left. discriminate.
Defined.

Lemma loop_pass_without_serial_witness :
  mode_step (mode (demo_sketch idle_env 0))
            (mode (loop (FA := binary32 no_libm no_libm) (demo_sketch idle_env 0))) = true /\
  (mode (demo_sketch idle_env 0) = Running \/ mode (demo_sketch idle_env 0) = Sleep ->
   stored (loop (FA := binary32 no_libm no_libm) (demo_sketch idle_env 0))
     = stored (demo_sketch idle_env 0)).
Proof.
  apply (loop_pass_without_serial (FA := binary32 no_libm no_libm)
           (demo_sketch idle_env 0)).
  vm_compute. reflexivity.
Defined.

Lemma sleep_needs_armed_hold_witness :
  mode (loop (FA := binary32 no_libm no_libm) (demo_sketch idle_env 0)) <> Sleep.
Proof.
  apply (sleep_needs_armed_hold (FA := binary32 no_libm no_libm) (demo_sketch idle_env 0)).
  - vm_compute. reflexivity.
  - vm_compute. discriminate.
  - intros _. left. vm_compute. reflexivity.
Defined.

Lemma api_request_changes_nothing_witness :
  handleSerialCommand (FA := binary32 no_libm no_libm) ["a"; "p"]%char chase_sketch
  = chase_sketch.
Proof.
  apply (api_request_changes_nothing (FA := binary32 no_libm no_libm)
           ["a"; "p"]%char ["i"; "?"]%char chase_sketch).
  - discriminate.
  - reflexivity.
Defined.

Lemma serial_pattern_command_witness :
  let c := demo_cluster_b32 chase_settings in
  let s' := handleSerialCommand (FA := binary32 no_libm no_libm)
              ("P"%char :: decimal 2 12) chase_sketch in
  mode s' = mode chase_sketch /\
  cluster s' = Some (snd (setPattern 12 c)) /\
  pattern (eeprom (board (snd (setPattern 12 c)))) = Z.min 12 12 /\
  (12 <= 12 ->
   forall now,
     board (poll (FA := binary32 no_libm no_libm) now (snd (setPattern 12 c)))
       = board (snd (setPattern 12 c)) /\
     leds (poll (FA := binary32 no_libm no_libm) now (snd (setPattern 12 c))) = leds c).
Proof.
  apply (serial_pattern_command (FA := binary32 no_libm no_libm) 1 12
           (demo_cluster_b32 chase_settings) chase_sketch).
  - reflexivity.
  - vm_compute. split; [discriminate|reflexivity].
  - lia.
Defined.

Lemma getIncomingValue_reads_decimal_witness :
  (0 <= 70 < 10 ^ Z.of_nat 3 /\ 70 <= 32767) /\
  getIncomingValue (decimal 3 70) = 70 /\
  getIncomingValue ("="%char :: decimal 3 70) = 70 /\
  (forall junk, isDigit junk = false ->
                getIncomingValue (decimal 3 70 ++ [junk]) = 0).
Proof.
  split; [split; [split|]; vm_compute; try reflexivity; discriminate|].
  apply (getIncomingValue_reads_decimal 3 70); [split|]; vm_compute; try reflexivity;
    discriminate.
Defined.

